(** * budget-api: a shallow embedding of the models, serializers and views

    The relational store behind the Django ORM is modelled as five tables
    of rows with integer primary keys and one sequence per table.  Model
    methods, serializer hooks and view methods are functions over that
    store; code that can raise runs in a small state-and-exception monad
    whose state survives an exception (the ORM autocommits every
    statement). *)

From Stdlib Require Import ZArith Ascii String List Bool Lia Permutation.
From Stdlib Require DecimalString.
Import ListNotations.
Open Scope Z_scope.

(** ** Values *)

(** [DecimalField(max_digits=20, decimal_places=2)]: an exact fixed-point
    number with two decimal places, kept as its count of hundredths. *)
Definition Decimal := Z.

(** [dec u c] is the decimal literal [u.c], e.g. [dec 5 50] is 5.50. *)
Definition dec (units cents : Z) : Decimal := units * 100 + cents.

(** [Decimal(0)] *)
Definition Decimal_0 : Decimal := 0.

(** An authenticated [auth.User] as the views see it in [request.user]. *)
Record User := mkUser { user_pk : Z; is_staff : bool }.

(** Python indexing of a sequence: negative indices count from the end,
    anything else out of range raises [IndexError] (here [None]). *)
Definition py_index {A : Type} (l : list A) (i : Z) : option A :=
  let n := Z.of_nat (List.length l) in
  if (0 <=? i) && (i <? n) then nth_error l (Z.to_nat i)
  else if (- n <=? i) && (i <? 0) then nth_error l (Z.to_nat (i + n))
  else None.

(** [enumerate(l)] *)
Fixpoint enumerate_from {A : Type} (i : Z) (l : list A) : list (Z * A) :=
  match l with
  | [] => []
  | x :: r => (i, x) :: enumerate_from (i + 1) r
  end.

Definition enumerate {A : Type} (l : list A) : list (Z * A) := enumerate_from 0 l.

(** ** Python strings

    A [string] holds the UTF-8 bytes of a Python [str]. *)

(** The code points that [str.strip()] takes for whitespace, as UTF-8:
    one byte for U+0009..U+000D and U+001C..U+0020, two bytes for U+0085
    and U+00A0, three bytes for U+1680, U+2000..U+200A, U+2028, U+2029,
    U+202F, U+205F and U+3000. *)
Definition space1 (a : ascii) : bool :=
  let n := N_of_ascii a in
  (((9 <=? n) && (n <=? 13)) || ((28 <=? n) && (n <=? 32)))%N.

Definition space2 (a b : ascii) : bool :=
  let m := N_of_ascii a in
  let n := N_of_ascii b in
  ((m =? 194) && ((n =? 133) || (n =? 160)))%N.

Definition space3 (a b c : ascii) : bool :=
  let l := N_of_ascii a in
  let m := N_of_ascii b in
  let n := N_of_ascii c in
  (((l =? 225) && (m =? 154) && (n =? 128))
   || ((l =? 226) && (m =? 128)
       && (((128 <=? n) && (n <=? 138)) || (n =? 168) || (n =? 169) || (n =? 175)))
   || ((l =? 226) && (m =? 129) && (n =? 159))
   || ((l =? 227) && (m =? 128) && (n =? 128)))%N.

(** The bytes without their leading whitespace; with [backwards] the
    list is a text read from its end, and what goes is the trailing
    whitespace of that text. *)
Fixpoint strip_front (backwards : bool) (s : list ascii) : list ascii :=
  match s with
  | [] => s
  | a :: r =>
      if space1 a then strip_front backwards r
      else
        match r with
        | [] => s
        | b :: r2 =>
            if (if backwards then space2 b a else space2 a b)
            then strip_front backwards r2
            else
              match r2 with
              | [] => s
              | c :: r3 =>
                  if (if backwards then space3 c b a else space3 a b c)
                  then strip_front backwards r3
                  else s
              end
        end
  end.

(** [s.strip()] *)
Definition str_strip (s : string) : string :=
  string_of_list_ascii
    (rev (strip_front true (rev (strip_front false (list_ascii_of_string s))))).

(** [len(s)]: the code points of [s], which are its bytes other than
    the continuation bytes 0x80..0xBF. *)
Definition len (s : string) : Z :=
  Z.of_nat
    (List.length
       (filter (fun a => negb ((128 <=? N_of_ascii a) && (N_of_ascii a <? 192))%N)
          (list_ascii_of_string s))).

(** The test of Django's [ProhibitNullCharactersValidator]: a NUL in [s]. *)
Definition has_null_character (s : string) : bool :=
  existsb (fun a => (N_of_ascii a =? 0)%N) (list_ascii_of_string s).

(** [str(n)] of an integer. *)
Definition str_of_int (n : Z) : string :=
  DecimalString.NilZero.string_of_int (Z.to_int n).

(** The double quote, as a string. *)
Definition quote : string := String (ascii_of_N 34) EmptyString.

(** rest_framework's [CharField.run_validation] of a required field with
    the defaults [trim_whitespace=True] and [allow_blank=False]: a value
    that is empty once stripped is refused as blank; otherwise
    [to_internal_value] strips it and the validators run on the stripped
    value, [MaxLengthValidator] where the field has a [max_length], then
    [ProhibitNullCharactersValidator].  [None] is a field left out of the
    request; [inl] holds the messages of the [ValidationError]. *)
Definition CharField_run_validation (max_length : option Z) (data : option string)
  : list string + string :=
  match data with
  | None => inl ["This field is required."%string]
  | Some v =>
      let value := str_strip v in
      if String.eqb value "" then inl ["This field may not be blank."%string]
      else
        let too_long :=
          match max_length with
          | Some n =>
              if n <? len value
              then [("Ensure this field has no more than " ++ str_of_int n
                     ++ " characters.")%string]
              else []
          | None => []
          end in
        let null_characters :=
          if has_null_character value
          then ["Null characters are not allowed."%string]
          else [] in
        match too_long ++ null_characters with
        | [] => inr value
        | messages => inl messages
        end
  end.

(** What a [CharField] without [max_length] refuses: a text left out,
    empty once stripped, or holding a NUL. *)
Definition bad_text (data : option string) : Prop :=
  data = None
  \/ exists raw, data = Some raw
                 /\ (str_strip raw = ""%string
                     \/ has_null_character (str_strip raw) = true).

(** ** budapp/models.py: the rows *)

Module Budget.

Record t := mk { pk : Z; month : string; year : Z; owner : Z }.

Definition MONTH_CHOICES : list (string * string) :=
  [ ("JAN", "January"); ("FEB", "February"); ("MAR", "March");
    ("APR", "April"); ("MAY", "May"); ("JUN", "June");
    ("JUL", "July"); ("AUG", "August"); ("SEP", "September");
    ("OCT", "October"); ("NOV", "November"); ("DEC", "December") ]%string.

(** [{choice[0]: index for index, choice in enumerate(MONTH_CHOICES)}];
    [MONTH_LOOKUP m = None] is the [KeyError] of [MONTH_LOOKUP[m]]. *)
Definition MONTH_LOOKUP (m : string) : option Z :=
  match find (fun ic => String.eqb (fst (snd ic)) m)
             (rev (enumerate MONTH_CHOICES)) with
  | Some ic => Some (fst ic)
  | None => None
  end.

(** [Budget.get_previous_month] (static method). *)
Definition get_previous_month (month_idx year : Z) : Z * Z :=
  let month_idx := month_idx - 1 in
  if month_idx <? 0 then (11, year - 1) else (month_idx, year).

(** The fields of [Meta.unique_together]. *)
Definition unique_key (b : t) : Z * string * Z := (owner b, month b, year b).

End Budget.

Module BudgetCategoryGroup.
Record t := mk { pk : Z; name : string; budget : Z }.
Definition unique_key (g : t) : string * Z := (name g, budget g).
End BudgetCategoryGroup.

Module BudgetCategory.
Record t := mk { pk : Z; category : string; group : Z; limit : Decimal }.
End BudgetCategory.

Module Payee.
Record t := mk { pk : Z; name : string; owner : Z }.
Definition unique_key (p : t) : string * Z := (name p, owner p).
End Payee.

Module Transaction.
Record t := mk { pk : Z; amount : Decimal; payee : Z; budget_category : Z; date : Z }.
End Transaction.

(** ** The store *)

(** A table: its rows in insertion order and the next value of its
    primary-key sequence. *)
Record Table (A : Type) := mkTable { rows : list A; next_pk : Z }.
Arguments mkTable {A} _ _.
Arguments rows {A} _.
Arguments next_pk {A} _.

Definition empty_table {A : Type} : Table A := mkTable [] 1.

(** [INSERT]: the row is built from the fresh primary key. *)
Definition insert {A : Type} (mk : Z -> A) (t : Table A) : A * Table A :=
  let r := mk (next_pk t) in (r, mkTable (rows t ++ [r]) (next_pk t + 1)).

(** [DELETE ... WHERE gone]; the sequence is not rewound. *)
Definition delete_where {A : Type} (gone : A -> bool) (t : Table A) : Table A :=
  mkTable (filter (fun r => negb (gone r)) (rows t)) (next_pk t).

(** [UPDATE]: every row with primary key [k] is replaced by [r]. *)
Definition replace_pk {A : Type} (pk : A -> Z) (k : Z) (r : A) (t : Table A) : Table A :=
  mkTable (map (fun x => if pk x =? k then r else x) (rows t)) (next_pk t).

(** [instance.save()] on a table: the row with the instance's primary key
    is overwritten by the instance; were there none, the instance would be
    inserted under its key. *)
Definition save_row {A : Type} (pk : A -> Z) (instance : A) (t : Table A) : Table A :=
  if existsb (fun r => pk r =? pk instance) (rows t)
  then replace_pk pk (pk instance) instance t
  else mkTable (rows t ++ [instance]) (next_pk t).

Record Store := mkStore {
  budgets : Table Budget.t;
  groups : Table BudgetCategoryGroup.t;
  categories : Table BudgetCategory.t;
  payees : Table Payee.t;
  transactions : Table Transaction.t
}.

Definition empty_store : Store :=
  mkStore empty_table empty_table empty_table empty_table empty_table.

Definition set_budgets (t : Table Budget.t) (s : Store) : Store :=
  mkStore t (groups s) (categories s) (payees s) (transactions s).
Definition set_groups (t : Table BudgetCategoryGroup.t) (s : Store) : Store :=
  mkStore (budgets s) t (categories s) (payees s) (transactions s).
Definition set_categories (t : Table BudgetCategory.t) (s : Store) : Store :=
  mkStore (budgets s) (groups s) t (payees s) (transactions s).
Definition set_payees (t : Table Payee.t) (s : Store) : Store :=
  mkStore (budgets s) (groups s) (categories s) t (transactions s).
Definition set_transactions (t : Table Transaction.t) (s : Store) : Store :=
  mkStore (budgets s) (groups s) (categories s) (payees s) t.

(** ** Exceptions and the request monad *)

Inductive Exn :=
| DoesNotExist | MultipleObjectsReturned | IntegrityError | KeyError | IndexError.

Inductive Result (A : Type) :=
| Ok (a : A)
| Raise (e : Exn).
Arguments Ok {A} _.
Arguments Raise {A} _.

(** A computation against the store.  The store that comes back with a
    [Raise] holds whatever was written before the exception. *)
Definition M (A : Type) := Store -> Result A * Store.

Definition ret {A : Type} (a : A) : M A := fun s => (Ok a, s).

Definition bind {A B : Type} (m : M A) (k : A -> M B) : M B :=
  fun s => match m s with
           | (Ok a, s1) => k a s1
           | (Raise e, s1) => (Raise e, s1)
           end.

Definition raise {A : Type} (e : Exn) : M A := fun s => (Raise e, s).

(** A query: reads the store, leaves it alone. *)
Definition query {A : Type} (q : Store -> Result A) : M A := fun s => (q s, s).

(** A write that cannot fail. *)
Definition write {A : Type} (w : Store -> A * Store) : M A :=
  fun s => let (a, s1) := w s in (Ok a, s1).

Notation "x <- m ;; k" := (bind m (fun x => k))
  (at level 61, m at next level, right associativity).
Notation "' pat <- m ;; k" := (bind m (fun x => match x with pat => k end))
  (at level 61, pat pattern, m at next level, right associativity).

(** [QuerySet.get()] on the rows that matched. *)
Definition get {A : Type} (matching : list A) : Result A :=
  match matching with
  | [] => Raise DoesNotExist
  | [r] => Ok r
  | _ :: _ :: _ => Raise MultipleObjectsReturned
  end.

(** ** Managers *)

Definition budget_matches (year : Z) (month : string) (owner : Z) (b : Budget.t) : bool :=
  (Budget.year b =? year) && String.eqb (Budget.month b) month && (Budget.owner b =? owner).

(** [Budget.objects.filter(year=.., month=.., owner=..)] *)
Definition Budget_objects_filter (year : Z) (month : string) (owner : Z) (s : Store)
  : list Budget.t :=
  filter (budget_matches year month owner) (rows (budgets s)).

(** [Budget.objects.create(year=.., month=.., owner=..)]: the insert is
    refused by the [unique_together] constraint of [Budget.Meta] when a
    row with the same (owner, month, year) is there. *)
Definition Budget_objects_create (year : Z) (month : string) (owner : Z) : M Budget.t :=
  fun s =>
    match Budget_objects_filter year month owner s with
    | [] => let (b, t) := insert (fun k => Budget.mk k month year owner) (budgets s) in
            (Ok b, set_budgets t s)
    | _ :: _ => (Raise IntegrityError, s)
    end.

(** [Budget.objects.get_or_create(year=.., month=.., owner=..)]:
    [get], and [create] when [get] raised [DoesNotExist]. *)
Definition Budget_objects_get_or_create (year : Z) (month : string) (owner : Z)
  : M (Budget.t * bool) :=
  fun s =>
    match get (Budget_objects_filter year month owner s) with
    | Ok b => (Ok (b, false), s)
    | Raise DoesNotExist =>
        match Budget_objects_create year month owner s with
        | (Ok b, s1) => (Ok (b, true), s1)
        | (Raise e, s1) => (Raise e, s1)
        end
    | Raise e => (Raise e, s)
    end.

(** [Budget.previous] (property). *)
Definition Budget_previous (self : Budget.t) : M (option Budget.t) :=
  fun s =>
    match Budget.MONTH_LOOKUP (Budget.month self) with
    | None => (Raise KeyError, s)
    | Some idx =>
        let '(month_idx, year) := Budget.get_previous_month idx (Budget.year self) in
        match py_index Budget.MONTH_CHOICES month_idx with
        | None => (Raise IndexError, s)
        | Some choice =>
            match get (Budget_objects_filter year (fst choice) (Budget.owner self) s) with
            | Ok b => (Ok (Some b), s)
            | Raise DoesNotExist => (Ok None, s)
            | Raise e => (Raise e, s)
            end
        end
    end.

(** ** Aggregation *)

(** SQL [SUM]: [NULL] over no rows. *)
Definition Sum (l : list Decimal) : option Decimal :=
  match l with
  | [] => None
  | x :: r => Some (fold_left Z.add r x)
  end.

Definition Coalesce {A : Type} (v : option A) (default : A) : A :=
  match v with Some x => x | None => default end.

(** [Transaction.objects.filter(budget_category_id=pk)] *)
Definition Transaction_objects_filter (budget_category_id : Z) (s : Store)
  : list Transaction.t :=
  filter (fun t => Transaction.budget_category t =? budget_category_id)
         (rows (transactions s)).

(** [BudgetCategory.spent] (property). *)
Definition BudgetCategory_spent (self : BudgetCategory.t) (s : Store) : Decimal :=
  Coalesce (Sum (map Transaction.amount
                     (Transaction_objects_filter (BudgetCategory.pk self) s)))
           Decimal_0.

(** [Transaction.objects.create(...)] *)
Definition Transaction_objects_create (amount : Decimal) (payee budget_category date : Z)
  (s : Store) : Transaction.t * Store :=
  let (t, tbl) := insert (fun k => Transaction.mk k amount payee budget_category date)
                         (transactions s) in
  (t, set_transactions tbl s).

(** ** Related managers *)

(** [budget.budget_category_groups.all()] *)
Definition Budget_budget_category_groups (budget_pk : Z) (s : Store)
  : list BudgetCategoryGroup.t :=
  filter (fun g => BudgetCategoryGroup.budget g =? budget_pk) (rows (groups s)).

(** [group.budget_categories.all()] *)
Definition BudgetCategoryGroup_budget_categories (group_pk : Z) (s : Store)
  : list BudgetCategory.t :=
  filter (fun c => BudgetCategory.group c =? group_pk) (rows (categories s)).

(** ** The rollover engine *)

Definition group_matches (name : string) (budget : Z) (g : BudgetCategoryGroup.t) : bool :=
  String.eqb (BudgetCategoryGroup.name g) name && (BudgetCategoryGroup.budget g =? budget).

Definition category_matches (category : string) (group : Z) (c : BudgetCategory.t) : bool :=
  String.eqb (BudgetCategory.category c) category && (BudgetCategory.group c =? group).

Definition find_group (name : string) (budget : Z) (s : Store) : option BudgetCategoryGroup.t :=
  find (group_matches name budget) (rows (groups s)).

Definition find_category (category : string) (group : Z) (s : Store) : option BudgetCategory.t :=
  find (category_matches category group) (rows (categories s)).

(** Modelled from the spec: the get-or-create of a category group by
    (name, budget) that [Budget.copy_categories] performs; the method is
    not among the sources.  The glossary's get-or-create returns an
    existing matching row if present and otherwise inserts one; it never
    fails. *)
Definition group_get_or_create (name : string) (budget : Z) (s : Store)
  : BudgetCategoryGroup.t * Store :=
  match find_group name budget s with
  | Some g => (g, s)
  | None =>
      let (g, t) := insert (fun k => BudgetCategoryGroup.mk k name budget) (groups s) in
      (g, set_groups t s)
  end.

(** Modelled from the spec: the get-or-create of a category by
    (name, group) that [Budget.copy_categories] performs; [limit] is used
    only when the row is created, an existing row is left untouched. *)
Definition category_get_or_create (category : string) (group : Z) (limit : Decimal)
  (s : Store) : BudgetCategory.t * Store :=
  match find_category category group s with
  | Some c => (c, s)
  | None =>
      let (c, t) := insert (fun k => BudgetCategory.mk k category group limit)
                           (categories s) in
      (c, set_categories t s)
  end.

(** Modelled from the spec: the inner loop of [Budget.copy_categories],
    "for every category within that source group, get-or-create a category
    of the same name within the corresponding target group, copying the
    limit value". *)
Fixpoint copy_group_categories (target_group : BudgetCategoryGroup.t)
  (source_categories : list BudgetCategory.t) (s : Store) : Store :=
  match source_categories with
  | [] => s
  | c :: rest =>
      copy_group_categories target_group rest
        (snd (category_get_or_create (BudgetCategory.category c)
                (BudgetCategoryGroup.pk target_group) (BudgetCategory.limit c) s))
  end.

(** Modelled from the spec: the outer loop of [Budget.copy_categories],
    "for every category group owned by source, get-or-create a group of
    the same name under target".  The groups are those read when the loop
    starts; the categories of a source group are read when its turn
    comes. *)
Fixpoint copy_groups (target : Budget.t) (source_groups : list BudgetCategoryGroup.t)
  (s : Store) : Store :=
  match source_groups with
  | [] => s
  | g :: rest =>
      let (tg, s1) := group_get_or_create (BudgetCategoryGroup.name g) (Budget.pk target) s in
      copy_groups target rest
        (copy_group_categories tg
           (BudgetCategoryGroup_budget_categories (BudgetCategoryGroup.pk g) s1) s1)
  end.

(** Modelled from the spec: [Budget.copy_categories(source)], called by
    [copy_budget] and missing from the sources (step 3 of copy-budget). *)
Definition Budget_copy_categories (self source : Budget.t) (s : Store) : Store :=
  copy_groups self (Budget_budget_category_groups (Budget.pk source) s) s.

Definition mem (k : Z) (l : list Z) : bool := existsb (Z.eqb k) l.

(** Deleting category groups: [on_delete=CASCADE] of [BudgetCategory.group]
    and of [Transaction.budget_category] takes the categories of a deleted
    group and the transactions of a deleted category along. *)
Definition delete_groups_where (gone : BudgetCategoryGroup.t -> bool) (s : Store) : Store :=
  let gone_groups := map BudgetCategoryGroup.pk (filter gone (rows (groups s))) in
  let gone_category (c : BudgetCategory.t) := mem (BudgetCategory.group c) gone_groups in
  let gone_categories :=
    map BudgetCategory.pk (filter gone_category (rows (categories s))) in
  mkStore (budgets s)
    (delete_where gone (groups s))
    (delete_where gone_category (categories s))
    (payees s)
    (delete_where (fun t => mem (Transaction.budget_category t) gone_categories)
       (transactions s)).

(** Modelled from the spec: [Budget.delete_categories()], called by
    [copy_budget] and missing from the sources (step 4 of copy-budget):
    "delete all of target's category groups (and transitively its
    categories)". *)
Definition Budget_delete_categories (self : Budget.t) (s : Store) : Store :=
  delete_groups_where (fun g => BudgetCategoryGroup.budget g =? Budget.pk self) s.

(** [budget.delete()]: the row, and by [on_delete=CASCADE] of
    [BudgetCategoryGroup.budget] its groups with all that hangs on them. *)
Definition Budget_delete (budget_pk : Z) (s : Store) : Store :=
  let s1 := delete_groups_where (fun g => BudgetCategoryGroup.budget g =? budget_pk) s in
  set_budgets (delete_where (fun b => Budget.pk b =? budget_pk) (budgets s1)) s1.

(** ** app/views.py *)

(** [BudgetViewSet.copy_budget(self, target_year, target_month, user,
    source=None)], the second binding of the name in the class body. *)
Definition BudgetViewSet_copy_budget (target_year : Z) (target_month : string)
  (user : User) (source : option Budget.t) : M unit :=
  ' (target, created) <-
      Budget_objects_get_or_create target_year target_month (user_pk user) ;;
  source <- match source with
            | Some b => ret (Some b)
            | None => Budget_previous target
            end ;;
  match source with
  | Some src => write (fun s => (tt, Budget_copy_categories target src s))
  | None => write (fun s => (tt, Budget_delete_categories target s))
  end.

(** *** Querysets *)

(** Following a foreign key: the row of the referenced table with that
    primary key. *)
Definition by_pk {A : Type} (pk : A -> Z) (k : Z) (l : list A) : option A :=
  find (fun r => pk r =? k) l.

(** [group.owner] (property): [self.budget.owner]. *)
Definition BudgetCategoryGroup_owner (g : BudgetCategoryGroup.t) (s : Store) : option Z :=
  option_map Budget.owner (by_pk Budget.pk (BudgetCategoryGroup.budget g) (rows (budgets s))).

(** The owner a category derives through [group.budget.owner]. *)
Definition BudgetCategory_owner (c : BudgetCategory.t) (s : Store) : option Z :=
  match by_pk BudgetCategoryGroup.pk (BudgetCategory.group c) (rows (groups s)) with
  | Some g => BudgetCategoryGroup_owner g s
  | None => None
  end.

(** [transaction.owner] (property): [self.budget_category.group.budget.owner]. *)
Definition Transaction_owner (t : Transaction.t) (s : Store) : option Z :=
  match by_pk BudgetCategory.pk (Transaction.budget_category t) (rows (categories s)) with
  | Some c => BudgetCategory_owner c s
  | None => None
  end.

Definition owned_by (user : User) (owner : option Z) : bool :=
  match owner with
  | Some o => o =? user_pk user
  | None => false
  end.

(** [OwnershipFilterMixin.get_queryset]: [self.queryset.filter(owner=self.request.user)]. *)
Definition OwnershipFilterMixin_get_queryset {A : Type} (owner : A -> Z)
  (queryset : list A) (request_user : User) : list A :=
  filter (fun r => owner r =? user_pk request_user) queryset.

(** [Budget.objects.filter(owner=self.request.user)] *)
Definition BudgetViewSet_get_queryset (request_user : User) (s : Store) : list Budget.t :=
  filter (fun b => Budget.owner b =? user_pk request_user) (rows (budgets s)).

(** [BudgetCategoryGroup.objects.filter(budget__owner=self.request.user)] *)
Definition BudgetCategoryGroupViewSet_get_queryset (request_user : User) (s : Store)
  : list BudgetCategoryGroup.t :=
  filter (fun g => owned_by request_user (BudgetCategoryGroup_owner g s)) (rows (groups s)).

(** [BudgetCategory.objects.filter(group__budget__owner=self.request.user)] *)
Definition BudgetCategoryViewSet_get_queryset (request_user : User) (s : Store)
  : list BudgetCategory.t :=
  filter (fun c => owned_by request_user (BudgetCategory_owner c s)) (rows (categories s)).

(** [Transaction.objects.filter(budget_category__group__budget__owner=self.request.user)] *)
Definition TransactionViewSet_get_queryset (request_user : User) (s : Store)
  : list Transaction.t :=
  filter (fun t => owned_by request_user (Transaction_owner t s)) (rows (transactions s)).

(** [Payee.objects.filter(owner=self.request.user)] *)
Definition PayeeViewSet_get_queryset (request_user : User) (s : Store) : list Payee.t :=
  filter (fun p => Payee.owner p =? user_pk request_user) (rows (payees s)).

Section ObjectPermission.

Context {A : Type}.

(** [IsOwnerOrAdmin.has_object_permission] of [app/permissions.py], which
    is not among the sources: any decision on the requesting user and
    the object. *)
Variable has_object_permission : User -> A -> bool.

(** [GenericAPIView.get_object], which retrieve, update and destroy go
    through: the object is looked up in the viewset's queryset, then the
    object permissions are checked.  [None] is the 404 or 403 answer. *)
Definition get_object (pk : A -> Z) (queryset : list A) (request_user : User) (k : Z)
  : option A :=
  match by_pk pk k queryset with
  | Some obj => if has_object_permission request_user obj then Some obj else None
  | None => None
  end.

End ObjectPermission.

(** *** Payees *)

Definition payee_matches (name : string) (owner : Z) (p : Payee.t) : bool :=
  String.eqb (Payee.name p) name && (Payee.owner p =? owner).

(** [Payee.objects.create(name=.., owner=..)] under
    [unique_together = ('name', 'owner')]. *)
Definition Payee_objects_create (name : string) (owner : Z) : M Payee.t :=
  fun s =>
    match filter (payee_matches name owner) (rows (payees s)) with
    | [] => let (p, t) := insert (fun k => Payee.mk k name owner) (payees s) in
            (Ok p, set_payees t s)
    | _ :: _ => (Raise IntegrityError, s)
    end.

(** [Payee.objects.get_or_create(name=.., owner=..)]; a missing name
    ([None]) matches no row and cannot be inserted into the non-null
    column. *)
Definition Payee_objects_get_or_create (name : option string) (owner : Z)
  : M (Payee.t * bool) :=
  match name with
  | None => raise IntegrityError
  | Some n =>
      fun s =>
        match get (filter (payee_matches n owner) (rows (payees s))) with
        | Ok p => (Ok (p, false), s)
        | Raise DoesNotExist =>
            match Payee_objects_create n owner s with
            | (Ok p, s1) => (Ok (p, true), s1)
            | (Raise e, s1) => (Raise e, s1)
            end
        | Raise e => (Raise e, s)
        end
  end.

(** A request body: a JSON object of string members. *)
Definition Data := list (string * string).

(** [data.get(key)] *)
Definition data_get (key : string) (data : Data) : option string :=
  option_map snd (find (fun kv => String.eqb (fst kv) key) data).

(** [PayeeSerializer]: [fields = ('pk', 'name')]; [pk] is read-only, so
    the validated data holds [name] and nothing else of the body; the
    field built for [name = models.CharField(max_length=30)] is a
    [CharField] of that [max_length], so the validated name is the
    stripped one.  [None] is a validation error. *)
Definition PayeeSerializer_validated_data (data : Data) : option string :=
  match CharField_run_validation (Some 30) (data_get "name" data) with
  | inr name => Some name
  | inl _ => None
  end.

(** [PayeeViewSet.perform_create]: [serializer.save(owner=self.request.user)],
    i.e. [Payee.objects.create] on the validated data and [owner=request.user]. *)
Definition PayeeViewSet_perform_create (request_user : User) (validated_name : string)
  : M Payee.t :=
  Payee_objects_create validated_name (user_pk request_user).

(** [CreateModelMixin.create] on the payee viewset: validate, then
    [perform_create].  [Ok None] is the 400 answer. *)
Definition PayeeViewSet_create (request_user : User) (data : Data) : M (option Payee.t) :=
  match PayeeSerializer_validated_data data with
  | Some n => p <- PayeeViewSet_perform_create request_user n ;; ret (Some p)
  | None => ret None
  end.

(** *** Transactions *)

(** The validated data of a [TransactionSerializer]; a partial update may
    leave any member out. *)
Record TransactionData := mkTransactionData {
  td_amount : option Decimal;
  td_budget_category : option Z;
  td_date : option Z;
  td_payee : option string
}.

(** [TransactionSerializer.get_or_create_related]: the payee named in the
    data is got or created for the requesting user and put into the data
    in place of the name; the payee row is what the caller reads back. *)
Definition TransactionSerializer_get_or_create_related (request_user : User)
  (validated_data : TransactionData) : M Payee.t :=
  ' (payee, created) <-
      Payee_objects_get_or_create (td_payee validated_data) (user_pk request_user) ;;
  ret payee.

(** [TransactionSerializer.create]: [Transaction.objects.create] on the
    validated data; the columns are non-null. *)
Definition TransactionSerializer_create (request_user : User)
  (validated_data : TransactionData) : M Transaction.t :=
  payee <- TransactionSerializer_get_or_create_related request_user validated_data ;;
  match td_amount validated_data, td_budget_category validated_data,
        td_date validated_data with
  | Some a, Some c, Some d =>
      write (Transaction_objects_create a (Payee.pk payee) c d)
  | _, _, _ => raise IntegrityError
  end.

(** [instance.save()] of a transaction. *)
Definition Transaction_save (instance : Transaction.t) (s : Store) : unit * Store :=
  (tt, set_transactions (save_row Transaction.pk instance (transactions s)) s).
Arguments Transaction_save : simpl never.

(** [TransactionSerializer.update] *)
Definition TransactionSerializer_update (request_user : User) (instance : Transaction.t)
  (validated_data : TransactionData) : M Transaction.t :=
  payee <- TransactionSerializer_get_or_create_related request_user validated_data ;;
  _ <- write (Transaction_save instance) ;;
  ret instance.

(** *** Categories *)

Record BudgetCategoryData := mkBudgetCategoryData {
  bc_budget_month : string;
  bc_budget_year : Z;
  bc_category : string;
  bc_group : string;
  bc_limit : option Decimal
}.

(** [BudgetCategoryGroup.objects.get_or_create(budget=.., name=..)] *)
Definition BudgetCategoryGroup_objects_get_or_create (budget : Budget.t) (name : string)
  : M (BudgetCategoryGroup.t * bool) :=
  fun s =>
    match get (filter (group_matches name (Budget.pk budget)) (rows (groups s))) with
    | Ok g => (Ok (g, false), s)
    | Raise DoesNotExist =>
        let (g, t) := insert (fun k => BudgetCategoryGroup.mk k name (Budget.pk budget))
                             (groups s) in
        (Ok (g, true), set_groups t s)
    | Raise e => (Raise e, s)
    end.

(** [BudgetCategory.objects.create(category=.., group=.., limit=..)] *)
Definition BudgetCategory_objects_create (category : string) (group : Z) (limit : Decimal)
  (s : Store) : BudgetCategory.t * Store :=
  let (c, t) := insert (fun k => BudgetCategory.mk k category group limit) (categories s) in
  (c, set_categories t s).

(** [BudgetCategorySerializer.get_or_create_related] on a create (no
    [self.instance]): the group the new category goes into. *)
Definition BudgetCategorySerializer_get_or_create_related (request_user : User)
  (validated_data : BudgetCategoryData) : M BudgetCategoryGroup.t :=
  ' (budget, created) <-
      Budget_objects_get_or_create (bc_budget_year validated_data)
        (bc_budget_month validated_data) (user_pk request_user) ;;
  ' (group, created) <-
      BudgetCategoryGroup_objects_get_or_create budget (bc_group validated_data) ;;
  ret group.

(** [BudgetCategorySerializer.create]; [limit] falls back to the model
    field's default 0. *)
Definition BudgetCategorySerializer_create (request_user : User)
  (validated_data : BudgetCategoryData) : M BudgetCategory.t :=
  group <- BudgetCategorySerializer_get_or_create_related request_user validated_data ;;
  write (BudgetCategory_objects_create (bc_category validated_data)
           (BudgetCategoryGroup.pk group) (Coalesce (bc_limit validated_data) Decimal_0)).

(** *** The copy-budget action *)

(** The body of a copy-budget request; [None] is a member left out. *)
(** The data of a copy-budget request: the primary key sent as [source]
    and the integer sent as [target_year], [None] where the member is
    left out, and the text sent as [target_month]. *)
Record CopyBudgetData := mkCopyBudgetData {
  cb_source : option Z;
  cb_target_year : option Z;
  cb_target_month : option string
}.

Record Response := mkResponse { status_code : Z; errors : list (string * string) }.

Definition HTTP_200_OK : Z := 200.
Definition HTTP_400_BAD_REQUEST : Z := 400.
Definition HTTP_401_UNAUTHORIZED : Z := 401.
Definition HTTP_403_FORBIDDEN : Z := 403.
Definition HTTP_500_INTERNAL_SERVER_ERROR : Z := 500.

(** A response that reports an authorization failure, as opposed to a
    validation failure (400). *)
Definition is_authorization_error (r : Response) : bool :=
  (status_code r =? HTTP_401_UNAUTHORIZED) || (status_code r =? HTTP_403_FORBIDDEN).

(** [CopyBudgetSerializer.validate_source]; [inl] is the
    [serializers.ValidationError] raised. *)
Definition CopyBudgetSerializer_validate_source (request_user : User)
  (value : option Budget.t) : string + option Budget.t :=
  match value with
  | Some b =>
      if negb (Budget.owner b =? user_pk request_user)
      then inl "You cannot copy another user's budget."%string
      else inr value
  | None => inr value
  end.

Definition field_errors {A : Type} (field : string) (r : string + A)
  : list (string * string) :=
  match r with
  | inl msg => [(field, msg)]
  | inr _ => []
  end.

Definition field_error_list {A : Type} (field : string) (r : list string + A)
  : list (string * string) :=
  match r with
  | inl messages => map (fun msg => (field, msg)) messages
  | inr _ => []
  end.

(** [CopyBudgetSerializer.is_valid]: every field is validated in the
    order of declaration ([source] by primary-key lookup in
    [Budget.objects.all()] and then [validate_source], unless it was left
    out; [target_month] as a [CharField]), the errors are collected per
    field; [inr] is the validated data. *)
Definition CopyBudgetSerializer_is_valid (request_user : User) (data : CopyBudgetData)
  (s : Store) : list (string * string) + (option Budget.t * Z * string) :=
  let source : string + option Budget.t :=
    match cb_source data with
    | None => inr None
    | Some k =>
        match by_pk Budget.pk k (rows (budgets s)) with
        | Some b => CopyBudgetSerializer_validate_source request_user (Some b)
        | None =>
            inl ("Invalid pk " ++ quote ++ str_of_int k ++ quote
                 ++ " - object does not exist.")%string
        end
    end in
  let target_year : string + Z :=
    match cb_target_year data with
    | Some y => inr y
    | None => inl "This field is required."%string
    end in
  let target_month : list string + string :=
    CharField_run_validation None (cb_target_month data) in
  match source, target_year, target_month with
  | inr src, inr y, inr m => inr (src, y, m)
  | _, _, _ =>
      inl (field_errors "source" source ++ field_errors "target_year" target_year
           ++ field_error_list "target_month" target_month)
  end.

(** [BudgetViewSet.copy_budget(self, request)], the [@action], first
    binding of the name in the class body; the call it makes reaches the
    second binding.  An exception that escapes becomes the 500 answer. *)
Definition BudgetViewSet_copy_budget_action (request_user : User) (data : CopyBudgetData)
  (s : Store) : Response * Store :=
  match CopyBudgetSerializer_is_valid request_user data s with
  | inr (source, target_year, target_month) =>
      match BudgetViewSet_copy_budget target_year target_month request_user source s with
      | (Ok _, s1) => (mkResponse HTTP_200_OK [], s1)
      | (Raise _, s1) => (mkResponse HTTP_500_INTERNAL_SERVER_ERROR [], s1)
      end
  | inl errs => (mkResponse HTTP_400_BAD_REQUEST errs, s)
  end.

(** *** Generic writes of the model viewsets *)

(** [budget.save()] of a changed instance: the update is refused by
    [unique_together] when another row has the instance's
    (owner, month, year). *)
Definition Budget_save (instance : Budget.t) : M unit :=
  fun s =>
    if existsb (fun b => negb (Budget.pk b =? Budget.pk instance)
                         && budget_matches (Budget.year instance) (Budget.month instance)
                              (Budget.owner instance) b)
               (rows (budgets s))
    then (Raise IntegrityError, s)
    else (Ok tt, set_budgets (save_row Budget.pk instance (budgets s)) s).

(** [UpdateModelMixin.update] on the budget viewset: the instance comes
    from the queryset ([Ok None] is the 404 answer), [BudgetSerializer]
    writes [month] and [year] where given ([owner] is read-only), then
    [save]. *)
Definition BudgetViewSet_update (request_user : User) (k : Z) (month : option string)
  (year : option Z) : M (option Budget.t) :=
  fun s =>
    match by_pk Budget.pk k (BudgetViewSet_get_queryset request_user s) with
    | None => (Ok None, s)
    | Some instance =>
        let changed :=
          Budget.mk (Budget.pk instance) (Coalesce month (Budget.month instance))
            (Coalesce year (Budget.year instance)) (Budget.owner instance) in
        (_ <- Budget_save changed ;; ret (Some changed)) s
    end.

(** [BudgetCategoryGroup.objects.create(name=.., budget=..)] under
    [unique_together = ('name', 'budget')]. *)
Definition BudgetCategoryGroup_objects_create (name : string) (budget : Z)
  : M BudgetCategoryGroup.t :=
  fun s =>
    match filter (group_matches name budget) (rows (groups s)) with
    | [] => let (g, t) := insert (fun k => BudgetCategoryGroup.mk k name budget) (groups s) in
            (Ok g, set_groups t s)
    | _ :: _ => (Raise IntegrityError, s)
    end.

(** [category.delete()]: [on_delete=CASCADE] of
    [Transaction.budget_category] takes its transactions along. *)
Definition BudgetCategory_delete (category_pk : Z) (s : Store) : Store :=
  set_transactions
    (delete_where (fun t => Transaction.budget_category t =? category_pk) (transactions s))
    (set_categories
       (delete_where (fun c => BudgetCategory.pk c =? category_pk) (categories s)) s).

(** [payee.delete()]: [on_delete=CASCADE] of [Transaction.payee]. *)
Definition Payee_delete (payee_pk : Z) (s : Store) : Store :=
  set_transactions
    (delete_where (fun t => Transaction.payee t =? payee_pk) (transactions s))
    (set_payees (delete_where (fun p => Payee.pk p =? payee_pk) (payees s)) s).

(** [transaction.delete()] *)
Definition Transaction_delete (transaction_pk : Z) (s : Store) : Store :=
  set_transactions
    (delete_where (fun t => Transaction.pk t =? transaction_pk) (transactions s)) s.

(** *** Category update *)

(** The validated data of a partial category update. *)
Record BudgetCategoryPatch := mkBudgetCategoryPatch {
  bp_budget_month : option string;
  bp_budget_year : option Z;
  bp_category : option string;
  bp_group : option string;
  bp_limit : option Decimal
}.

(** The operand of a Python [x or y] that decides: a missing or empty
    string, a missing or zero integer are falsy. *)
Definition truthy_string (x : option string) : option string :=
  match x with
  | Some v => if String.eqb v "" then None else Some v
  | None => None
  end.

Definition truthy_int (x : option Z) : option Z :=
  match x with
  | Some v => if v =? 0 then None else Some v
  | None => None
  end.

(** [instance.group] and [group.budget]: the referenced row is fetched. *)
Definition BudgetCategory_group (c : BudgetCategory.t) : M BudgetCategoryGroup.t :=
  query (fun s => match by_pk BudgetCategoryGroup.pk (BudgetCategory.group c)
                          (rows (groups s)) with
                  | Some g => Ok g
                  | None => Raise DoesNotExist
                  end).

Definition BudgetCategoryGroup_budget (g : BudgetCategoryGroup.t) : M Budget.t :=
  query (fun s => match by_pk Budget.pk (BudgetCategoryGroup.budget g)
                          (rows (budgets s)) with
                  | Some b => Ok b
                  | None => Raise DoesNotExist
                  end).

(** [BudgetCategorySerializer.get_or_create_related] on an update: what
    the data leaves out (or gives falsy) is taken from the instance. *)
Definition BudgetCategorySerializer_get_or_create_related_instance (request_user : User)
  (instance : BudgetCategory.t) (validated_data : BudgetCategoryPatch)
  : M BudgetCategoryGroup.t :=
  budget_month <- match truthy_string (bp_budget_month validated_data) with
                  | Some m => ret m
                  | None => g <- BudgetCategory_group instance ;;
                            b <- BudgetCategoryGroup_budget g ;;
                            ret (Budget.month b)
                  end ;;
  budget_year <- match truthy_int (bp_budget_year validated_data) with
                 | Some y => ret y
                 | None => g <- BudgetCategory_group instance ;;
                           b <- BudgetCategoryGroup_budget g ;;
                           ret (Budget.year b)
                 end ;;
  group <- match truthy_string (bp_group validated_data) with
           | Some n => ret n
           | None => g <- BudgetCategory_group instance ;;
                     ret (BudgetCategoryGroup.name g)
           end ;;
  ' (budget, created) <-
      Budget_objects_get_or_create budget_year budget_month (user_pk request_user) ;;
  ' (group, created) <- BudgetCategoryGroup_objects_get_or_create budget group ;;
  ret group.

(** [BudgetCategorySerializer.update]: after [get_or_create_related] the
    data holds the group and what was given of [category] and [limit];
    [ModelSerializer.update] sets these on the instance and saves it. *)
Definition BudgetCategorySerializer_update (request_user : User)
  (instance : BudgetCategory.t) (validated_data : BudgetCategoryPatch)
  : M BudgetCategory.t :=
  group <- BudgetCategorySerializer_get_or_create_related_instance request_user instance
             validated_data ;;
  let changed :=
    BudgetCategory.mk (BudgetCategory.pk instance)
      (Coalesce (bp_category validated_data) (BudgetCategory.category instance))
      (BudgetCategoryGroup.pk group)
      (Coalesce (bp_limit validated_data) (BudgetCategory.limit instance)) in
  _ <- write (fun s => (tt, set_categories
                              (save_row BudgetCategory.pk changed (categories s)) s)) ;;
  ret changed.

(** *** The class body of [BudgetViewSet] *)

(** What a class body binds a name to, as far as the router can tell:
    an extra action is a method that carries the mapping [@action] gave
    it. *)
Inductive ClassMember :=
| Attribute
| Method
| ActionMethod (detail : bool) (methods : list string).

(** The bindings of the class body of [BudgetViewSet], in order. *)
Definition BudgetViewSet_body : list (string * ClassMember) :=
  [ ("queryset", Attribute); ("serializer_class", Attribute);
    ("permission_classes", Attribute); ("filter_fields", Attribute);
    ("get_queryset", Method);
    ("copy_budget", ActionMethod false ["post"]);
    ("copy_budget", Method) ]%string.

(** [getattr(cls, name)]: the last binding of the name in the body. *)
Definition class_getattr (name : string) (body : list (string * ClassMember))
  : option ClassMember :=
  option_map snd (find (fun nm => String.eqb (fst nm) name) (rev body)).

(** [ViewSetMixin.get_extra_actions]: the attributes of the class that
    are extra actions; these are what the router gives a route. *)
Definition get_extra_actions (body : list (string * ClassMember)) : list string :=
  nodup string_dec
    (map fst (filter (fun nm => match class_getattr (fst nm) body with
                                | Some (ActionMethod _ _) => true
                                | _ => false
                                end) body)).

(** ** Histories of the store *)

(** The writes the API offers. *)
Inductive Op :=
| OpBudgetCreate (user : User) (year : Z) (month : string)
| OpBudgetUpdate (user : User) (budget_pk : Z) (month : option string) (year : option Z)
| OpBudgetDelete (budget_pk : Z)
| OpCopyBudget (user : User) (target_year : Z) (target_month : string)
    (source : option Budget.t)
| OpGroupCreate (name : string) (budget_pk : Z)
| OpGroupDelete (group_pk : Z)
| OpCategoryCreate (user : User) (data : BudgetCategoryData)
| OpCategoryUpdate (user : User) (category_pk : Z) (data : BudgetCategoryPatch)
| OpCategoryDelete (category_pk : Z)
| OpPayeeCreate (user : User) (data : Data)
| OpPayeeDelete (payee_pk : Z)
| OpTransactionCreate (user : User) (data : TransactionData)
| OpTransactionUpdate (user : User) (transaction_pk : Z) (data : TransactionData)
| OpTransactionDelete (transaction_pk : Z).

(** The store after a write, whether it returned or raised. *)
Definition exec (op : Op) (s : Store) : Store :=
  match op with
  | OpBudgetCreate u y m => snd (Budget_objects_create y m (user_pk u) s)
  | OpBudgetUpdate u k m y => snd (BudgetViewSet_update u k m y s)
  | OpBudgetDelete k => Budget_delete k s
  | OpCopyBudget u y m src => snd (BudgetViewSet_copy_budget y m u src s)
  | OpGroupCreate n b => snd (BudgetCategoryGroup_objects_create n b s)
  | OpGroupDelete k => delete_groups_where (fun g => BudgetCategoryGroup.pk g =? k) s
  | OpCategoryCreate u d => snd (BudgetCategorySerializer_create u d s)
  | OpCategoryUpdate u k d =>
      match by_pk BudgetCategory.pk k (BudgetCategoryViewSet_get_queryset u s) with
      | Some instance => snd (BudgetCategorySerializer_update u instance d s)
      | None => s
      end
  | OpCategoryDelete k => BudgetCategory_delete k s
  | OpPayeeCreate u d => snd (PayeeViewSet_create u d s)
  | OpPayeeDelete k => Payee_delete k s
  | OpTransactionCreate u d => snd (TransactionSerializer_create u d s)
  | OpTransactionUpdate u k d =>
      match by_pk Transaction.pk k (TransactionViewSet_get_queryset u s) with
      | Some instance => snd (TransactionSerializer_update u instance d s)
      | None => s
      end
  | OpTransactionDelete k => Transaction_delete k s
  end.

(** The store a history of writes leads to from the empty database. *)
Definition run (ops : list Op) : Store := fold_left (fun s op => exec op s) ops empty_store.

(** ** Well-formed stores *)

(** Primary keys are unique and below the sequence. *)
Definition table_wf {A : Type} (pk : A -> Z) (t : Table A) : Prop :=
  NoDup (map pk (rows t)) /\ Forall (fun r => pk r < next_pk t) (rows t).

(** What the database guarantees of every store: primary keys, and the
    [unique_together] constraints of the models. *)
Record wf (s : Store) : Prop := mk_wf {
  wf_budgets : table_wf Budget.pk (budgets s);
  wf_groups : table_wf BudgetCategoryGroup.pk (groups s);
  wf_categories : table_wf BudgetCategory.pk (categories s);
  wf_payees : table_wf Payee.pk (payees s);
  wf_transactions : table_wf Transaction.pk (transactions s);
  unique_budgets : NoDup (map Budget.unique_key (rows (budgets s)));
  unique_groups : NoDup (map BudgetCategoryGroup.unique_key (rows (groups s)));
  unique_payees : NoDup (map Payee.unique_key (rows (payees s)))
}.

(** The data model's invariant on categories, which no model constraint
    declares: within a group a category name occurs once. *)
Definition category_key (c : BudgetCategory.t) : string * Z :=
  (BudgetCategory.category c, BudgetCategory.group c).

Definition categories_unique (s : Store) : Prop :=
  NoDup (map category_key (rows (categories s))).

(** The exact sum of a list of decimals. *)
Definition total (l : list Decimal) : Decimal := fold_right Z.add 0 l.

(** A computation that only reads leaves the store as it is. *)
Definition read_only {A : Type} (m : M A) : Prop := forall s, snd (m s) = s.

(** [s'] holds everything [s] holds, at the same place: budgets, payees
    and transactions are the same, groups and categories were appended
    to. *)
Record extends (s s' : Store) : Prop := mk_extends {
  ext_budgets : budgets s' = budgets s;
  ext_payees : payees s' = payees s;
  ext_transactions : transactions s' = transactions s;
  ext_groups : exists new, rows (groups s') = rows (groups s) ++ new;
  ext_categories : exists new, rows (categories s') = rows (categories s) ++ new
}.

(** ** Example data *)

Definition alice : User := mkUser 1 false.
Definition bob : User := mkUser 2 false.
Definition admin : User := mkUser 3 true.

Definition rent : BudgetCategory.t := BudgetCategory.mk 7 "Rent" 3 (dec 1000 0).

(** Alice's January 2024 budget with group "Living" and category "Rent"
    of limit 1000.00, as the category endpoint creates them. *)
Definition rent_january : BudgetCategoryData :=
  mkBudgetCategoryData "JAN" 2024 "Rent" "Living" (Some (dec 1000 0)).

Definition january_store : Store := run [OpCategoryCreate alice rent_january].

Definition alice_january : Budget.t := Budget.mk 1 "JAN" 2024 1.

(** Bob has a January budget as well, and a payee; Alice has a
    transaction on her rent. *)
Definition shared_store : Store :=
  run [ OpCategoryCreate alice rent_january;
        OpBudgetCreate bob 2024 "JAN";
        OpPayeeCreate bob [("name", "Grocer")]%string;
        OpTransactionCreate alice
          (mkTransactionData (Some (dec 1000 0)) (Some 1) (Some 20240105)
             (Some "Landlord"%string)) ].

Definition bob_january : Budget.t := Budget.mk 2 "JAN" 2024 2.

Definition alice_rent_payment : Transaction.t :=
  Transaction.mk 1 (dec 1000 0) 2 1 20240105.

(** ** More of the models and serializers *)

(** [n] applications of [get_previous_month]. *)
Fixpoint months_back (n : nat) (month_idx year : Z) : Z * Z :=
  match n with
  | O => (month_idx, year)
  | S k => let '(m, y) := Budget.get_previous_month month_idx year in months_back k m y
  end.

(** *** Dictionaries *)

Section PyDict.

Context {K V : Type}.
Variable eqb : K -> K -> bool.

(** [d[k] = v] on a Python dict, kept in insertion order: a key that is
    there keeps its place and takes the new value. *)
Fixpoint dict_set (k : K) (v : V) (d : list (K * V)) : list (K * V) :=
  match d with
  | [] => [(k, v)]
  | (k', v') :: rest => if eqb k' k then (k', v) :: rest
                        else (k', v') :: dict_set k v rest
  end.

(** [d.get(k)] *)
Definition dict_get (k : K) (d : list (K * V)) : option V :=
  option_map snd (find (fun kv => eqb (fst kv) k) d).

End PyDict.

(** [DictSerializer.to_representation]:
    [{item[self.dict_key]: item for item in items}]. *)
Definition DictSerializer_to_representation {K A : Type} (eqb : K -> K -> bool)
  (dict_key : A -> K) (items : list A) : list (K * A) :=
  fold_left (fun d item => dict_set eqb (dict_key item) item d) items [].

(** [BudgetCategoryGroupListSerializer]: [dict_key = 'name']. *)
Definition BudgetCategoryGroupListSerializer_to_representation
  (items : list BudgetCategoryGroup.t) : list (string * BudgetCategoryGroup.t) :=
  DictSerializer_to_representation String.eqb BudgetCategoryGroup.name items.

(** The list response of the group viewset: its queryset through the
    list serializer. *)
Definition BudgetCategoryGroupViewSet_list (request_user : User) (s : Store)
  : list (string * BudgetCategoryGroup.t) :=
  BudgetCategoryGroupListSerializer_to_representation
    (BudgetCategoryGroupViewSet_get_queryset request_user s).

(** *** [BudgetSerializer]: what is nested under a budget *)

(** [BudgetCategory.objects.filter(group__budget__pk=budget.pk)] *)
Definition BudgetCategory_objects_of_budget (budget_pk : Z) (s : Store)
  : list BudgetCategory.t :=
  filter (fun c => match by_pk BudgetCategoryGroup.pk (BudgetCategory.group c)
                           (rows (groups s)) with
                   | Some g => BudgetCategoryGroup.budget g =? budget_pk
                   | None => false
                   end) (rows (categories s)).

(** [Transaction.objects.filter(budget_category__group__budget__pk=budget.pk)] *)
Definition Transaction_objects_of_budget (budget_pk : Z) (s : Store)
  : list Transaction.t :=
  filter (fun t => match by_pk BudgetCategory.pk (Transaction.budget_category t)
                           (rows (categories s)) with
                   | Some c =>
                       match by_pk BudgetCategoryGroup.pk (BudgetCategory.group c)
                               (rows (groups s)) with
                       | Some g => BudgetCategoryGroup.budget g =? budget_pk
                       | None => false
                       end
                   | None => false
                   end) (rows (transactions s)).

(** [BudgetSerializer.get_budget_categories]: the categories of the
    budget, through [BudgetCategorySerializer(many=True)], whose list
    serializer is [DictSerializer] keyed by [pk]. *)
Definition BudgetSerializer_get_budget_categories (budget : Budget.t) (s : Store)
  : list (Z * BudgetCategory.t) :=
  DictSerializer_to_representation Z.eqb BudgetCategory.pk
    (BudgetCategory_objects_of_budget (Budget.pk budget) s).

(** [BudgetSerializer.get_transactions] *)
Definition BudgetSerializer_get_transactions (budget : Budget.t) (s : Store)
  : list (Z * Transaction.t) :=
  DictSerializer_to_representation Z.eqb Transaction.pk
    (Transaction_objects_of_budget (Budget.pk budget) s).

(** [BudgetSerializer.get_payees]: the payees of the requesting user,
    whatever the budget. *)
Definition BudgetSerializer_get_payees (request_user : User) (budget : Budget.t)
  (s : Store) : list (Z * Payee.t) :=
  DictSerializer_to_representation Z.eqb Payee.pk
    (filter (fun p => Payee.owner p =? user_pk request_user) (rows (payees s))).

(** *** [BudgetCategorySerializer]: validation *)

(** The row test of
    [filter(group__budget__month=.., group__budget__year=..,
    group__budget__owner=user, category=..)]; a value that is [None]
    is compared as [IS NULL], which no row of these non-null columns
    meets. *)
Definition category_in_budget (budget_month : option string) (budget_year : option Z)
  (owner : Z) (category : option string) (s : Store) (c : BudgetCategory.t) : bool :=
  match budget_month, budget_year, category with
  | Some m, Some y, Some n =>
      String.eqb (BudgetCategory.category c) n
      && match by_pk BudgetCategoryGroup.pk (BudgetCategory.group c) (rows (groups s)) with
         | Some g =>
             match by_pk Budget.pk (BudgetCategoryGroup.budget g) (rows (budgets s)) with
             | Some b => budget_matches y m owner b
             | None => false
             end
         | None => false
         end
  | _, _, _ => false
  end.

(** [BudgetCategorySerializer.validate_uniqueness]; [Some] is the message
    of the [ValidationError] raised. *)
Definition BudgetCategorySerializer_validate_uniqueness (request_user : User)
  (instance : option BudgetCategory.t) (budget_month : option string)
  (budget_year : option Z) (category : option string) (s : Store) : option string :=
  let existing :=
    filter (category_in_budget budget_month budget_year (user_pk request_user) category s)
           (rows (categories s)) in
  let existing :=
    match instance with
    | Some i => filter (fun c => negb (BudgetCategory.pk c =? BudgetCategory.pk i)) existing
    | None => existing
    end in
  match existing with
  | [] => None
  | _ :: _ => Some "Category must be unique within this budget."%string
  end.

(** [BudgetCategorySerializer.validate]: the data is returned as it came
    unless [validate_uniqueness] raised. *)
Definition BudgetCategorySerializer_validate (request_user : User)
  (instance : option BudgetCategory.t) (data : BudgetCategoryPatch) (s : Store)
  : string + BudgetCategoryPatch :=
  match BudgetCategorySerializer_validate_uniqueness request_user instance
          (bp_budget_month data) (bp_budget_year data) (bp_category data) s with
  | Some msg => inl msg
  | None => inr data
  end.

(** The data of a create, for which every field but [limit] is required,
    as [validate] sees it. *)
Definition as_patch (d : BudgetCategoryData) : BudgetCategoryPatch :=
  mkBudgetCategoryPatch (Some (bc_budget_month d)) (Some (bc_budget_year d))
    (Some (bc_category d)) (Some (bc_group d)) (bc_limit d).

(** The budget a category hangs on, through its group. *)
Definition BudgetCategory_budget (c : BudgetCategory.t) (s : Store) : option Budget.t :=
  match by_pk BudgetCategoryGroup.pk (BudgetCategory.group c) (rows (groups s)) with
  | Some g => by_pk Budget.pk (BudgetCategoryGroup.budget g) (rows (budgets s))
  | None => None
  end.

(** Within a budget a category name occurs once: what
    [validate_uniqueness] is there for. *)
Definition names_unique_in_budgets (s : Store) : Prop :=
  forall c1 c2 b,
    In c1 (rows (categories s)) -> In c2 (rows (categories s)) ->
    BudgetCategory_budget c1 s = Some b -> BudgetCategory_budget c2 s = Some b ->
    BudgetCategory.category c1 = BudgetCategory.category c2 ->
    c1 = c2.

(** Referential integrity: every foreign key names a row. *)
Record fk_ok (s : Store) : Prop := mk_fk_ok {
  fk_group_budget :
    forall g, In g (rows (groups s)) ->
      exists b, In b (rows (budgets s)) /\ Budget.pk b = BudgetCategoryGroup.budget g;
  fk_category_group :
    forall c, In c (rows (categories s)) ->
      exists g, In g (rows (groups s)) /\ BudgetCategoryGroup.pk g = BudgetCategory.group c;
  fk_transaction_category :
    forall t, In t (rows (transactions s)) ->
      exists c, In c (rows (categories s))
                /\ BudgetCategory.pk c = Transaction.budget_category t;
  fk_transaction_payee :
    forall t, In t (rows (transactions s)) ->
      exists p, In p (rows (payees s)) /\ Payee.pk p = Transaction.payee t
}.

(** Referential integrity, decided. *)
Definition fk_okb (s : Store) : bool :=
  forallb (fun g => existsb (fun b => Budget.pk b =? BudgetCategoryGroup.budget g)
                      (rows (budgets s))) (rows (groups s))
  && forallb (fun c => existsb (fun g => BudgetCategoryGroup.pk g =? BudgetCategory.group c)
                         (rows (groups s))) (rows (categories s))
  && forallb (fun t => existsb (fun c => BudgetCategory.pk c =? Transaction.budget_category t)
                         (rows (categories s))
                       && existsb (fun p => Payee.pk p =? Transaction.payee t)
                            (rows (payees s))) (rows (transactions s)).

(** Python [x or y] on what the data gives and what the instance has. *)
Definition or_string (x : option string) (y : string) : string :=
  match truthy_string x with Some v => v | None => y end.

Definition or_int (x : option Z) (y : Z) : Z :=
  match truthy_int x with Some v => v | None => y end.

(** Alice's February, rolled over from January, and a second category
    beside the rent. *)
Definition two_months_store : Store :=
  run [ OpCategoryCreate alice rent_january;
        OpCategoryCreate alice
          (mkBudgetCategoryData "JAN" 2024 "Food" "Living" (Some (dec 300 0)));
        OpCategoryCreate alice
          (mkBudgetCategoryData "FEB" 2024 "Rent" "Living" (Some (dec 1000 0))) ].

(** Alice's January after a rename: a second category, "Food", is
    created beside the rent and then renamed to "Rent" by a partial
    update that carries the new name only. *)
Definition food_january : BudgetCategoryData :=
  mkBudgetCategoryData "JAN" 2024 "Food" "Living" (Some (dec 300 0)).

Definition rename_to_rent : BudgetCategoryPatch :=
  mkBudgetCategoryPatch None None (Some "Rent"%string) None None.

Definition before_rename_store : Store :=
  run [OpCategoryCreate alice rent_january; OpCategoryCreate alice food_january].

Definition renamed_store : Store :=
  run [ OpCategoryCreate alice rent_january;
        OpCategoryCreate alice food_january;
        OpCategoryUpdate alice 2 rename_to_rent ].

(** A budget whose month is not one of the twelve codes, as a category
    create for the month "jan" leaves it. *)
Definition lowercase_store : Store :=
  run [ OpCategoryCreate alice
          (mkBudgetCategoryData "jan" 2024 "Rent" "Living" (Some (dec 1000 0))) ].

(** * Theorems *)

(** ** Previous month *)

(** C3: for a month index m in 0..11 and any year y, [get_previous_month]
    returns (11, y-1) when m = 0 and (m-1, y) otherwise. *)
Theorem get_previous_month_spec (m y : Z) :
  0 <= m <= 11 ->
  Budget.get_previous_month m y = if m =? 0 then (11, y - 1) else (m - 1, y).
Proof.
  intros Hm. unfold Budget.get_previous_month.
  destruct (Z.eqb_spec m 0) as [-> | Hne].
  - reflexivity.
  - destruct (Z.ltb_spec (m - 1) 0); [lia | reflexivity].
Qed.

Lemma get_previous_month_spec_witness :
  Budget.get_previous_month 0 2024 = (11, 2023)
  /\ Budget.get_previous_month 5 2024 = (4, 2024).
Proof.
  split.
  - apply (get_previous_month_spec 0 2024). lia.
  - apply (get_previous_month_spec 5 2024). lia.
Defined.

(** ** Aggregation *)

Lemma fold_left_add_total (l : list Decimal) (a : Decimal) :
  fold_left Z.add l a = a + total l.
Proof.
  revert a. induction l as [| x l IH]; intros a; simpl.
  - lia.
  - rewrite IH. unfold total. lia.
Qed.

Lemma Coalesce_Sum_total (l : list Decimal) :
  Coalesce (Sum l) Decimal_0 = total l.
Proof.
  destruct l as [| x l]; simpl.
  - reflexivity.
  - rewrite fold_left_add_total. reflexivity.
Qed.

Lemma total_app (l1 l2 : list Decimal) : total (l1 ++ l2) = total l1 + total l2.
Proof.
  unfold total. induction l1 as [| x l1 IH]; simpl; [reflexivity | rewrite IH; lia].
Qed.

Lemma spent_after_create (c : BudgetCategory.t) (a : Decimal) (p k d : Z) (s : Store) :
  BudgetCategory_spent c (snd (Transaction_objects_create a p k d s)) =
  if k =? BudgetCategory.pk c then BudgetCategory_spent c s + a
  else BudgetCategory_spent c s.
Proof.
  unfold BudgetCategory_spent. rewrite !Coalesce_Sum_total.
  unfold Transaction_objects_create, Transaction_objects_filter, insert. simpl.
  rewrite filter_app, map_app, total_app. simpl.
  destruct (k =? BudgetCategory.pk c); simpl; unfold total; simpl; lia.
Qed.

(** C6: [spent] of a category is the exact fixed-point sum of [amount]
    over the transactions whose [budget_category] is that category, read
    from the store as it is at the time of the call: it is 0 when there is
    no such transaction, a newly created transaction of the category adds
    exactly its amount (one of another category adds nothing), and after
    transactions of 10.00 and 5.50 it is exactly 15.50. *)
Theorem spent_is_exact_sum (c : BudgetCategory.t) (s : Store) :
  BudgetCategory_spent c s =
    total (map Transaction.amount
             (filter (fun t => Transaction.budget_category t =? BudgetCategory.pk c)
                     (rows (transactions s))))
  /\ (Transaction_objects_filter (BudgetCategory.pk c) s = [] ->
      BudgetCategory_spent c s = 0
      /\ forall p1 d1 p2 d2,
           BudgetCategory_spent c
             (snd (Transaction_objects_create (dec 5 50) p2 (BudgetCategory.pk c) d2
                (snd (Transaction_objects_create (dec 10 0) p1 (BudgetCategory.pk c) d1 s))))
           = dec 15 50)
  /\ (forall a p k d,
        BudgetCategory_spent c (snd (Transaction_objects_create a p k d s)) =
        if k =? BudgetCategory.pk c then BudgetCategory_spent c s + a
        else BudgetCategory_spent c s).
Proof.
  split; [| split].
  - unfold BudgetCategory_spent. now rewrite Coalesce_Sum_total.
  - intros Hnone.
    assert (H0 : BudgetCategory_spent c s = 0).
    { unfold BudgetCategory_spent. now rewrite Hnone. }
    split; [exact H0 |].
    intros p1 d1 p2 d2. rewrite !spent_after_create, Z.eqb_refl, H0.
    reflexivity.
  - intros a p k d. apply spent_after_create.
Qed.

Lemma spent_is_exact_sum_witness :
  BudgetCategory_spent rent empty_store = 0
  /\ BudgetCategory_spent rent
       (snd (Transaction_objects_create (dec 5 50) 1 7 20240102
          (snd (Transaction_objects_create (dec 10 0) 1 7 20240101 empty_store))))
     = dec 15 50.
Proof.
  destruct (spent_is_exact_sum rent empty_store) as [_ [H _]].
  destruct (H eq_refl) as [H0 H1].
  split; [exact H0 | exact (H1 1 20240101 1 20240102)].
Defined.

(** ** Tables *)

Section TableFacts.

Context {A : Type} (pk : A -> Z).

Lemma NoDup_map_filter {K : Type} (key : A -> K) (f : A -> bool) (l : list A) :
  NoDup (map key l) -> NoDup (map key (filter f l)).
Proof.
  induction l as [| a l IH]; simpl; intros H; [constructor |].
  inversion H as [| ? ? Hnin Hnd]; subst.
  destruct (f a); simpl; [constructor |]; auto.
  intros Hin. apply Hnin. apply in_map_iff in Hin as (x & Hx & Hxin).
  apply filter_In in Hxin as [Hxin _]. apply in_map_iff. eauto.
Qed.

Lemma NoDup_map_snoc {K : Type} (key : A -> K) (l : list A) (r : A) :
  NoDup (map key l) -> ~ In (key r) (map key l) -> NoDup (map key (l ++ [r])).
Proof.
  intros Hnd Hnin. rewrite map_app. simpl.
  apply NoDup_app.
  - exact Hnd.
  - repeat constructor. intros [].
  - intros x Hx [<- | []]. contradiction.
Qed.

Lemma filter_nil_not_in {K : Type} (key : A -> K) (f : A -> bool) (k : K) (l : list A) :
  (forall r, f r = true <-> key r = k) -> filter f l = [] -> ~ In k (map key l).
Proof.
  intros Hf Hnil Hin. apply in_map_iff in Hin as (r & Hr & Hrin).
  assert (Hin : In r (filter f l)) by (apply filter_In; split; [assumption | now apply Hf]).
  rewrite Hnil in Hin. exact Hin.
Qed.

Lemma filter_unique {K : Type} (key : A -> K) (f : A -> bool) (k : K) (l : list A) :
  (forall r, f r = true <-> key r = k) -> NoDup (map key l) ->
  filter f l = [] \/ exists r, filter f l = [r].
Proof.
  intros Hf. induction l as [| a l IH]; simpl; intros Hnd; [now left |].
  inversion Hnd as [| ? ? Hnin Hnd']; subst.
  destruct (f a) eqn:Hfa.
  - right. exists a. f_equal.
    destruct (filter f l) as [| b rest] eqn:Hfl; [reflexivity | exfalso].
    assert (Hb : In b (filter f l)) by (rewrite Hfl; now left).
    apply filter_In in Hb as [Hbin Hfb].
    apply Hnin. apply Hf in Hfa. apply Hf in Hfb. rewrite Hfa, <- Hfb.
    now apply in_map.
  - now apply IH.
Qed.

Lemma get_unique {K : Type} (key : A -> K) (f : A -> bool) (k : K) (l : list A) :
  (forall r, f r = true <-> key r = k) -> NoDup (map key l) ->
  (filter f l = [] /\ get (filter f l) = Raise DoesNotExist)
  \/ exists r, filter f l = [r] /\ get (filter f l) = Ok r.
Proof.
  intros Hf Hnd. destruct (filter_unique key f k l Hf Hnd) as [H | [r H]]; rewrite H.
  - now left.
  - right. now exists r.
Qed.

Lemma table_wf_empty : table_wf pk empty_table.
Proof. split; constructor. Qed.

Lemma table_wf_insert (mk : Z -> A) (t : Table A) :
  (forall k, pk (mk k) = k) -> table_wf pk t -> table_wf pk (snd (insert mk t)).
Proof.
  intros Hmk [Hnd Hlt]. unfold insert. simpl. split.
  - apply NoDup_map_snoc; [assumption |].
    rewrite Hmk. intros Hin. apply in_map_iff in Hin as (r & Hr & Hrin).
    rewrite Forall_forall in Hlt. specialize (Hlt r Hrin). lia.
  - apply Forall_app. split.
    + eapply Forall_impl; [| exact Hlt]. intros a Ha. cbn in *. lia.
    + constructor; [rewrite Hmk; cbn; lia | constructor].
Qed.

Lemma table_wf_delete_where (gone : A -> bool) (t : Table A) :
  table_wf pk t -> table_wf pk (delete_where gone t).
Proof.
  intros [Hnd Hlt]. unfold delete_where. simpl. split.
  - now apply NoDup_map_filter.
  - rewrite Forall_forall in *. intros r Hr. apply filter_In in Hr as [Hr _]. auto.
Qed.

Lemma map_replace_pk (k : Z) (r : A) (l : list A) :
  pk r = k -> map pk (map (fun x => if pk x =? k then r else x) l) = map pk l.
Proof.
  intros Hr. rewrite map_map. apply map_ext. intros x.
  destruct (Z.eqb_spec (pk x) k); congruence.
Qed.

Lemma table_wf_replace_pk (k : Z) (r : A) (t : Table A) :
  pk r = k -> table_wf pk t -> table_wf pk (replace_pk pk k r t).
Proof.
  intros Hr [Hnd Hlt]. unfold replace_pk. split; cbn [rows next_pk].
  - now rewrite map_replace_pk.
  - rewrite Forall_forall in *. intros x Hx. apply in_map_iff in Hx as (y & Hy & Hyin).
    destruct (Z.eqb_spec (pk y) k); subst x; [| auto].
    rewrite Hr, <- e. auto.
Qed.

(** Overwriting a row by itself changes nothing when keys are unique. *)
Lemma replace_pk_same (r : A) (t : Table A) :
  NoDup (map pk (rows t)) -> In r (rows t) -> replace_pk pk (pk r) r t = t.
Proof.
  destruct t as [l n]. unfold replace_pk. simpl. intros Hnd Hin. f_equal.
  rewrite <- (map_id l) at 2. apply map_ext_in. intros x Hx.
  destruct (Z.eqb_spec (pk x) (pk r)) as [Heq | Hne]; [| reflexivity].
  clear - Hnd Hin Hx Heq. induction l as [| a l IH]; [contradiction |].
  simpl in Hnd. inversion Hnd as [| ? ? Hnin Hnd']; subst.
  destruct Hin as [-> | Hin], Hx as [-> | Hx]; auto.
  - exfalso. apply Hnin. rewrite <- Heq. now apply in_map.
  - exfalso. apply Hnin. rewrite Heq. now apply in_map.
Qed.

Lemma by_pk_In (k : Z) (l : list A) (r : A) :
  by_pk pk k l = Some r -> In r l /\ pk r = k.
Proof.
  unfold by_pk. intros H. apply find_some in H as [Hin Hk].
  split; [assumption | now apply Z.eqb_eq].
Qed.

Lemma by_pk_unique (l : list A) (r : A) :
  NoDup (map pk l) -> In r l -> by_pk pk (pk r) l = Some r.
Proof.
  unfold by_pk. induction l as [| a l IH]; simpl; intros Hnd Hin; [contradiction |].
  inversion Hnd as [| ? ? Hnin Hnd']; subst.
  destruct (Z.eqb_spec (pk a) (pk r)) as [Heq | Hne].
  - destruct Hin as [-> | Hin]; [reflexivity |].
    exfalso. apply Hnin. rewrite Heq. now apply in_map.
  - destruct Hin as [-> | Hin]; [congruence | auto].
Qed.

End TableFacts.

(** ** The constraints hold in every store the API can produce *)

Lemma budget_matches_key (y : Z) (m : string) (o : Z) (b : Budget.t) :
  budget_matches y m o b = true <-> Budget.unique_key b = (o, m, y).
Proof.
  unfold budget_matches, Budget.unique_key.
  rewrite !andb_true_iff, !Z.eqb_eq, String.eqb_eq.
  split; [intros [[-> ->] ->]; reflexivity | intros [= -> -> ->]; auto].
Qed.

Lemma group_matches_key (n : string) (b : Z) (g : BudgetCategoryGroup.t) :
  group_matches n b g = true <-> BudgetCategoryGroup.unique_key g = (n, b).
Proof.
  unfold group_matches, BudgetCategoryGroup.unique_key.
  rewrite andb_true_iff, Z.eqb_eq, String.eqb_eq.
  split; [intros [-> ->]; reflexivity | intros [= -> ->]; auto].
Qed.

Lemma payee_matches_key (n : string) (o : Z) (p : Payee.t) :
  payee_matches n o p = true <-> Payee.unique_key p = (n, o).
Proof.
  unfold payee_matches, Payee.unique_key.
  rewrite andb_true_iff, Z.eqb_eq, String.eqb_eq.
  split; [intros [-> ->]; reflexivity | intros [= -> ->]; auto].
Qed.

Lemma wf_empty : wf empty_store.
Proof. constructor; simpl; try apply table_wf_empty; constructor. Qed.

Lemma wf_Budget_objects_create (y : Z) (m : string) (o : Z) (s : Store) :
  wf s -> wf (snd (Budget_objects_create y m o s)).
Proof.
  intros Hwf. unfold Budget_objects_create, Budget_objects_filter.
  destruct (filter _ _) eqn:Hf; simpl; [| assumption].
  destruct Hwf. constructor; simpl; auto.
  - now apply (table_wf_insert Budget.pk (fun k => Budget.mk k m y o)).
  - apply NoDup_map_snoc; [assumption |].
    eapply filter_nil_not_in; [| exact Hf]. intros r. apply budget_matches_key.
Qed.

Lemma wf_Budget_objects_get_or_create (y : Z) (m : string) (o : Z) (s : Store) :
  wf s -> wf (snd (Budget_objects_get_or_create y m o s)).
Proof.
  intros Hwf. unfold Budget_objects_get_or_create.
  destruct (get _) as [b | []]; simpl; try assumption.
  pose proof (wf_Budget_objects_create y m o s Hwf) as H.
  destruct (Budget_objects_create y m o s) as [[b | e] s1]; exact H.
Qed.

Lemma Budget_previous_store (b : Budget.t) (s : Store) : snd (Budget_previous b s) = s.
Proof.
  unfold Budget_previous.
  destruct (Budget.MONTH_LOOKUP _); [| reflexivity].
  destruct (Budget.get_previous_month _ _) as [i y].
  destruct (py_index _ _); [| reflexivity].
  destruct (get _) as [? | []]; reflexivity.
Qed.

Lemma find_group_none_key (n : string) (b : Z) (s : Store) :
  find_group n b s = None ->
  ~ In (n, b) (map BudgetCategoryGroup.unique_key (rows (groups s))).
Proof.
  unfold find_group. intros Hnone Hin. apply in_map_iff in Hin as (g & Hg & Hgin).
  apply (find_none _ _ Hnone) in Hgin. apply group_matches_key in Hg. congruence.
Qed.

Lemma wf_group_get_or_create (n : string) (b : Z) (s : Store) :
  wf s -> wf (snd (group_get_or_create n b s)).
Proof.
  intros Hwf. unfold group_get_or_create.
  destruct (find_group n b s) eqn:Hf; simpl; [assumption |].
  destruct Hwf. constructor; simpl; auto.
  - now apply (table_wf_insert BudgetCategoryGroup.pk
                 (fun k => BudgetCategoryGroup.mk k n b)).
  - apply NoDup_map_snoc; [assumption |]. now apply find_group_none_key.
Qed.

Lemma wf_category_get_or_create (n : string) (g : Z) (l : Decimal) (s : Store) :
  wf s -> wf (snd (category_get_or_create n g l s)).
Proof.
  intros Hwf. unfold category_get_or_create.
  destruct (find_category n g s); simpl; [assumption |].
  destruct Hwf. constructor; simpl; auto.
  now apply (table_wf_insert BudgetCategory.pk (fun k => BudgetCategory.mk k n g l)).
Qed.

Lemma wf_copy_group_categories (tg : BudgetCategoryGroup.t) (cs : list BudgetCategory.t)
  (s : Store) : wf s -> wf (copy_group_categories tg cs s).
Proof.
  revert s. induction cs as [| c cs IH]; simpl; intros s Hwf; [assumption |].
  apply IH. now apply wf_category_get_or_create.
Qed.

Lemma wf_copy_groups (t : Budget.t) (gs : list BudgetCategoryGroup.t) (s : Store) :
  wf s -> wf (copy_groups t gs s).
Proof.
  revert s. induction gs as [| g gs IH]; simpl; intros s Hwf; [assumption |].
  pose proof (wf_group_get_or_create (BudgetCategoryGroup.name g) (Budget.pk t) s Hwf) as H.
  destruct (group_get_or_create _ _ s) as [tg s1]. simpl in H.
  apply IH. now apply wf_copy_group_categories.
Qed.

Lemma wf_delete_groups_where (gone : BudgetCategoryGroup.t -> bool) (s : Store) :
  wf s -> wf (delete_groups_where gone s).
Proof.
  intros []. unfold delete_groups_where.
  constructor; simpl; auto using table_wf_delete_where, NoDup_map_filter.
Qed.

Lemma wf_Budget_delete (k : Z) (s : Store) : wf s -> wf (Budget_delete k s).
Proof.
  intros Hwf. unfold Budget_delete.
  destruct (wf_delete_groups_where
              (fun g => BudgetCategoryGroup.budget g =? k) s Hwf).
  constructor; simpl; auto using table_wf_delete_where, NoDup_map_filter.
Qed.

Lemma wf_copy_budget (y : Z) (m : string) (u : User) (src : option Budget.t) (s : Store) :
  wf s -> wf (snd (BudgetViewSet_copy_budget y m u src s)).
Proof.
  intros Hwf. unfold BudgetViewSet_copy_budget, bind.
  pose proof (wf_Budget_objects_get_or_create y m (user_pk u) s Hwf) as H1.
  destruct (Budget_objects_get_or_create y m (user_pk u) s) as [[[t c] | e] s1];
    simpl in H1; [| exact H1].
  destruct src as [b |].
  - unfold ret, write, Budget_copy_categories. simpl. now apply wf_copy_groups.
  - pose proof (Budget_previous_store t s1) as H2.
    destruct (Budget_previous t s1) as [[[p |] | e] s2]; simpl in H2; subst s2;
      unfold write, Budget_copy_categories, Budget_delete_categories; simpl;
      auto using wf_copy_groups, wf_delete_groups_where.
Qed.

Lemma wf_BudgetCategoryGroup_objects_get_or_create (b : Budget.t) (n : string) (s : Store) :
  wf s -> wf (snd (BudgetCategoryGroup_objects_get_or_create b n s)).
Proof.
  intros Hwf. unfold BudgetCategoryGroup_objects_get_or_create.
  destruct (get_unique BudgetCategoryGroup.unique_key (group_matches n (Budget.pk b))
              (n, Budget.pk b) (rows (groups s)))
    as [[Hnil ->] | (g & _ & ->)]; simpl;
    [intros r; apply group_matches_key | apply Hwf | | assumption].
  destruct Hwf. constructor; simpl; auto.
  - now apply (table_wf_insert BudgetCategoryGroup.pk
                 (fun k => BudgetCategoryGroup.mk k n (Budget.pk b))).
  - apply NoDup_map_snoc; [assumption |].
    eapply filter_nil_not_in; [| exact Hnil]. intros r. apply group_matches_key.
Qed.

Lemma wf_BudgetCategory_objects_create (n : string) (g : Z) (l : Decimal) (s : Store) :
  wf s -> wf (snd (BudgetCategory_objects_create n g l s)).
Proof.
  intros []. unfold BudgetCategory_objects_create. constructor; simpl; auto.
  now apply (table_wf_insert BudgetCategory.pk (fun k => BudgetCategory.mk k n g l)).
Qed.

Lemma wf_BudgetCategorySerializer_create (u : User) (d : BudgetCategoryData) (s : Store) :
  wf s -> wf (snd (BudgetCategorySerializer_create u d s)).
Proof.
  intros Hwf.
  unfold BudgetCategorySerializer_create, BudgetCategorySerializer_get_or_create_related, bind.
  pose proof (wf_Budget_objects_get_or_create (bc_budget_year d) (bc_budget_month d)
                (user_pk u) s Hwf) as H1.
  destruct (Budget_objects_get_or_create _ _ _ s) as [[[b c] | e] s1]; simpl in H1;
    [| exact H1].
  pose proof (wf_BudgetCategoryGroup_objects_get_or_create b (bc_group d) s1 H1) as H2.
  destruct (BudgetCategoryGroup_objects_get_or_create b (bc_group d) s1)
    as [[[g c'] | e] s2]; simpl in H2; [| exact H2].
  unfold ret, write.
  pose proof (wf_BudgetCategory_objects_create (bc_category d) (BudgetCategoryGroup.pk g)
                (Coalesce (bc_limit d) Decimal_0) s2 H2) as H3.
  destruct (BudgetCategory_objects_create _ _ _ s2). exact H3.
Qed.

Lemma wf_Payee_objects_create (n : string) (o : Z) (s : Store) :
  wf s -> wf (snd (Payee_objects_create n o s)).
Proof.
  intros Hwf. unfold Payee_objects_create.
  destruct (filter _ _) eqn:Hf; simpl; [| assumption].
  destruct Hwf. constructor; simpl; auto.
  - now apply (table_wf_insert Payee.pk (fun k => Payee.mk k n o)).
  - apply NoDup_map_snoc; [assumption |].
    eapply filter_nil_not_in; [| exact Hf]. intros r. apply payee_matches_key.
Qed.

Lemma wf_Payee_objects_get_or_create (n : option string) (o : Z) (s : Store) :
  wf s -> wf (snd (Payee_objects_get_or_create n o s)).
Proof.
  intros Hwf. unfold Payee_objects_get_or_create.
  destruct n as [n |]; [| exact Hwf].
  destruct (get _) as [p | []]; simpl; try assumption.
  pose proof (wf_Payee_objects_create n o s Hwf) as H.
  destruct (Payee_objects_create n o s) as [[p | e] s1]; exact H.
Qed.

Lemma wf_PayeeViewSet_create (u : User) (d : Data) (s : Store) :
  wf s -> wf (snd (PayeeViewSet_create u d s)).
Proof.
  intros Hwf. unfold PayeeViewSet_create, PayeeViewSet_perform_create, bind.
  destruct (PayeeSerializer_validated_data d) as [n |]; [| exact Hwf].
  pose proof (wf_Payee_objects_create n (user_pk u) s Hwf) as H.
  destruct (Payee_objects_create n (user_pk u) s) as [[p | e] s1]; exact H.
Qed.

Lemma wf_TransactionSerializer_create (u : User) (d : TransactionData) (s : Store) :
  wf s -> wf (snd (TransactionSerializer_create u d s)).
Proof.
  intros Hwf.
  unfold TransactionSerializer_create, TransactionSerializer_get_or_create_related, bind.
  pose proof (wf_Payee_objects_get_or_create (td_payee d) (user_pk u) s Hwf) as H.
  destruct (Payee_objects_get_or_create _ _ s) as [[[p c] | e] s1]; simpl in H;
    [| exact H].
  unfold ret.
  destruct (td_amount d) as [a |], (td_budget_category d) as [k |],
           (td_date d) as [dt |]; try exact H.
  unfold write, Transaction_objects_create. simpl.
  destruct H. constructor; simpl; auto.
  now apply (table_wf_insert Transaction.pk
               (fun i => Transaction.mk i a (Payee.pk p) k dt)).
Qed.

Lemma existsb_pk_In {A : Type} (pk : A -> Z) (r : A) (l : list A) :
  In r l -> existsb (fun x => pk x =? pk r) l = true.
Proof.
  intros Hin. apply existsb_exists. exists r. split; [assumption | apply Z.eqb_refl].
Qed.

(** Saving an instance that is a row of the table leaves the table as
    it is. *)
Lemma save_row_existing {A : Type} (pk : A -> Z) (instance : A) (t : Table A) :
  NoDup (map pk (rows t)) -> In instance (rows t) -> save_row pk instance t = t.
Proof.
  intros Hnd Hin. unfold save_row.
  rewrite (existsb_pk_In pk instance _ Hin). now apply replace_pk_same.
Qed.

Lemma Transaction_save_existing (instance : Transaction.t) (s : Store) :
  NoDup (map Transaction.pk (rows (transactions s))) ->
  In instance (rows (transactions s)) ->
  Transaction_save instance s = (tt, s).
Proof.
  intros Hnd Hin. unfold Transaction_save.
  rewrite save_row_existing by assumption. now destruct s.
Qed.

Lemma wf_TransactionSerializer_update (u : User) (t : Transaction.t)
  (d : TransactionData) (s : Store) :
  wf s -> In t (rows (transactions s)) ->
  wf (snd (TransactionSerializer_update u t d s)).
Proof.
  intros Hwf Hin.
  unfold TransactionSerializer_update, TransactionSerializer_get_or_create_related, bind.
  pose proof (wf_Payee_objects_get_or_create (td_payee d) (user_pk u) s Hwf) as H.
  assert (Htx : transactions (snd (Payee_objects_get_or_create
                                     (td_payee d) (user_pk u) s)) = transactions s).
  { unfold Payee_objects_get_or_create, raise, Payee_objects_create.
    destruct (td_payee d); [| reflexivity].
    destruct (get _) as [? | []]; try reflexivity.
    destruct (filter _ _); reflexivity. }
  destruct (Payee_objects_get_or_create _ _ s) as [[[p c] | e] s1]; simpl in *;
    [| exact H].
  unfold ret, write.
  change (wf (snd (Transaction_save t s1))).
  rewrite Transaction_save_existing; [exact H | |].
  - rewrite Htx. apply Hwf.
  - now rewrite Htx.
Qed.

Lemma table_wf_save_row {A : Type} (pk : A -> Z) (instance x : A) (t : Table A) :
  In x (rows t) -> pk x = pk instance -> table_wf pk t ->
  table_wf pk (save_row pk instance t).
Proof.
  intros Hin Hpk Hwf. unfold save_row.
  rewrite <- Hpk, (existsb_pk_In pk x _ Hin), Hpk.
  now apply table_wf_replace_pk.
Qed.

(** Overwriting the row of key [k] by one whose unique key no other row
    has keeps the unique keys apart. *)
Lemma NoDup_map_replace {A K : Type} (pk : A -> Z) (key : A -> K) (k : Z) (r : A)
  (l : list A) :
  NoDup (map pk l) -> NoDup (map key l) ->
  (forall x, In x l -> pk x <> k -> key x <> key r) ->
  NoDup (map key (map (fun x => if pk x =? k then r else x) l)).
Proof.
  induction l as [| a l IH]; simpl; intros Hpk Hkey Hother; [constructor |].
  inversion Hpk as [| ? ? Hpa Hpk']; inversion Hkey as [| ? ? Hka Hkey']; subst.
  constructor; [| apply IH; auto].
  intros Hin. apply in_map_iff in Hin as (y & Hy & Hyin).
  apply in_map_iff in Hyin as (x & Hx & Hxin).
  destruct (Z.eqb_spec (pk a) k) as [Hak | Hak];
    destruct (Z.eqb_spec (pk x) k) as [Hxk | Hxk]; subst y.
  - apply Hpa. rewrite Hak, <- Hxk. now apply in_map.
  - apply (Hother x); auto.
  - apply (Hother a); auto.
  - apply Hka. rewrite <- Hy. now apply in_map.
Qed.

Lemma wf_Budget_save (instance x : Budget.t) (s : Store) :
  wf s -> In x (rows (budgets s)) -> Budget.pk x = Budget.pk instance ->
  wf (snd (Budget_save instance s)).
Proof.
  intros Hwf Hin Hpk. unfold Budget_save.
  destruct (existsb _ _) eqn:E; simpl; [assumption |].
  destruct Hwf. constructor; simpl; auto.
  - now apply (table_wf_save_row Budget.pk instance x).
  - unfold save_row. rewrite <- Hpk, (existsb_pk_In Budget.pk x _ Hin), Hpk. simpl.
    apply NoDup_map_replace; auto; [apply wf_budgets0 |].
    intros b Hb Hne Hk.
    assert (Ht : existsb
                   (fun b => negb (Budget.pk b =? Budget.pk instance)
                             && budget_matches (Budget.year instance)
                                  (Budget.month instance) (Budget.owner instance) b)
                   (rows (budgets s)) = true).
    { apply existsb_exists. exists b. split; [assumption |].
      apply andb_true_iff. split.
      - apply negb_true_iff. now apply Z.eqb_neq.
      - now apply budget_matches_key. }
    congruence.
Qed.

Lemma wf_BudgetViewSet_update (u : User) (k : Z) (m : option string) (y : option Z)
  (s : Store) : wf s -> wf (snd (BudgetViewSet_update u k m y s)).
Proof.
  intros Hwf. unfold BudgetViewSet_update.
  destruct (by_pk _ _ _) as [b |] eqn:Hb; [| assumption].
  apply by_pk_In in Hb as [Hin _]. apply filter_In in Hin as [Hin _].
  unfold bind, ret.
  match goal with |- context [Budget_save ?i s] =>
    pose proof (wf_Budget_save i b s Hwf Hin eq_refl) as H;
    destruct (Budget_save i s) as [[[] | e] s1]; exact H
  end.
Qed.

Lemma wf_BudgetCategoryGroup_objects_create (n : string) (b : Z) (s : Store) :
  wf s -> wf (snd (BudgetCategoryGroup_objects_create n b s)).
Proof.
  intros Hwf. unfold BudgetCategoryGroup_objects_create.
  destruct (filter _ _) eqn:Hf; simpl; [| assumption].
  destruct Hwf. constructor; simpl; auto.
  - now apply (table_wf_insert BudgetCategoryGroup.pk
                 (fun k => BudgetCategoryGroup.mk k n b)).
  - apply NoDup_map_snoc; [assumption |].
    eapply filter_nil_not_in; [| exact Hf]. intros r. apply group_matches_key.
Qed.

Lemma wf_BudgetCategory_delete (k : Z) (s : Store) : wf s -> wf (BudgetCategory_delete k s).
Proof.
  intros []. unfold BudgetCategory_delete.
  constructor; simpl; auto using table_wf_delete_where.
Qed.

Lemma wf_Payee_delete (k : Z) (s : Store) : wf s -> wf (Payee_delete k s).
Proof.
  intros []. unfold Payee_delete.
  constructor; simpl; auto using table_wf_delete_where, NoDup_map_filter.
Qed.

Lemma wf_Transaction_delete (k : Z) (s : Store) : wf s -> wf (Transaction_delete k s).
Proof.
  intros []. unfold Transaction_delete.
  constructor; simpl; auto using table_wf_delete_where.
Qed.

Lemma read_only_ret {A : Type} (a : A) : read_only (ret a).
Proof. intros s. reflexivity. Qed.

Lemma read_only_query {A : Type} (q : Store -> Result A) : read_only (query q).
Proof. intros s. reflexivity. Qed.

Lemma read_only_bind {A B : Type} (m : M A) (k : A -> M B) :
  read_only m -> (forall a, read_only (k a)) -> read_only (bind m k).
Proof.
  intros Hm Hk s. unfold bind. specialize (Hm s).
  destruct (m s) as [[a | e] s1]; simpl in Hm; subst s1; [apply Hk | reflexivity].
Qed.

(** A step that keeps the store well-formed, followed by more such steps. *)
Lemma wf_bind {A B : Type} (m : M A) (k : A -> M B) (s : Store) :
  wf (snd (m s)) -> (forall a s1, wf s1 -> wf (snd (k a s1))) ->
  wf (snd (bind m k s)).
Proof.
  intros Hm Hk. unfold bind. destruct (m s) as [[a | e] s1]; simpl in *; auto.
Qed.

Lemma wf_read_only {A : Type} (m : M A) (s : Store) :
  read_only m -> wf s -> wf (snd (m s)).
Proof. intros Hm Hwf. now rewrite Hm. Qed.

Lemma categories_bind_read_only {A B : Type} (m : M A) (k : A -> M B) (s : Store) :
  read_only m -> (forall a, categories (snd (k a s)) = categories s) ->
  categories (snd (bind m k s)) = categories s.
Proof.
  intros Hm Hk. unfold bind. specialize (Hm s).
  destruct (m s) as [[a | e] s1]; simpl in Hm; subst s1; [apply Hk | reflexivity].
Qed.

Lemma Budget_objects_get_or_create_categories (y : Z) (m : string) (o : Z) (s : Store) :
  categories (snd (Budget_objects_get_or_create y m o s)) = categories s.
Proof.
  unfold Budget_objects_get_or_create, Budget_objects_create.
  destruct (get _) as [? | []]; try reflexivity.
  destruct (Budget_objects_filter y m o s); reflexivity.
Qed.

Lemma BudgetCategoryGroup_objects_get_or_create_categories (b : Budget.t) (n : string)
  (s : Store) :
  categories (snd (BudgetCategoryGroup_objects_get_or_create b n s)) = categories s.
Proof.
  unfold BudgetCategoryGroup_objects_get_or_create.
  destruct (get _) as [? | []]; reflexivity.
Qed.

Lemma read_only_instance_field {A : Type} (x : option A) (m : M A) :
  read_only m ->
  read_only (match x with Some v => ret v | None => m end).
Proof. intros Hm. destruct x; [apply read_only_ret | exact Hm]. Qed.

Lemma read_only_group_budget_field {A : Type} (c : BudgetCategory.t)
  (f : Budget.t -> A) :
  read_only (g <- BudgetCategory_group c ;; b <- BudgetCategoryGroup_budget g ;; ret (f b)).
Proof.
  apply read_only_bind; [apply read_only_query | intros g].
  apply read_only_bind; [apply read_only_query | intros b]. apply read_only_ret.
Qed.

Lemma read_only_group_field {A : Type} (c : BudgetCategory.t)
  (f : BudgetCategoryGroup.t -> A) :
  read_only (g <- BudgetCategory_group c ;; ret (f g)).
Proof.
  apply read_only_bind; [apply read_only_query | intros g]. apply read_only_ret.
Qed.

(** The get-or-create of an update keeps the store well-formed and the
    categories as they are. *)
Lemma get_or_create_related_instance_spec (u : User) (instance : BudgetCategory.t)
  (d : BudgetCategoryPatch) (s : Store) :
  wf s ->
  wf (snd (BudgetCategorySerializer_get_or_create_related_instance u instance d s))
  /\ categories (snd (BudgetCategorySerializer_get_or_create_related_instance
                        u instance d s)) = categories s.
Proof.
  intros Hwf. unfold BudgetCategorySerializer_get_or_create_related_instance.
  pose proof (read_only_instance_field (truthy_string (bp_budget_month d)) _
                (read_only_group_budget_field instance Budget.month)) as Hm.
  pose proof (read_only_instance_field (truthy_int (bp_budget_year d)) _
                (read_only_group_budget_field instance Budget.year)) as Hy.
  pose proof (read_only_instance_field (truthy_string (bp_group d)) _
                (read_only_group_field instance BudgetCategoryGroup.name)) as Hg.
  split.
  - apply wf_bind; [now apply wf_read_only |]. intros m s1 H1.
    apply wf_bind; [now apply wf_read_only |]. intros y s2 H2.
    apply wf_bind; [now apply wf_read_only |]. intros g s3 H3.
    apply wf_bind; [now apply wf_Budget_objects_get_or_create |]. intros [b c] s4 H4.
    apply wf_bind; [now apply wf_BudgetCategoryGroup_objects_get_or_create |].
    intros [g' c'] s5 H5. exact H5.
  - apply categories_bind_read_only; [assumption |]. intros m.
    apply categories_bind_read_only; [assumption |]. intros y.
    apply categories_bind_read_only; [assumption |]. intros g.
    unfold bind.
    pose proof (Budget_objects_get_or_create_categories y m (user_pk u) s) as H1.
    destruct (Budget_objects_get_or_create y m (user_pk u) s) as [[[b c] | e] s1];
      simpl in H1; [| exact H1].
    pose proof (BudgetCategoryGroup_objects_get_or_create_categories b g s1) as H2.
    destruct (BudgetCategoryGroup_objects_get_or_create b g s1) as [[[g' c'] | e] s2];
      simpl in H2; simpl; congruence.
Qed.

Lemma wf_BudgetCategorySerializer_update (u : User) (instance : BudgetCategory.t)
  (d : BudgetCategoryPatch) (s : Store) :
  wf s -> In instance (rows (categories s)) ->
  wf (snd (BudgetCategorySerializer_update u instance d s)).
Proof.
  intros Hwf Hin. unfold BudgetCategorySerializer_update.
  destruct (get_or_create_related_instance_spec u instance d s Hwf) as [H1 H2].
  unfold bind at 1.
  destruct (BudgetCategorySerializer_get_or_create_related_instance u instance d s)
    as [[g | e] s1]; simpl in H1, H2; [| exact H1].
  unfold bind, write, ret. simpl.
  destruct H1. constructor; simpl; auto.
  apply (table_wf_save_row BudgetCategory.pk _ instance); auto.
  now rewrite H2.
Qed.

Create HintDb wf discriminated.

#[local] Hint Resolve wf_Budget_objects_create wf_BudgetViewSet_update wf_Budget_delete
  wf_copy_budget wf_BudgetCategoryGroup_objects_create wf_delete_groups_where
  wf_BudgetCategorySerializer_create wf_BudgetCategory_delete wf_PayeeViewSet_create
  wf_Payee_delete wf_TransactionSerializer_create wf_Transaction_delete : wf.

(** An instance fetched from a viewset's queryset is a row of the table. *)
Ltac instance_of_queryset H :=
  apply by_pk_In in H as [H _]; apply filter_In in H as [H _].

Lemma wf_exec (op : Op) (s : Store) : wf s -> wf (exec op s).
Proof.
  intros Hwf. destruct op; simpl; auto with wf.
  - destruct (by_pk _ _ _) as [c |] eqn:Hpk; [| assumption].
    instance_of_queryset Hpk. now apply wf_BudgetCategorySerializer_update.
  - destruct (by_pk _ _ _) as [t |] eqn:Hpk; [| assumption].
    instance_of_queryset Hpk. now apply wf_TransactionSerializer_update.
Qed.

Lemma wf_run (ops : list Op) : wf (run ops).
Proof.
  unfold run. generalize wf_empty. generalize empty_store.
  induction ops as [| op ops IH]; simpl; intros s Hwf; [assumption |].
  apply IH. now apply wf_exec.
Qed.

(** ** Get-or-create of the target budget *)

Lemma Budget_objects_create_existing (b : Budget.t) (s : Store) :
  In b (rows (budgets s)) ->
  Budget_objects_create (Budget.year b) (Budget.month b) (Budget.owner b) s
  = (Raise IntegrityError, s).
Proof.
  intros Hin. unfold Budget_objects_create, Budget_objects_filter.
  destruct (filter _ _) as [| x l] eqn:Hf; [exfalso | reflexivity].
  assert (H : In b (filter (budget_matches (Budget.year b) (Budget.month b)
                              (Budget.owner b)) (rows (budgets s)))).
  { apply filter_In. split; [assumption |]. now apply budget_matches_key. }
  rewrite Hf in H. exact H.
Qed.

Lemma Budget_objects_get_or_create_existing (b : Budget.t) (s : Store) :
  NoDup (map Budget.unique_key (rows (budgets s))) ->
  In b (rows (budgets s)) ->
  Budget_objects_get_or_create (Budget.year b) (Budget.month b) (Budget.owner b) s
  = (Ok (b, false), s).
Proof.
  intros Hnd Hin. unfold Budget_objects_get_or_create, Budget_objects_filter.
  assert (H : In b (filter (budget_matches (Budget.year b) (Budget.month b)
                              (Budget.owner b)) (rows (budgets s)))).
  { apply filter_In. split; [assumption |]. now apply budget_matches_key. }
  destruct (get_unique Budget.unique_key
              (budget_matches (Budget.year b) (Budget.month b) (Budget.owner b))
              (Budget.unique_key b) (rows (budgets s)))
    as [[Hnil _] | (r & Hr & ->)];
    [intros r; apply budget_matches_key | assumption | |].
  - rewrite Hnil in H. destruct H.
  - rewrite Hr in H. destruct H as [-> | []]. reflexivity.
Qed.

(** What the target get-or-create of copy-budget does on a well-formed
    store: it returns a row [t] with the asked-for key, found as it was or
    appended to the budgets, and touches nothing else. *)
Lemma Budget_objects_get_or_create_spec (y : Z) (m : string) (o : Z) (s : Store) :
  NoDup (map Budget.unique_key (rows (budgets s))) ->
  exists t c s1,
    Budget_objects_get_or_create y m o s = (Ok (t, c), s1)
    /\ Budget.unique_key t = (o, m, y)
    /\ In t (rows (budgets s1))
    /\ ((c = false /\ s1 = s)
        \/ (c = true /\ Budget_objects_filter y m o s = []
            /\ s1 = set_budgets (mkTable (rows (budgets s) ++ [t])
                                   (next_pk (budgets s) + 1)) s)).
Proof.
  intros Hnd. unfold Budget_objects_get_or_create, Budget_objects_create.
  destruct (get_unique Budget.unique_key (budget_matches y m o) (o, m, y)
              (rows (budgets s)))
    as [[Hnil Hget] | (r & Hr & Hget)];
    [intros r; apply budget_matches_key | assumption | |];
    unfold Budget_objects_filter; rewrite Hget.
  - rewrite Hnil. unfold insert. simpl.
    eexists _, true, _. split; [reflexivity |]. split; [reflexivity |].
    split; [simpl; apply in_or_app; right; now left |].
    right. repeat split.
  - assert (Hin : In r (filter (budget_matches y m o) (rows (budgets s))))
      by (rewrite Hr; now left).
    apply filter_In in Hin as [Hin Hm].
    exists r, false, s. split; [reflexivity |].
    split; [now apply budget_matches_key |]. split; [assumption |]. now left.
Qed.

(** ** Uniqueness of budgets *)

(** C7: in every store a history of API writes leads to, no two budget
    rows share (owner, month, year); creating a budget whose triple is
    already there fails with an integrity error and leaves the store as it
    was, and get-or-create on that triple returns the existing row, not
    created, and leaves the store as it was. *)
Theorem budget_unique_per_owner_month_year (ops : list Op) :
  NoDup (map Budget.unique_key (rows (budgets (run ops))))
  /\ (forall y m o, (List.length (Budget_objects_filter y m o (run ops)) <= 1)%nat)
  /\ (forall b, In b (rows (budgets (run ops))) ->
        Budget_objects_create (Budget.year b) (Budget.month b) (Budget.owner b) (run ops)
        = (Raise IntegrityError, run ops)
        /\ Budget_objects_get_or_create (Budget.year b) (Budget.month b) (Budget.owner b)
             (run ops)
           = (Ok (b, false), run ops)).
Proof.
  pose proof (unique_budgets _ (wf_run ops)) as Hnd.
  split; [exact Hnd | split].
  - intros y m o. unfold Budget_objects_filter.
    destruct (filter_unique Budget.unique_key (budget_matches y m o) (o, m, y)
                (rows (budgets (run ops)))) as [-> | [r ->]]; simpl; auto.
    intros r. apply budget_matches_key.
  - intros b Hin. split.
    + now apply Budget_objects_create_existing.
    + now apply Budget_objects_get_or_create_existing.
Qed.

(** ** The previous budget *)

Lemma Budget_previous_fields (b b' : Budget.t) (s : Store) :
  Budget.month b = Budget.month b' -> Budget.year b = Budget.year b' ->
  Budget.owner b = Budget.owner b' ->
  Budget_previous b s = Budget_previous b' s.
Proof.
  destruct b, b'. simpl. intros -> -> ->. reflexivity.
Qed.

(** For a month code of [MONTH_CHOICES] the previous month has a code,
    and it is another one. *)
Lemma previous_month_code (m : string) (idx y : Z) :
  Budget.MONTH_LOOKUP m = Some idx ->
  exists choice,
    py_index Budget.MONTH_CHOICES (fst (Budget.get_previous_month idx y)) = Some choice
    /\ fst choice <> m.
Proof.
  unfold Budget.MONTH_LOOKUP.
  cbn [rev enumerate enumerate_from Budget.MONTH_CHOICES app find fst snd].
  repeat match goal with
         | |- context [String.eqb ?a m] =>
             destruct (String.eqb_spec a m) as [<- | ?];
             [intros [= <-]; eexists; split; [reflexivity | discriminate] |]
         end.
  discriminate.
Qed.

(** Appending the target row does not change what [previous] finds for
    it: the target is not its own previous month. *)
Lemma Budget_previous_after_append (t : Budget.t) (n : Z) (s : Store) :
  fst (Budget_previous t (set_budgets (mkTable (rows (budgets s) ++ [t]) n) s))
  = fst (Budget_previous t s).
Proof.
  unfold Budget_previous.
  destruct (Budget.MONTH_LOOKUP (Budget.month t)) as [idx |] eqn:Hidx; [| reflexivity].
  destruct (previous_month_code _ idx (Budget.year t) Hidx) as (choice & Hc & Hne).
  destruct (Budget.get_previous_month idx (Budget.year t)) as [i y]. simpl in Hc.
  rewrite Hc. unfold Budget_objects_filter. simpl. rewrite filter_app. simpl.
  replace (budget_matches y (fst choice) (Budget.owner t) t) with false.
  - rewrite app_nil_r. destruct (get _) as [? | []]; reflexivity.
  - symmetry. unfold budget_matches.
    destruct (String.eqb_spec (Budget.month t) (fst choice)); [congruence |].
    now rewrite andb_false_r.
Qed.

(** ** Copy-budget, unfolded

    On a well-formed store the target get-or-create succeeds with a row
    [t], and what follows is decided by the explicit source or, without
    one, by what [previous] of the target finds in the store as it was. *)
Lemma copy_budget_cases (y : Z) (m : string) (u : User) (src : option Budget.t)
  (s : Store) :
  NoDup (map Budget.unique_key (rows (budgets s))) ->
  exists t c s1,
    Budget_objects_get_or_create y m (user_pk u) s = (Ok (t, c), s1)
    /\ Budget.unique_key t = (user_pk u, m, y)
    /\ In t (rows (budgets s1))
    /\ groups s1 = groups s /\ categories s1 = categories s
    /\ payees s1 = payees s /\ transactions s1 = transactions s
    /\ NoDup (map Budget.unique_key (rows (budgets s1)))
    /\ fst (Budget_previous t s1) = fst (Budget_previous t s)
    /\ BudgetViewSet_copy_budget y m u src s =
       match src with
       | Some b => (Ok tt, Budget_copy_categories t b s1)
       | None =>
           match fst (Budget_previous t s) with
           | Ok (Some p) => (Ok tt, Budget_copy_categories t p s1)
           | Ok None => (Ok tt, Budget_delete_categories t s1)
           | Raise e => (Raise e, s1)
           end
       end.
Proof.
  intros Hnd.
  destruct (Budget_objects_get_or_create_spec y m (user_pk u) s Hnd)
    as (t & c & s1 & Hgoc & Hkey & Hin & Hs1).
  assert (Hprev : fst (Budget_previous t s1) = fst (Budget_previous t s)).
  { destruct Hs1 as [[_ ->] | (_ & _ & ->)]; [reflexivity |].
    apply Budget_previous_after_append. }
  assert (Hnd1 : NoDup (map Budget.unique_key (rows (budgets s1)))).
  { destruct Hs1 as [[_ ->] | (_ & Hnil & ->)]; [assumption |]. simpl.
    apply NoDup_map_snoc; [assumption |]. rewrite Hkey.
    eapply filter_nil_not_in; [| exact Hnil]. intros r. apply budget_matches_key. }
  exists t, c, s1. split; [exact Hgoc |]. split; [exact Hkey |]. split; [exact Hin |].
  split; [destruct Hs1 as [[_ ->] | (_ & _ & ->)]; reflexivity |].
  split; [destruct Hs1 as [[_ ->] | (_ & _ & ->)]; reflexivity |].
  split; [destruct Hs1 as [[_ ->] | (_ & _ & ->)]; reflexivity |].
  split; [destruct Hs1 as [[_ ->] | (_ & _ & ->)]; reflexivity |].
  split; [exact Hnd1 |]. split; [exact Hprev |].
  unfold BudgetViewSet_copy_budget, bind. rewrite Hgoc.
  destruct src as [b |]; [reflexivity |].
  rewrite <- Hprev. pose proof (Budget_previous_store t s1) as Hst.
  destruct (Budget_previous t s1) as [[[p |] | e] s2]; simpl in Hst; subst s2; reflexivity.
Qed.

(** ** Clearing the target *)

Lemma mem_false_iff (k : Z) (l : list Z) : mem k l = false <-> ~ In k l.
Proof.
  unfold mem. split.
  - intros H Hin. assert (Ht : existsb (Z.eqb k) l = true).
    { apply existsb_exists. exists k. split; [assumption | apply Z.eqb_refl]. }
    congruence.
  - intros H. destruct (existsb (Z.eqb k) l) eqn:E; [| reflexivity].
    apply existsb_exists in E as (x & Hx & Hk). apply Z.eqb_eq in Hk. subst x.
    contradiction.
Qed.

Lemma filter_filter_negb {A : Type} (f : A -> bool) (l : list A) :
  filter f (filter (fun x => negb (f x)) l) = [].
Proof.
  induction l as [| a l IH]; simpl; [reflexivity |].
  destruct (f a) eqn:E; simpl; [assumption |]. now rewrite E.
Qed.

(** Clearing, where there is a previous month to look at: copy-budget
    without an explicit source, when [previous] of the
    target finds no budget of the same owner at the previous month,
    succeeds and deletes every category group of the target and the
    categories of those groups: afterwards the target budget exists and
    has zero category groups, the groups of other budgets are kept, and a
    category is kept exactly when its group was not one of the target's. *)
Theorem copy_budget_no_source_clears_target (y : Z) (m : string) (u : User) (k : Z)
  (s : Store) :
  wf s ->
  fst (Budget_previous (Budget.mk k m y (user_pk u)) s) = Ok None ->
  exists t s',
    BudgetViewSet_copy_budget y m u None s = (Ok tt, s')
    /\ In t (rows (budgets s'))
    /\ Budget.unique_key t = (user_pk u, m, y)
    /\ Budget_budget_category_groups (Budget.pk t) s' = []
    /\ rows (groups s') =
       filter (fun g => negb (BudgetCategoryGroup.budget g =? Budget.pk t))
              (rows (groups s))
    /\ (forall c, In c (rows (categories s')) <->
                  In c (rows (categories s))
                  /\ forall g, In g (rows (groups s)) ->
                               BudgetCategoryGroup.budget g = Budget.pk t ->
                               BudgetCategory.group c <> BudgetCategoryGroup.pk g).
Proof.
  intros Hwf Hnone.
  destruct (copy_budget_cases y m u None s (unique_budgets _ Hwf))
    as (t & c & s1 & _ & Hkey & Hin & Hg & Hc & _ & _ & _ & _ & Hcopy).
  pose proof Hkey as Hkey'. injection Hkey' as Ho Hm Hy.
  rewrite (Budget_previous_fields t (Budget.mk k m y (user_pk u)) s) in Hcopy by auto.
  rewrite Hnone in Hcopy.
  exists t, (Budget_delete_categories t s1). split; [exact Hcopy |].
  unfold Budget_delete_categories, delete_groups_where, Budget_budget_category_groups.
  simpl. rewrite Hg, Hc. split; [exact Hin |]. split; [exact Hkey |].
  split; [apply filter_filter_negb |]. split; [reflexivity |].
  intros x. rewrite filter_In, negb_true_iff, mem_false_iff. split.
  - intros [Hx Hnin]. split; [assumption |]. intros g Hgin Hb Heq.
    apply Hnin. rewrite Heq. apply in_map. apply filter_In.
    split; [assumption | now apply Z.eqb_eq].
  - intros [Hx Hall]. split; [assumption |]. intros Hmem.
    apply in_map_iff in Hmem as (g & Hpk & Hgin).
    apply filter_In in Hgin as [Hgin Hb]. apply Z.eqb_eq in Hb.
    now apply (Hall g Hgin Hb).
Qed.

(** ** The copy loops only append *)

Lemma find_app_some {A : Type} (f : A -> bool) (l l' : list A) (x : A) :
  find f l = Some x -> find f (l ++ l') = Some x.
Proof.
  induction l as [| a l IH]; simpl; [discriminate |].
  destruct (f a); auto.
Qed.

Lemma find_app_none {A : Type} (f : A -> bool) (l l' : list A) :
  find f l = None -> find f (l ++ l') = find f l'.
Proof.
  induction l as [| a l IH]; simpl; [reflexivity |].
  destruct (f a); [discriminate | auto].
Qed.

Lemma find_app_none_inv {A : Type} (f : A -> bool) (l l' : list A) :
  find f (l ++ l') = None -> find f l = None.
Proof.
  induction l as [| a l IH]; simpl; [reflexivity |].
  destruct (f a); [discriminate | auto].
Qed.

Lemma find_In_some {A : Type} (f : A -> bool) (l : list A) (x : A) :
  In x l -> f x = true -> exists y, find f l = Some y.
Proof.
  intros Hin Hf. destruct (find f l) as [y |] eqn:E; [now exists y |].
  apply (find_none _ _ E) in Hin. congruence.
Qed.

Lemma extends_refl (s : Store) : extends s s.
Proof. constructor; try reflexivity; exists []; now rewrite app_nil_r. Qed.

Lemma extends_trans (s1 s2 s3 : Store) : extends s1 s2 -> extends s2 s3 -> extends s1 s3.
Proof.
  intros [Hb1 Hp1 Ht1 [g1 Hg1] [c1 Hc1]] [Hb2 Hp2 Ht2 [g2 Hg2] [c2 Hc2]].
  constructor; try congruence.
  - exists (g1 ++ g2). now rewrite Hg2, Hg1, app_assoc.
  - exists (c1 ++ c2). now rewrite Hc2, Hc1, app_assoc.
Qed.

Lemma extends_In_group (s s' : Store) (g : BudgetCategoryGroup.t) :
  extends s s' -> In g (rows (groups s)) -> In g (rows (groups s')).
Proof. intros [_ _ _ [new ->] _] H. apply in_or_app. now left. Qed.

Lemma extends_In_category (s s' : Store) (c : BudgetCategory.t) :
  extends s s' -> In c (rows (categories s)) -> In c (rows (categories s')).
Proof. intros [_ _ _ _ [new ->]] H. apply in_or_app. now left. Qed.

Lemma extends_find_group (s s' : Store) (n : string) (b : Z) (g : BudgetCategoryGroup.t) :
  extends s s' -> find_group n b s = Some g -> find_group n b s' = Some g.
Proof.
  intros [_ _ _ [new Hnew] _]. unfold find_group. rewrite Hnew. apply find_app_some.
Qed.

Lemma extends_find_category (s s' : Store) (n : string) (g : Z) (c : BudgetCategory.t) :
  extends s s' -> find_category n g s = Some c -> find_category n g s' = Some c.
Proof.
  intros [_ _ _ _ [new Hnew]]. unfold find_category. rewrite Hnew. apply find_app_some.
Qed.

Lemma extends_find_group_none (s s' : Store) (n : string) (b : Z) :
  extends s s' -> find_group n b s' = None -> find_group n b s = None.
Proof.
  intros [_ _ _ [new Hnew] _]. unfold find_group. rewrite Hnew. apply find_app_none_inv.
Qed.

Lemma extends_find_category_none (s s' : Store) (n : string) (g : Z) :
  extends s s' -> find_category n g s' = None -> find_category n g s = None.
Proof.
  intros [_ _ _ _ [new Hnew]]. unfold find_category. rewrite Hnew. apply find_app_none_inv.
Qed.

Lemma find_group_In (n : string) (b : Z) (s : Store) (g : BudgetCategoryGroup.t) :
  find_group n b s = Some g ->
  In g (rows (groups s)) /\ BudgetCategoryGroup.name g = n
  /\ BudgetCategoryGroup.budget g = b.
Proof.
  unfold find_group. intros H. apply find_some in H as [Hin Hm].
  apply group_matches_key in Hm. injection Hm as Hn Hb. auto.
Qed.

Lemma category_matches_iff (n : string) (g : Z) (c : BudgetCategory.t) :
  category_matches n g c = true <->
  BudgetCategory.category c = n /\ BudgetCategory.group c = g.
Proof.
  unfold category_matches. now rewrite andb_true_iff, Z.eqb_eq, String.eqb_eq.
Qed.

Lemma find_category_In (n : string) (g : Z) (s : Store) (c : BudgetCategory.t) :
  find_category n g s = Some c ->
  In c (rows (categories s)) /\ BudgetCategory.category c = n
  /\ BudgetCategory.group c = g.
Proof.
  unfold find_category. intros H. apply find_some in H as [Hin Hm].
  apply category_matches_iff in Hm. tauto.
Qed.

Lemma extends_group_get_or_create (n : string) (b : Z) (s : Store) :
  extends s (snd (group_get_or_create n b s)).
Proof.
  unfold group_get_or_create. destruct (find_group n b s); simpl.
  - apply extends_refl.
  - constructor; try reflexivity; simpl; eauto. exists []. now rewrite app_nil_r.
Qed.

Lemma extends_category_get_or_create (n : string) (g : Z) (l : Decimal) (s : Store) :
  extends s (snd (category_get_or_create n g l s)).
Proof.
  unfold category_get_or_create. destruct (find_category n g s); simpl.
  - apply extends_refl.
  - constructor; try reflexivity; simpl; eauto. exists []. now rewrite app_nil_r.
Qed.

Lemma extends_copy_group_categories (tg : BudgetCategoryGroup.t)
  (cs : list BudgetCategory.t) (s : Store) :
  extends s (copy_group_categories tg cs s).
Proof.
  revert s. induction cs as [| c cs IH]; simpl; intros s; [apply extends_refl |].
  eapply extends_trans; [apply extends_category_get_or_create | apply IH].
Qed.

Lemma extends_copy_groups (t : Budget.t) (gs : list BudgetCategoryGroup.t) (s : Store) :
  extends s (copy_groups t gs s).
Proof.
  revert s. induction gs as [| g gs IH]; simpl; intros s; [apply extends_refl |].
  pose proof (extends_group_get_or_create (BudgetCategoryGroup.name g) (Budget.pk t) s) as H.
  destruct (group_get_or_create _ _ s) as [tg s1]. simpl in H.
  eapply extends_trans; [exact H |].
  eapply extends_trans; [apply extends_copy_group_categories | apply IH].
Qed.

(** The row a get-or-create returns is the one [find] gives afterwards. *)
Lemma group_get_or_create_find (n : string) (b : Z) (s : Store) :
  find_group n b (snd (group_get_or_create n b s)) = Some (fst (group_get_or_create n b s)).
Proof.
  unfold group_get_or_create. destruct (find_group n b s) eqn:E; simpl; [assumption |].
  unfold find_group in *. simpl. rewrite find_app_none by assumption. simpl.
  unfold group_matches. simpl. now rewrite String.eqb_refl, Z.eqb_refl.
Qed.

Lemma category_get_or_create_find (n : string) (g : Z) (l : Decimal) (s : Store) :
  find_category n g (snd (category_get_or_create n g l s))
  = Some (fst (category_get_or_create n g l s)).
Proof.
  unfold category_get_or_create. destruct (find_category n g s) eqn:E; simpl; [assumption |].
  unfold find_category in *. simpl. rewrite find_app_none by assumption. simpl.
  unfold category_matches. simpl. now rewrite String.eqb_refl, Z.eqb_refl.
Qed.

(** ** What the copy loops create *)

Lemma group_get_or_create_frame (n : string) (b : Z) (s : Store) :
  categories (snd (group_get_or_create n b s)) = categories s.
Proof. unfold group_get_or_create. destruct (find_group n b s); reflexivity. Qed.

Lemma copy_group_categories_groups (tg : BudgetCategoryGroup.t)
  (cs : list BudgetCategory.t) (s : Store) :
  groups (copy_group_categories tg cs s) = groups s.
Proof.
  revert s. induction cs as [| c cs IH]; simpl; intros s; [reflexivity |].
  rewrite IH. unfold category_get_or_create. destruct (find_category _ _ s); reflexivity.
Qed.

Lemma category_get_or_create_rows (n : string) (g : Z) (l : Decimal) (s : Store)
  (x : BudgetCategory.t) :
  In x (rows (categories (snd (category_get_or_create n g l s)))) ->
  In x (rows (categories s))
  \/ (BudgetCategory.category x = n /\ BudgetCategory.group x = g
      /\ BudgetCategory.limit x = l /\ find_category n g s = None).
Proof.
  unfold category_get_or_create. destruct (find_category n g s) eqn:E; simpl; [now left |].
  intros H. apply in_app_or in H as [H | [<- | []]]; [now left | right]. auto.
Qed.

Lemma group_get_or_create_rows (n : string) (b : Z) (s : Store) :
  exists new,
    rows (groups (snd (group_get_or_create n b s))) = rows (groups s) ++ new
    /\ Forall (fun x => BudgetCategoryGroup.budget x = b
                        /\ BudgetCategoryGroup.name x = n
                        /\ find_group n b s = None) new.
Proof.
  unfold group_get_or_create. destruct (find_group n b s) eqn:E; simpl.
  - exists []. split; [now rewrite app_nil_r | constructor].
  - eexists. split; [reflexivity |]. repeat constructor.
Qed.

Lemma copy_group_categories_has (tg : BudgetCategoryGroup.t) (cs : list BudgetCategory.t)
  (s : Store) (c : BudgetCategory.t) :
  In c cs ->
  exists tc, find_category (BudgetCategory.category c) (BudgetCategoryGroup.pk tg)
               (copy_group_categories tg cs s) = Some tc.
Proof.
  revert s. induction cs as [| a cs IH]; simpl; intros s Hin; [contradiction |].
  destruct Hin as [-> | Hin]; [| now apply IH].
  eexists. eapply extends_find_category; [apply extends_copy_group_categories |].
  apply category_get_or_create_find.
Qed.

Lemma copy_group_categories_new (tg : BudgetCategoryGroup.t) (cs : list BudgetCategory.t)
  (s : Store) (x : BudgetCategory.t) :
  In x (rows (categories (copy_group_categories tg cs s))) ->
  In x (rows (categories s))
  \/ (BudgetCategory.group x = BudgetCategoryGroup.pk tg
      /\ exists c, In c cs
           /\ BudgetCategory.category x = BudgetCategory.category c
           /\ BudgetCategory.limit x = BudgetCategory.limit c
           /\ find_category (BudgetCategory.category c) (BudgetCategoryGroup.pk tg) s
              = None).
Proof.
  revert s. induction cs as [| a cs IH]; simpl; intros s Hin; [now left |].
  pose proof (extends_category_get_or_create (BudgetCategory.category a)
                (BudgetCategoryGroup.pk tg) (BudgetCategory.limit a) s) as Hext.
  apply IH in Hin as [Hin | (Hg & c & Hc & Hn & Hl & Hnone)].
  - apply category_get_or_create_rows in Hin as [Hin | (Hn & Hg & Hl & Hnone)];
      [now left | right].
    split; [assumption |]. exists a. auto.
  - right. split; [assumption |]. exists c. repeat split; auto.
    eapply extends_find_category_none; eassumption.
Qed.

Lemma copy_groups_groups (t : Budget.t) (gs : list BudgetCategoryGroup.t) (s : Store) :
  exists new,
    rows (groups (copy_groups t gs s)) = rows (groups s) ++ new
    /\ Forall (fun x => BudgetCategoryGroup.budget x = Budget.pk t
                        /\ exists g, In g gs
                             /\ BudgetCategoryGroup.name x = BudgetCategoryGroup.name g
                             /\ find_group (BudgetCategoryGroup.name g) (Budget.pk t) s
                                = None) new.
Proof.
  revert s. induction gs as [| g gs IH]; simpl; intros s.
  - exists []. split; [now rewrite app_nil_r | constructor].
  - destruct (group_get_or_create_rows (BudgetCategoryGroup.name g) (Budget.pk t) s)
      as (new1 & Hrows1 & Hnew1).
    pose proof (extends_group_get_or_create (BudgetCategoryGroup.name g) (Budget.pk t) s)
      as Hext1.
    destruct (group_get_or_create _ _ s) as [tg s1]. simpl in Hrows1, Hext1.
    set (s2 := copy_group_categories tg _ s1).
    assert (Hext2 : extends s s2).
    { eapply extends_trans; [exact Hext1 | apply extends_copy_group_categories]. }
    destruct (IH s2) as (new2 & Hrows2 & Hnew2).
    exists (new1 ++ new2). split.
    + rewrite Hrows2. unfold s2. rewrite copy_group_categories_groups, Hrows1.
      now rewrite app_assoc.
    + apply Forall_app. split.
      * eapply Forall_impl; [| exact Hnew1]. simpl.
        intros x (Hb & Hn & Hnone). split; [assumption |]. exists g. auto.
      * eapply Forall_impl; [| exact Hnew2]. simpl.
        intros x (Hb & g' & Hg' & Hn & Hnone). split; [assumption |].
        exists g'. repeat split; auto. eapply extends_find_group_none; eassumption.
Qed.

Lemma copy_groups_has (t : Budget.t) (gs : list BudgetCategoryGroup.t) (s : Store)
  (g : BudgetCategoryGroup.t) :
  In g gs ->
  exists tg,
    find_group (BudgetCategoryGroup.name g) (Budget.pk t) (copy_groups t gs s) = Some tg
    /\ forall c, In c (rows (categories s)) ->
                 BudgetCategory.group c = BudgetCategoryGroup.pk g ->
                 exists tc, find_category (BudgetCategory.category c)
                              (BudgetCategoryGroup.pk tg) (copy_groups t gs s) = Some tc.
Proof.
  revert s. induction gs as [| a gs IH]; simpl; intros s Hin; [contradiction |].
  pose proof (group_get_or_create_find (BudgetCategoryGroup.name a) (Budget.pk t) s) as Hf.
  pose proof (group_get_or_create_frame (BudgetCategoryGroup.name a) (Budget.pk t) s) as Hc1.
  pose proof (extends_group_get_or_create (BudgetCategoryGroup.name a) (Budget.pk t) s)
    as Hext1.
  destruct (group_get_or_create _ _ s) as [tg s1]. simpl in Hf, Hc1, Hext1.
  set (cs := BudgetCategoryGroup_budget_categories (BudgetCategoryGroup.pk a) s1).
  set (s2 := copy_group_categories tg cs s1).
  pose proof (extends_copy_group_categories tg cs s1) as Hext2. fold s2 in Hext2.
  pose proof (extends_copy_groups t gs s2) as Hext3.
  destruct Hin as [-> | Hin].
  - exists tg. split.
    + eapply extends_find_group; [exact Hext3 |].
      eapply extends_find_group; [exact Hext2 | exact Hf].
    + intros c Hc Hg.
      assert (Hcs : In c cs).
      { unfold cs, BudgetCategoryGroup_budget_categories. rewrite Hc1.
        apply filter_In. split; [assumption | now apply Z.eqb_eq]. }
      destruct (copy_group_categories_has tg cs s1 c Hcs) as [tc Htc].
      exists tc. eapply extends_find_category; [exact Hext3 | exact Htc].
  - destruct (IH s2 Hin) as (tg' & Hfg & Hcats). exists tg'. split; [exact Hfg |].
    intros c Hc Hg. apply Hcats; [| assumption].
    eapply extends_In_category; [exact Hext2 |]. now rewrite Hc1.
Qed.

Lemma copy_groups_new (t : Budget.t) (gs : list BudgetCategoryGroup.t) (s : Store)
  (x : BudgetCategory.t) :
  In x (rows (categories (copy_groups t gs s))) ->
  In x (rows (categories s))
  \/ exists g tg c,
       In g gs
       /\ find_group (BudgetCategoryGroup.name g) (Budget.pk t) (copy_groups t gs s)
          = Some tg
       /\ BudgetCategory.group x = BudgetCategoryGroup.pk tg
       /\ In c (rows (categories (copy_groups t gs s)))
       /\ BudgetCategory.group c = BudgetCategoryGroup.pk g
       /\ BudgetCategory.category x = BudgetCategory.category c
       /\ BudgetCategory.limit x = BudgetCategory.limit c
       /\ find_category (BudgetCategory.category c) (BudgetCategoryGroup.pk tg) s = None.
Proof.
  revert s. induction gs as [| a gs IH]; simpl; intros s Hin; [now left |].
  pose proof (group_get_or_create_find (BudgetCategoryGroup.name a) (Budget.pk t) s) as Hf.
  pose proof (group_get_or_create_frame (BudgetCategoryGroup.name a) (Budget.pk t) s) as Hc1.
  pose proof (extends_group_get_or_create (BudgetCategoryGroup.name a) (Budget.pk t) s)
    as Hext1.
  destruct (group_get_or_create _ _ s) as [tg s1]. simpl in Hf, Hc1, Hext1.
  set (cs := BudgetCategoryGroup_budget_categories (BudgetCategoryGroup.pk a) s1) in *.
  set (s2 := copy_group_categories tg cs s1) in *.
  pose proof (extends_copy_group_categories tg cs s1) as Hext2. fold s2 in Hext2.
  pose proof (extends_copy_groups t gs s2) as Hext3.
  apply IH in Hin as [Hin | (g & tg' & c & Hg & Hfg & Hxg & Hc & Hcg & Hn & Hl & Hnone)].
  - apply copy_group_categories_new in Hin as [Hin | (Hxg & c & Hc & Hn & Hl & Hnone)].
    + left. now rewrite <- Hc1.
    + right. exists a, tg, c.
      apply filter_In in Hc as [Hc Hcg]. apply Z.eqb_eq in Hcg.
      split; [now left |]. split.
      { eapply extends_find_group; [exact Hext3 |].
        eapply extends_find_group; [exact Hext2 | exact Hf]. }
      split; [assumption |]. split.
      { eapply extends_In_category; [exact Hext3 |].
        eapply extends_In_category; [exact Hext2 | exact Hc]. }
      repeat split; auto.
      unfold find_category in *. now rewrite <- Hc1.
  - right. exists g, tg', c. split; [now right |]. repeat split; auto.
    eapply extends_find_category_none; [| exact Hnone].
    eapply extends_trans; eassumption.
Qed.

(** ** Copying twice *)

Lemma NoDup_map_eq {A K : Type} (pk : A -> K) (l : list A) (x y : A) :
  NoDup (map pk l) -> In x l -> In y l -> pk x = pk y -> x = y.
Proof.
  induction l as [| a l IH]; simpl; intros Hnd Hx Hy Heq; [contradiction |].
  inversion Hnd as [| ? ? Hnin Hnd']; subst.
  destruct Hx as [-> | Hx], Hy as [-> | Hy]; auto.
  - exfalso. apply Hnin. rewrite Heq. now apply in_map.
  - exfalso. apply Hnin. rewrite <- Heq. now apply in_map.
Qed.

Lemma filter_none {A : Type} (f : A -> bool) (l : list A) :
  Forall (fun x => f x = false) l -> filter f l = [].
Proof.
  induction 1 as [| a l Ha _ IH]; simpl; [reflexivity |]. now rewrite Ha.
Qed.

Lemma copy_group_categories_noop (tg : BudgetCategoryGroup.t)
  (cs : list BudgetCategory.t) (s : Store) :
  (forall c, In c cs ->
     exists tc, find_category (BudgetCategory.category c) (BudgetCategoryGroup.pk tg) s
                = Some tc) ->
  copy_group_categories tg cs s = s.
Proof.
  induction cs as [| a cs IH]; simpl; intros H; [reflexivity |].
  destruct (H a (or_introl eq_refl)) as [tc Htc].
  unfold category_get_or_create at 1. rewrite Htc. simpl. apply IH. auto.
Qed.

Lemma copy_groups_noop (t : Budget.t) (gs : list BudgetCategoryGroup.t) (s : Store) :
  (forall g, In g gs ->
     exists tg,
       find_group (BudgetCategoryGroup.name g) (Budget.pk t) s = Some tg
       /\ forall c, In c (rows (categories s)) ->
                    BudgetCategory.group c = BudgetCategoryGroup.pk g ->
                    exists tc, find_category (BudgetCategory.category c)
                                 (BudgetCategoryGroup.pk tg) s = Some tc) ->
  copy_groups t gs s = s.
Proof.
  induction gs as [| a gs IH]; simpl; intros H; [reflexivity |].
  destruct (H a (or_introl eq_refl)) as (tg & Htg & Hcats).
  unfold group_get_or_create. rewrite Htg.
  rewrite copy_group_categories_noop; [apply IH; auto |].
  intros c Hc. apply filter_In in Hc as [Hc Hg]. apply Z.eqb_eq in Hg. auto.
Qed.

(** The groups of the source are the same after the copy as before. *)
Lemma copy_groups_source_groups (t src : Budget.t) (s : Store) :
  Budget_budget_category_groups (Budget.pk src)
    (copy_groups t (Budget_budget_category_groups (Budget.pk src) s) s)
  = Budget_budget_category_groups (Budget.pk src) s.
Proof.
  destruct (copy_groups_groups t (Budget_budget_category_groups (Budget.pk src) s) s)
    as (new & Hrows & Hnew).
  unfold Budget_budget_category_groups at 1. rewrite Hrows, filter_app.
  rewrite (filter_none _ new); [apply app_nil_r |].
  eapply Forall_impl; [| exact Hnew]. simpl.
  intros x (Hb & g & Hg & Hn & Hnone).
  destruct (Z.eqb_spec (BudgetCategoryGroup.budget x) (Budget.pk src)) as [Heq | ];
    [exfalso | reflexivity].
  apply filter_In in Hg as [Hg Hgb]. apply Z.eqb_eq in Hgb.
  destruct (find_In_some (group_matches (BudgetCategoryGroup.name g) (Budget.pk t))
              (rows (groups s)) g Hg) as [y Hy].
  - apply group_matches_key. unfold BudgetCategoryGroup.unique_key. congruence.
  - unfold find_group in Hnone. congruence.
Qed.

(** Copying the categories of a source into a target a second time
    changes nothing. *)
Lemma Budget_copy_categories_idempotent (t src : Budget.t) (s : Store) :
  wf s ->
  Budget_copy_categories t src (Budget_copy_categories t src s)
  = Budget_copy_categories t src s.
Proof.
  intros Hwf. unfold Budget_copy_categories.
  rewrite copy_groups_source_groups.
  set (gs := Budget_budget_category_groups (Budget.pk src) s).
  set (s' := copy_groups t gs s).
  assert (Hwf' : wf s') by now apply wf_copy_groups.
  pose proof (extends_copy_groups t gs s) as Hext. fold s' in Hext.
  apply copy_groups_noop. intros g Hg.
  destruct (copy_groups_has t gs s g Hg) as (tg & Htg & Hcats). fold s' in Htg, Hcats.
  exists tg. split; [exact Htg |]. intros c Hc Hcg.
  destruct (copy_groups_new t gs s c Hc)
    as [Hold | (g2 & tg2 & c2 & Hg2 & Htg2 & Hctg2 & _)]; [now apply Hcats |].
  fold s' in Htg2.
  assert (Hgin : In g (rows (groups s'))).
  { eapply extends_In_group; [exact Hext |]. now apply filter_In in Hg. }
  destruct (find_group_In _ _ _ _ Htg2) as (Htg2in & Hn2 & Hb2).
  assert (Heq : tg2 = g).
  { apply (NoDup_map_eq BudgetCategoryGroup.pk (rows (groups s'))); auto.
    - apply Hwf'.
    - congruence. }
  subst tg2. rewrite Hn2, Htg2 in Htg. injection Htg as <-.
  apply (find_In_some _ _ c Hc). now apply category_matches_iff.
Qed.

Lemma filter_idem {A : Type} (f : A -> bool) (l : list A) :
  filter f (filter f l) = filter f l.
Proof.
  induction l as [| a l IH]; simpl; [reflexivity |].
  destruct (f a) eqn:E; simpl; [rewrite E |]; congruence.
Qed.

Lemma filter_all {A : Type} (l : list A) : filter (fun _ => true) l = l.
Proof. induction l as [| a l IH]; simpl; congruence. Qed.

Lemma filter_nothing {A : Type} (l : list A) : filter (fun _ => false) l = [].
Proof. induction l as [| a l IH]; simpl; congruence. Qed.

Lemma delete_groups_where_idempotent (gone : BudgetCategoryGroup.t -> bool) (s : Store) :
  delete_groups_where gone (delete_groups_where gone s) = delete_groups_where gone s.
Proof.
  unfold delete_groups_where, delete_where. cbn [groups categories transactions rows next_pk budgets payees].
  rewrite filter_filter_negb, filter_idem. cbn [map mem existsb negb filter].
  rewrite filter_nothing. cbn [map mem existsb negb].
  rewrite !filter_all. reflexivity.
Qed.

Lemma Budget_previous_budgets (b : Budget.t) (s s' : Store) :
  budgets s' = budgets s -> fst (Budget_previous b s') = fst (Budget_previous b s).
Proof.
  intros H. unfold Budget_previous, Budget_objects_filter. rewrite H.
  destruct (Budget.MONTH_LOOKUP _); [| reflexivity].
  destruct (Budget.get_previous_month _ _) as [i y].
  destruct (py_index _ _); [| reflexivity].
  destruct (get _) as [? | []]; reflexivity.
Qed.

Lemma Budget_objects_get_or_create_budgets (y : Z) (m : string) (o : Z) (s s' : Store)
  (r : Budget.t * bool) :
  budgets s' = budgets s ->
  Budget_objects_get_or_create y m o s = (Ok r, s) ->
  Budget_objects_get_or_create y m o s' = (Ok r, s').
Proof.
  unfold Budget_objects_get_or_create, Budget_objects_create, Budget_objects_filter.
  intros ->. destruct (get _) as [b | []]; try congruence.
  destruct (filter _ _); simpl; [| discriminate].
  intros H. injection H as _ Hs. exfalso.
  apply (f_equal (fun x => List.length (rows (budgets x)))) in Hs. simpl in Hs.
  rewrite length_app in Hs. simpl in Hs. lia.
Qed.

Lemma Budget_copy_categories_budgets (t src : Budget.t) (s : Store) :
  budgets (Budget_copy_categories t src s) = budgets s.
Proof. unfold Budget_copy_categories. apply (extends_copy_groups t _ s). Qed.

(** C4: on a well-formed store, a second copy-budget with the same
    arguments returns what the first returned and leaves the whole store
    (so the target's budget row, groups, categories and limits) as the
    first left it; the target get-or-create of the second call returns the
    row the first call returned, as found and not created. *)
Theorem copy_budget_idempotent (y : Z) (m : string) (u : User) (src : option Budget.t)
  (s : Store) :
  wf s ->
  BudgetViewSet_copy_budget y m u src (snd (BudgetViewSet_copy_budget y m u src s))
  = BudgetViewSet_copy_budget y m u src s
  /\ exists t c,
       fst (Budget_objects_get_or_create y m (user_pk u) s) = Ok (t, c)
       /\ Budget_objects_get_or_create y m (user_pk u)
            (snd (BudgetViewSet_copy_budget y m u src s))
          = (Ok (t, false), snd (BudgetViewSet_copy_budget y m u src s)).
Proof.
  intros Hwf.
  destruct (copy_budget_cases y m u src s (unique_budgets _ Hwf))
    as (t & c & s1 & Hgoc & Hkey & Hin & _ & _ & _ & _ & Hnd1 & Hprev & Hcopy).
  assert (Hwf1 : wf s1).
  { pose proof (wf_Budget_objects_get_or_create y m (user_pk u) s Hwf) as H.
    now rewrite Hgoc in H. }
  assert (Hgoc1 : Budget_objects_get_or_create y m (user_pk u) s1 = (Ok (t, false), s1)).
  { pose proof (Budget_objects_get_or_create_existing t s1 Hnd1 Hin) as H.
    injection Hkey as Ho Hm Hy. now rewrite Ho, Hm, Hy in H. }
  set (F := snd (BudgetViewSet_copy_budget y m u src s)).
  assert (HbF : budgets F = budgets s1).
  { unfold F. rewrite Hcopy. destruct src as [b |]; simpl.
    - apply Budget_copy_categories_budgets.
    - destruct (fst (Budget_previous t s)) as [[p |] | e]; simpl;
        auto using Budget_copy_categories_budgets. }
  assert (HgocF : Budget_objects_get_or_create y m (user_pk u) F = (Ok (t, false), F))
    by (eapply Budget_objects_get_or_create_budgets; eassumption).
  split.
  - unfold BudgetViewSet_copy_budget at 1. unfold bind. rewrite HgocF.
    destruct src as [b |].
    + unfold ret, write, F. rewrite Hcopy. simpl.
      now rewrite Budget_copy_categories_idempotent.
    + pose proof (Budget_previous_store t F) as Hst.
      pose proof (Budget_previous_budgets t s1 F HbF) as Hfst.
      rewrite Hprev in Hfst.
      destruct (Budget_previous t F) as [r F']. simpl in Hst, Hfst. subst F' r.
      unfold F. rewrite Hcopy.
      destruct (fst (Budget_previous t s)) as [[p |] | e]; unfold write; simpl.
      * now rewrite Budget_copy_categories_idempotent.
      * unfold Budget_delete_categories. now rewrite delete_groups_where_idempotent.
      * reflexivity.
  - exists t, c. split; [now rewrite Hgoc | exact HgocF].
Qed.

(** ** Copying the source *)

(** Copying where names are unique: on a well-formed store in which
    category names are unique within
    a group, copy-budget with a determined source (given explicitly, or
    found by [previous] of the target) succeeds, and afterwards: the
    target budget exists; the groups and categories that were there are
    all still there, unchanged, new rows having only been appended, so a
    category that existed keeps its limit; every group of the source has a
    group of the same name under the target; and every category of a
    source group has a category of the same name in that target group,
    which either was there before or carries the source category's
    limit. *)
Theorem copy_budget_copies_source (y : Z) (m : string) (u : User)
  (source : option Budget.t) (src : Budget.t) (k : Z) (s : Store) :
  wf s ->
  categories_unique s ->
  source = Some src
  \/ (source = None
      /\ fst (Budget_previous (Budget.mk k m y (user_pk u)) s) = Ok (Some src)) ->
  exists t s',
    BudgetViewSet_copy_budget y m u source s = (Ok tt, s')
    /\ In t (rows (budgets s'))
    /\ Budget.unique_key t = (user_pk u, m, y)
    /\ (exists new, rows (groups s') = rows (groups s) ++ new)
    /\ (exists new, rows (categories s') = rows (categories s) ++ new)
    /\ (forall x, In x (rows (categories s)) ->
          by_pk BudgetCategory.pk (BudgetCategory.pk x) (rows (categories s')) = Some x)
    /\ forall sg, In sg (Budget_budget_category_groups (Budget.pk src) s) ->
         exists tg,
           In tg (rows (groups s'))
           /\ BudgetCategoryGroup.name tg = BudgetCategoryGroup.name sg
           /\ BudgetCategoryGroup.budget tg = Budget.pk t
           /\ forall c,
                In c (BudgetCategoryGroup_budget_categories (BudgetCategoryGroup.pk sg) s) ->
                exists tc,
                  In tc (rows (categories s'))
                  /\ BudgetCategory.category tc = BudgetCategory.category c
                  /\ BudgetCategory.group tc = BudgetCategoryGroup.pk tg
                  /\ (In tc (rows (categories s))
                      \/ BudgetCategory.limit tc = BudgetCategory.limit c).
Proof.
  intros Hwf Hcu Hsrc.
  destruct (copy_budget_cases y m u source s (unique_budgets _ Hwf))
    as (t & c0 & s1 & Hgoc & Hkey & Hin & Hg1 & Hc1 & _ & _ & _ & _ & Hcopy).
  assert (Hwf1 : wf s1).
  { pose proof (wf_Budget_objects_get_or_create y m (user_pk u) s Hwf) as H.
    now rewrite Hgoc in H. }
  assert (Hrun : BudgetViewSet_copy_budget y m u source s
                 = (Ok tt, Budget_copy_categories t src s1)).
  { rewrite Hcopy. destruct Hsrc as [-> | [-> Hprev]]; [reflexivity |].
    pose proof Hkey as Hkey'. injection Hkey' as Ho Hm Hy.
    rewrite (Budget_previous_fields t (Budget.mk k m y (user_pk u)) s) by auto.
    now rewrite Hprev. }
  clear Hcopy Hsrc.
  exists t, (Budget_copy_categories t src s1). split; [exact Hrun |].
  unfold Budget_copy_categories.
  set (gs := Budget_budget_category_groups (Budget.pk src) s1).
  set (s' := copy_groups t gs s1).
  assert (Hwf' : wf s') by now apply wf_copy_groups.
  pose proof (extends_copy_groups t gs s1) as Hext. fold s' in Hext.
  split; [destruct Hext as [-> _ _ _ _]; exact Hin |].
  split; [exact Hkey |].
  split; [rewrite <- Hg1; apply Hext |].
  split; [rewrite <- Hc1; apply Hext |].
  split.
  { intros x Hx. apply by_pk_unique; [apply Hwf' |].
    eapply extends_In_category; [exact Hext | now rewrite Hc1]. }
  intros sg Hsg.
  assert (Hsg1 : In sg gs).
  { unfold gs, Budget_budget_category_groups. now rewrite Hg1. }
  destruct (copy_groups_has t gs s1 sg Hsg1) as (tg & Htg & Hcats). fold s' in Htg, Hcats.
  destruct (find_group_In _ _ _ _ Htg) as (Htgin & Htgn & Htgb).
  exists tg. repeat split; auto.
  intros c Hc. apply filter_In in Hc as [Hc Hcg]. apply Z.eqb_eq in Hcg.
  rewrite <- Hc1 in Hc.
  destruct (Hcats c Hc Hcg) as [tc Htc].
  destruct (find_category_In _ _ _ _ Htc) as (Htcin & Htcn & Htcg).
  exists tc. repeat split; auto.
  destruct (find_category (BudgetCategory.category c) (BudgetCategoryGroup.pk tg) s1)
    as [old |] eqn:Hold.
  { left. rewrite <- Hc1.
    rewrite (extends_find_category _ _ _ _ _ Hext Hold) in Htc. injection Htc as <-.
    now apply find_category_In in Hold. }
  right.
  assert (Hgroups' : forall g, In g gs -> In g (rows (groups s'))).
  { intros g Hg. eapply extends_In_group; [exact Hext |]. now apply filter_In in Hg. }
  (* a group of the source whose primary key is that of a target group
     is its own target group *)
  assert (Hself : forall g g' tg', In g gs -> In g' gs ->
            find_group (BudgetCategoryGroup.name g') (Budget.pk t) s' = Some tg' ->
            BudgetCategoryGroup.pk tg' = BudgetCategoryGroup.pk g ->
            find_group (BudgetCategoryGroup.name g) (Budget.pk t) s' = Some g).
  { intros g g' tg' Hg Hg' Hf Hpk.
    destruct (find_group_In _ _ _ _ Hf) as (Hin' & Hn' & _).
    assert (tg' = g)
      by (apply (NoDup_map_eq BudgetCategoryGroup.pk (rows (groups s')));
          auto; apply Hwf').
    subst tg'. now rewrite Hn'. }
  destruct (copy_groups_new t gs s1 tc Htcin)
    as [Hins1 | (g2 & tg2 & c2 & Hg2 & Htg2 & Htcg2 & Hc2in & Hc2g & Hn2 & Hl2 & _)].
  { exfalso. destruct (find_In_some _ _ tc Hins1
                         (proj2 (category_matches_iff _ _ tc) (conj Htcn Htcg)))
      as [z Hz]. unfold find_category in Hold. congruence. }
  fold s' in Htg2, Hc2in.
  (* the target group of [g2] is [tg], so [g2] is [sg] *)
  destruct (find_group_In _ _ _ _ Htg2) as (Htg2in & Htg2n & _).
  assert (tg2 = tg).
  { apply (NoDup_map_eq BudgetCategoryGroup.pk (rows (groups s'))); auto;
      [apply Hwf' | congruence]. }
  subst tg2.
  assert (g2 = sg).
  { apply (NoDup_map_eq BudgetCategoryGroup.unique_key (rows (groups s1))).
    - apply Hwf1.
    - now apply filter_In in Hg2.
    - now apply filter_In in Hsg1.
    - apply filter_In in Hg2 as [_ Hb2]. apply filter_In in Hsg1 as [_ Hb].
      apply Z.eqb_eq in Hb2, Hb. unfold BudgetCategoryGroup.unique_key. congruence. }
  subst g2.
  (* [c2] was there before the copy, so it is [c] *)
  assert (Hc2old : In c2 (rows (categories s1))).
  { destruct (copy_groups_new t gs s1 c2 Hc2in)
      as [H | (g3 & tg3 & c3 & Hg3 & Htg3 & Hc2tg3 & _)]; [exact H | exfalso].
    fold s' in Htg3.
    pose proof (Hself sg g3 tg3 Hsg1 Hg3 Htg3 ltac:(congruence)) as Hsgself.
    rewrite Htg in Hsgself. injection Hsgself as ->.
    destruct (find_In_some _ _ c Hc
                (proj2 (category_matches_iff _ _ c) (conj eq_refl Hcg))) as [z Hz].
    unfold find_category in Hold. congruence. }
  assert (c2 = c).
  { apply (NoDup_map_eq category_key (rows (categories s1))); auto.
    - rewrite Hc1. exact Hcu.
    - unfold category_key. congruence. }
  subst c2. exact Hl2.
Qed.

Example january_store_rows :
  rows (budgets january_store) = [alice_january]
  /\ rows (groups january_store) = [BudgetCategoryGroup.mk 1 "Living" 1]
  /\ rows (categories january_store) = [BudgetCategory.mk 1 "Rent" 1 (dec 1000 0)].
Proof. repeat split. Qed.

Example shared_store_rows :
  rows (budgets shared_store) = [alice_january; bob_january]
  /\ rows (payees shared_store) = [Payee.mk 1 "Grocer" 2; Payee.mk 2 "Landlord" 1]
  /\ rows (transactions shared_store) = [alice_rent_payment].
Proof. repeat split. Qed.

(** The scenario of the spec: February is rolled over from January. *)
Lemma copy_budget_copies_source_witness :
  exists t s',
    BudgetViewSet_copy_budget 2024 "FEB" alice None january_store = (Ok tt, s')
    /\ In t (rows (budgets s'))
    /\ Budget.unique_key t = (user_pk alice, "FEB"%string, 2024)
    /\ (exists new, rows (groups s') = rows (groups january_store) ++ new)
    /\ (exists new, rows (categories s') = rows (categories january_store) ++ new)
    /\ (forall x, In x (rows (categories january_store)) ->
          by_pk BudgetCategory.pk (BudgetCategory.pk x) (rows (categories s')) = Some x)
    /\ forall sg,
         In sg (Budget_budget_category_groups (Budget.pk alice_january) january_store) ->
         exists tg,
           In tg (rows (groups s'))
           /\ BudgetCategoryGroup.name tg = BudgetCategoryGroup.name sg
           /\ BudgetCategoryGroup.budget tg = Budget.pk t
           /\ forall c,
                In c (BudgetCategoryGroup_budget_categories (BudgetCategoryGroup.pk sg)
                        january_store) ->
                exists tc,
                  In tc (rows (categories s'))
                  /\ BudgetCategory.category tc = BudgetCategory.category c
                  /\ BudgetCategory.group tc = BudgetCategoryGroup.pk tg
                  /\ (In tc (rows (categories january_store))
                      \/ BudgetCategory.limit tc = BudgetCategory.limit c).
Proof.
  apply (copy_budget_copies_source 2024 "FEB" alice None alice_january 0 january_store).
  - apply wf_run.
  - unfold categories_unique. simpl. repeat constructor. intros [].
  - right. split; reflexivity.
Defined.


Example february_rolled_over :
  snd (BudgetViewSet_copy_budget 2024 "FEB" alice None january_store)
  = mkStore
      (mkTable [alice_january; Budget.mk 2 "FEB" 2024 1] 3)
      (mkTable [BudgetCategoryGroup.mk 1 "Living" 1; BudgetCategoryGroup.mk 2 "Living" 2] 3)
      (mkTable [BudgetCategory.mk 1 "Rent" 1 (dec 1000 0);
                BudgetCategory.mk 2 "Rent" 2 (dec 1000 0)] 3)
      empty_table empty_table.
Proof. reflexivity. Qed.

(** January has no December 2023 before it: the rollover clears it. *)
Lemma copy_budget_no_source_clears_target_witness :
  exists t s',
    BudgetViewSet_copy_budget 2024 "JAN" alice None january_store = (Ok tt, s')
    /\ In t (rows (budgets s'))
    /\ Budget.unique_key t = (user_pk alice, "JAN"%string, 2024)
    /\ Budget_budget_category_groups (Budget.pk t) s' = []
    /\ rows (groups s') =
       filter (fun g => negb (BudgetCategoryGroup.budget g =? Budget.pk t))
              (rows (groups january_store))
    /\ (forall c, In c (rows (categories s')) <->
                  In c (rows (categories january_store))
                  /\ forall g, In g (rows (groups january_store)) ->
                               BudgetCategoryGroup.budget g = Budget.pk t ->
                               BudgetCategory.group c <> BudgetCategoryGroup.pk g).
Proof.
  apply (copy_budget_no_source_clears_target 2024 "JAN" alice 0 january_store).
  - apply wf_run.
  - reflexivity.
Defined.

Example january_cleared :
  snd (BudgetViewSet_copy_budget 2024 "JAN" alice None january_store)
  = mkStore (mkTable [alice_january] 2) (mkTable [] 2) (mkTable [] 2)
      empty_table empty_table.
Proof. reflexivity. Qed.

(** C2: at a target month that is not one of the twelve codes the claim
    fails.  Alice's budget for the month "jan" has the group "Living";
    copy-budget for "jan" with no source passes the serializer, finds the
    budget, and [previous] raises [KeyError] on [MONTH_LOOKUP]: there is
    no previous month to resolve, yet nothing is deleted, the target
    keeps its group and its category, and the action answers 500. *)
Theorem copy_budget_unknown_month_clears_nothing :
  rows (budgets lowercase_store) = [Budget.mk 1 "jan" 2024 (user_pk alice)]
  /\ Budget.MONTH_LOOKUP "jan" = None
  /\ CopyBudgetSerializer_is_valid alice
       (mkCopyBudgetData None (Some 2024) (Some "jan"%string)) lowercase_store
     = inr (None, 2024, "jan"%string)
  /\ BudgetViewSet_copy_budget 2024 "jan" alice None lowercase_store
     = (Raise KeyError, lowercase_store)
  /\ BudgetViewSet_copy_budget_action alice
       (mkCopyBudgetData None (Some 2024) (Some "jan"%string)) lowercase_store
     = (mkResponse HTTP_500_INTERNAL_SERVER_ERROR [], lowercase_store)
  /\ Budget_budget_category_groups 1 lowercase_store
     = [BudgetCategoryGroup.mk 1 "Living" 1]
  /\ rows (categories lowercase_store) = [BudgetCategory.mk 1 "Rent" 1 (dec 1000 0)].
Proof. repeat split; vm_compute; reflexivity. Qed.

Lemma copy_budget_idempotent_witness :
  BudgetViewSet_copy_budget 2024 "FEB" alice None
    (snd (BudgetViewSet_copy_budget 2024 "FEB" alice None january_store))
  = BudgetViewSet_copy_budget 2024 "FEB" alice None january_store.
Proof.
  apply (copy_budget_idempotent 2024 "FEB" alice None january_store). apply wf_run.
Defined.

Lemma budget_unique_per_owner_month_year_witness :
  Budget_objects_create 2024 "JAN" 2 shared_store = (Raise IntegrityError, shared_store)
  /\ Budget_objects_get_or_create 2024 "JAN" 2 shared_store
     = (Ok (bob_january, false), shared_store).
Proof.
  destruct (budget_unique_per_owner_month_year
              [ OpCategoryCreate alice rent_january;
                OpBudgetCreate bob 2024 "JAN";
                OpPayeeCreate bob [("name", "Grocer")]%string;
                OpTransactionCreate alice
                  (mkTransactionData (Some (dec 1000 0)) (Some 1) (Some 20240105)
                     (Some "Landlord"%string)) ]) as (_ & _ & H).
  apply (H bob_january). right. left. reflexivity.
Defined.

(** An unknown month code: the target is created, then [previous] raises. *)
Example copy_budget_unknown_month :
  BudgetViewSet_copy_budget 2024 "XYZ" alice None empty_store
  = (Raise KeyError,
     mkStore (mkTable [Budget.mk 1 "XYZ" 2024 1] 2)
       empty_table empty_table empty_table empty_table).
Proof. reflexivity. Qed.

(** ** Transaction update *)

(** C9: updating an existing transaction, whatever the payload, leaves
    the transactions table as it was, so the stored row still has the
    amount, budget category and date (and payee) it had; budgets, groups
    and categories are untouched; the only possible write is the payee
    got or created for the submitted name: a new payee row of that name
    owned by the requesting user when none matched, none otherwise.  With
    no payee name in the payload the get-or-create raises and nothing is
    written. *)
Theorem transaction_update_keeps_fields (u : User) (instance : Transaction.t)
  (d : TransactionData) (s : Store) :
  wf s ->
  In instance (rows (transactions s)) ->
  transactions (snd (TransactionSerializer_update u instance d s)) = transactions s
  /\ by_pk Transaction.pk (Transaction.pk instance)
       (rows (transactions (snd (TransactionSerializer_update u instance d s))))
     = Some instance
  /\ budgets (snd (TransactionSerializer_update u instance d s)) = budgets s
  /\ groups (snd (TransactionSerializer_update u instance d s)) = groups s
  /\ categories (snd (TransactionSerializer_update u instance d s)) = categories s
  /\ match td_payee d with
     | None => TransactionSerializer_update u instance d s = (Raise IntegrityError, s)
     | Some n =>
         fst (TransactionSerializer_update u instance d s) = Ok instance
         /\ payees (snd (TransactionSerializer_update u instance d s))
            = match filter (payee_matches n (user_pk u)) (rows (payees s)) with
              | [] => snd (insert (fun k => Payee.mk k n (user_pk u)) (payees s))
              | _ :: _ => payees s
              end
     end.
Proof.
  intros Hwf Hin.
  pose proof (proj1 (wf_transactions _ Hwf)) as Hnd.
  assert (Hpk : by_pk Transaction.pk (Transaction.pk instance) (rows (transactions s))
                = Some instance) by now apply by_pk_unique.
  unfold TransactionSerializer_update, TransactionSerializer_get_or_create_related,
    Payee_objects_get_or_create, bind.
  destruct (td_payee d) as [n |]; [| unfold raise; simpl; auto 10].
  destruct (get_unique Payee.unique_key (payee_matches n (user_pk u)) (n, user_pk u)
              (rows (payees s)))
    as [[Hnil Hget] | (p & Hp & Hget)];
    [intros r; apply payee_matches_key | apply Hwf | |]; rewrite Hget.
  - unfold Payee_objects_create. rewrite Hnil. unfold insert, ret, write.
    cbv iota beta.
    rewrite Transaction_save_existing by assumption. simpl. auto 10.
  - unfold ret, write. rewrite Hp.
    rewrite Transaction_save_existing by assumption. simpl. auto 10.
Qed.

Lemma transaction_update_keeps_fields_witness :
  transactions
    (snd (TransactionSerializer_update alice alice_rent_payment
            (mkTransactionData (Some (dec 1 0)) (Some 9) (Some 20250101)
               (Some "Bank"%string)) shared_store))
  = transactions shared_store.
Proof.
  apply (transaction_update_keeps_fields alice alice_rent_payment
           (mkTransactionData (Some (dec 1 0)) (Some 9) (Some 20250101)
              (Some "Bank"%string)) shared_store).
  - apply wf_run.
  - left. reflexivity.
Defined.

Example transaction_update_new_payee :
  TransactionSerializer_update alice alice_rent_payment
    (mkTransactionData (Some (dec 1 0)) (Some 9) (Some 20250101) (Some "Bank"%string))
    shared_store
  = (Ok alice_rent_payment,
     set_payees (mkTable (rows (payees shared_store) ++ [Payee.mk 3 "Bank" 1]) 4)
       shared_store).
Proof. reflexivity. Qed.

(** ** Python strings *)

(** [str.strip()] on plain and on multi-byte whitespace: a tab and a
    newline, inner spaces, U+00A0 and U+3000, U+001F and U+001C go or stay
    as in Python; U+200A is whitespace, U+200B is not.  [len] counts the
    two bytes of U+00E9 once. *)
Example str_strip_examples :
  let utf8 (bytes : list Z) :=
    string_of_list_ascii (map (fun b => ascii_of_N (Z.to_N b)) bytes) in
  str_strip (utf8 [9; 70; 69; 66; 10]) = "FEB"%string
  /\ str_strip " F E B " = "F E B"%string
  /\ str_strip (utf8 [194; 160; 70; 69; 66; 227; 128; 128]) = "FEB"%string
  /\ str_strip (utf8 [31; 70; 69; 66; 28]) = "FEB"%string
  /\ str_strip (utf8 [226; 128; 139; 70; 69; 66; 226; 128; 138])
     = utf8 [226; 128; 139; 70; 69; 66]
  /\ str_strip (utf8 [226; 128; 168; 194; 133; 70; 69; 66;
                      226; 129; 159; 225; 154; 128; 226; 128; 175; 226; 128; 169])
     = "FEB"%string
  /\ str_strip "   " = ""%string
  /\ len (utf8 [195; 169; 116; 195; 169]) = 3
  /\ str_of_int (-120) = "-120"%string /\ str_of_int 0 = "0"%string.
Proof. cbv zeta. repeat split; vm_compute; reflexivity. Qed.

(** ** Payee create *)

Lemma data_get_other (key k : string) (v : string) (d : Data) :
  k <> key -> data_get key ((k, v) :: d) = data_get key d.
Proof.
  intros Hne. unfold data_get. simpl.
  destruct (String.eqb_spec k key); [contradiction | reflexivity].
Qed.

(** C10: a payee the create operation returns is owned by the requesting
    user, has the name of the payload, stripped, and is the one row
    appended to the payees; a create adds no payee of any other owner; and
    an [owner] member in the payload changes nothing at all. *)
Theorem payee_create_sets_owner (u : User) (d : Data) (s : Store) :
  (forall p, fst (PayeeViewSet_create u d s) = Ok (Some p) ->
     Payee.owner p = user_pk u
     /\ option_map str_strip (data_get "name" d) = Some (Payee.name p)
     /\ rows (payees (snd (PayeeViewSet_create u d s))) = rows (payees s) ++ [p])
  /\ (forall q, In q (rows (payees (snd (PayeeViewSet_create u d s)))) ->
        In q (rows (payees s)) \/ Payee.owner q = user_pk u)
  /\ (forall v, PayeeViewSet_create u (("owner"%string, v) :: d) s
                = PayeeViewSet_create u d s).
Proof.
  split; [| split].
  - unfold PayeeViewSet_create, PayeeViewSet_perform_create, PayeeSerializer_validated_data,
      CharField_run_validation, Payee_objects_create, bind, ret.
    destruct (data_get "name" d) as [n |]; [| discriminate].
    destruct (String.eqb (str_strip n) ""); [discriminate |].
    destruct (_ ++ _); [| discriminate].
    destruct (filter _ _); simpl; [| discriminate].
    intros p [= <-]. auto.
  - unfold PayeeViewSet_create, PayeeViewSet_perform_create, Payee_objects_create, bind, ret.
    destruct (PayeeSerializer_validated_data d) as [n |]; [| now left].
    destruct (filter _ _); simpl; [| now left].
    intros q Hq. apply in_app_or in Hq as [Hq | [<- | []]]; auto.
  - intros v. unfold PayeeViewSet_create, PayeeSerializer_validated_data.
    now rewrite data_get_other by discriminate.
Qed.

Lemma payee_create_sets_owner_witness :
  Payee.owner (Payee.mk 3 "Bank" 1) = user_pk alice
  /\ option_map str_strip (data_get "name" [("owner", "2"); ("name", " Bank ")]%string)
     = Some "Bank"%string
  /\ rows (payees (snd (PayeeViewSet_create alice
                          [("owner", "2"); ("name", " Bank ")]%string shared_store)))
     = rows (payees shared_store) ++ [Payee.mk 3 "Bank" 1].
Proof.
  apply (payee_create_sets_owner alice [("owner", "2"); ("name", " Bank ")]%string
           shared_store).
  reflexivity.
Defined.

(** A name of whitespace only is refused, and so is one of more than 30
    characters once stripped; nothing is written. *)
Example payee_create_blank_name :
  PayeeViewSet_create alice [("name", "   ")]%string shared_store = (Ok None, shared_store)
  /\ PayeeViewSet_create alice
       [("name", "A payee name of thirty-one char")]%string shared_store
     = (Ok None, shared_store)
  /\ fst (PayeeViewSet_create alice
            [("name", " A payee name of thirty chars.  ")]%string shared_store)
     = Ok (Some (Payee.mk 3 "A payee name of thirty chars." 1)).
Proof. repeat split. Qed.

(** ** Ownership of querysets *)

Lemma owned_by_iff (u : User) (o : option Z) : owned_by u o = true <-> o = Some (user_pk u).
Proof.
  destruct o as [o |]; simpl; [rewrite Z.eqb_eq | ]; split; congruence.
Qed.

Lemma get_object_In {A : Type} (perm : User -> A -> bool) (pk : A -> Z)
  (queryset : list A) (u : User) (k : Z) (obj : A) :
  get_object perm pk queryset u k = Some obj -> In obj queryset /\ pk obj = k.
Proof.
  unfold get_object. destruct (by_pk pk k queryset) as [x |] eqn:E; [| discriminate].
  destruct (perm u x); [| discriminate].
  intros [= <-]. now apply by_pk_In in E.
Qed.

(** What the querysets hold: for every caller, administrator or not, the
    queryset of each of the five viewsets holds exactly the rows of its
    table whose owner (direct, or derived through the foreign keys) is the
    caller; the administrator flag changes no queryset; and whatever the
    object permission decides, the object that retrieve, update and
    destroy get from the queryset is owned by the caller. *)
Theorem querysets_hold_the_callers_rows (u : User) (s : Store) :
  (forall b, In b (BudgetViewSet_get_queryset u s) <->
             In b (rows (budgets s)) /\ Budget.owner b = user_pk u)
  /\ (forall g, In g (BudgetCategoryGroupViewSet_get_queryset u s) <->
                In g (rows (groups s))
                /\ BudgetCategoryGroup_owner g s = Some (user_pk u))
  /\ (forall c, In c (BudgetCategoryViewSet_get_queryset u s) <->
                In c (rows (categories s)) /\ BudgetCategory_owner c s = Some (user_pk u))
  /\ (forall t, In t (TransactionViewSet_get_queryset u s) <->
                In t (rows (transactions s)) /\ Transaction_owner t s = Some (user_pk u))
  /\ (forall p, In p (PayeeViewSet_get_queryset u s) <->
                In p (rows (payees s)) /\ Payee.owner p = user_pk u)
  /\ (forall (A : Type) (owner : A -> Z) (queryset : list A) (x : A),
        In x (OwnershipFilterMixin_get_queryset owner queryset u) <->
        In x queryset /\ owner x = user_pk u)
  /\ (forall staff,
        BudgetViewSet_get_queryset (mkUser (user_pk u) staff) s
        = BudgetViewSet_get_queryset u s
        /\ BudgetCategoryGroupViewSet_get_queryset (mkUser (user_pk u) staff) s
           = BudgetCategoryGroupViewSet_get_queryset u s
        /\ BudgetCategoryViewSet_get_queryset (mkUser (user_pk u) staff) s
           = BudgetCategoryViewSet_get_queryset u s
        /\ TransactionViewSet_get_queryset (mkUser (user_pk u) staff) s
           = TransactionViewSet_get_queryset u s
        /\ PayeeViewSet_get_queryset (mkUser (user_pk u) staff) s
           = PayeeViewSet_get_queryset u s)
  /\ (forall k,
        (forall perm b, get_object perm Budget.pk
                          (BudgetViewSet_get_queryset u s) u k = Some b ->
                        Budget.owner b = user_pk u)
        /\ (forall perm g, get_object perm BudgetCategoryGroup.pk
                             (BudgetCategoryGroupViewSet_get_queryset u s) u k = Some g ->
                           BudgetCategoryGroup_owner g s = Some (user_pk u))
        /\ (forall perm c, get_object perm BudgetCategory.pk
                             (BudgetCategoryViewSet_get_queryset u s) u k = Some c ->
                           BudgetCategory_owner c s = Some (user_pk u))
        /\ (forall perm t, get_object perm Transaction.pk
                             (TransactionViewSet_get_queryset u s) u k = Some t ->
                           Transaction_owner t s = Some (user_pk u))
        /\ (forall perm p, get_object perm Payee.pk
                             (PayeeViewSet_get_queryset u s) u k = Some p ->
                           Payee.owner p = user_pk u)).
Proof.
  assert (H1 : forall b, In b (BudgetViewSet_get_queryset u s) <->
                         In b (rows (budgets s)) /\ Budget.owner b = user_pk u).
  { intros b. unfold BudgetViewSet_get_queryset. now rewrite filter_In, Z.eqb_eq. }
  assert (H2 : forall g, In g (BudgetCategoryGroupViewSet_get_queryset u s) <->
                         In g (rows (groups s))
                         /\ BudgetCategoryGroup_owner g s = Some (user_pk u)).
  { intros g. unfold BudgetCategoryGroupViewSet_get_queryset.
    now rewrite filter_In, owned_by_iff. }
  assert (H3 : forall c, In c (BudgetCategoryViewSet_get_queryset u s) <->
                         In c (rows (categories s))
                         /\ BudgetCategory_owner c s = Some (user_pk u)).
  { intros c. unfold BudgetCategoryViewSet_get_queryset.
    now rewrite filter_In, owned_by_iff. }
  assert (H4 : forall t, In t (TransactionViewSet_get_queryset u s) <->
                         In t (rows (transactions s))
                         /\ Transaction_owner t s = Some (user_pk u)).
  { intros t. unfold TransactionViewSet_get_queryset.
    now rewrite filter_In, owned_by_iff. }
  assert (H5 : forall p, In p (PayeeViewSet_get_queryset u s) <->
                         In p (rows (payees s)) /\ Payee.owner p = user_pk u).
  { intros p. unfold PayeeViewSet_get_queryset. now rewrite filter_In, Z.eqb_eq. }
  split; [exact H1 |]. split; [exact H2 |]. split; [exact H3 |].
  split; [exact H4 |]. split; [exact H5 |].
  split; [| split; [intros staff; repeat split | intros k; repeat split]].
  - intros A owner queryset x. unfold OwnershipFilterMixin_get_queryset.
    now rewrite filter_In, Z.eqb_eq.
  - intros perm b Hb. apply get_object_In in Hb as [Hb _]. now apply H1 in Hb.
  - intros perm g Hg. apply get_object_In in Hg as [Hg _]. now apply H2 in Hg.
  - intros perm c Hc. apply get_object_In in Hc as [Hc _]. now apply H3 in Hc.
  - intros perm t Ht. apply get_object_In in Ht as [Ht _]. now apply H4 in Ht.
  - intros perm p Hp. apply get_object_In in Hp as [Hp _]. now apply H5 in Hp.
Qed.

Lemma querysets_hold_the_callers_rows_witness :
  In alice_january (BudgetViewSet_get_queryset alice shared_store)
  /\ ~ In bob_january (BudgetViewSet_get_queryset alice shared_store).
Proof.
  destruct (querysets_hold_the_callers_rows alice shared_store) as (H & _).
  split.
  - apply H. split; [left; reflexivity | reflexivity].
  - intros Hin. apply H in Hin as [_ Ho]. discriminate Ho.
Defined.

(** C8: the claim fails at both ends.  An administrator gets no row of
    another owner: with Bob's and Alice's rows in the store every queryset
    of the administrator is empty, so list shows nothing, and retrieve,
    update and destroy of Bob's budget or of Alice's transaction end in
    404 whatever the object permission would decide, and a budget update
    changes nothing.  And Bob, who is no administrator, writes under
    Alice's data: his transaction create on Alice's category succeeds and
    the derived owner of the new row is Alice. *)
Theorem administrator_override_is_dead :
  is_staff admin = true
  /\ rows (budgets shared_store) = [alice_january; bob_january]
  /\ rows (transactions shared_store) = [alice_rent_payment]
  /\ BudgetViewSet_get_queryset admin shared_store = []
  /\ BudgetCategoryGroupViewSet_get_queryset admin shared_store = []
  /\ BudgetCategoryViewSet_get_queryset admin shared_store = []
  /\ TransactionViewSet_get_queryset admin shared_store = []
  /\ PayeeViewSet_get_queryset admin shared_store = []
  /\ (forall perm, get_object perm Budget.pk
                     (BudgetViewSet_get_queryset admin shared_store) admin
                     (Budget.pk bob_january) = None)
  /\ (forall perm, get_object perm Transaction.pk
                     (TransactionViewSet_get_queryset admin shared_store) admin
                     (Transaction.pk alice_rent_payment) = None)
  /\ BudgetViewSet_update admin (Budget.pk bob_january) (Some "MAR"%string) None
       shared_store
     = (Ok None, shared_store)
  /\ is_staff bob = false
  /\ BudgetCategory_owner (BudgetCategory.mk 1 "Rent" 1 (dec 1000 0)) shared_store
     = Some (user_pk alice)
  /\ fst (TransactionSerializer_create bob
            (mkTransactionData (Some (dec 5 0)) (Some 1) (Some 20240201)
               (Some "Grocer"%string)) shared_store)
     = Ok (Transaction.mk 2 (dec 5 0) 1 1 20240201)
  /\ Transaction_owner (Transaction.mk 2 (dec 5 0) 1 1 20240201)
       (snd (TransactionSerializer_create bob
               (mkTransactionData (Some (dec 5 0)) (Some 1) (Some 20240201)
                  (Some "Grocer"%string)) shared_store))
     = Some (user_pk alice).
Proof. repeat split; try (intros perm); vm_compute; reflexivity. Qed.

(** ** A foreign source *)

(** C5, as the code has it: a copy-budget request whose explicit source
    is a budget of another user is answered 400 Bad Request with the
    validation error of [validate_source] on the field [source], and the
    store is left exactly as it was. *)
Theorem copy_budget_foreign_source_rejected (u : User) (d : CopyBudgetData) (s : Store)
  (k : Z) (b : Budget.t) :
  cb_source d = Some k ->
  by_pk Budget.pk k (rows (budgets s)) = Some b ->
  Budget.owner b <> user_pk u ->
  exists errs,
    BudgetViewSet_copy_budget_action u d s = (mkResponse HTTP_400_BAD_REQUEST errs, s)
    /\ In ("source", "You cannot copy another user's budget.")%string errs.
Proof.
  intros Hsrc Hb Ho.
  unfold BudgetViewSet_copy_budget_action, CopyBudgetSerializer_is_valid,
    CopyBudgetSerializer_validate_source.
  rewrite Hsrc, Hb.
  destruct (Z.eqb_spec (Budget.owner b) (user_pk u)) as [| _]; [contradiction |].
  cbn [negb]. eexists. split; [reflexivity |]. left. reflexivity.
Qed.

Lemma copy_budget_foreign_source_rejected_witness :
  exists errs,
    BudgetViewSet_copy_budget_action alice
      (mkCopyBudgetData (Some 2) (Some 2024) (Some "FEB"%string)) shared_store
    = (mkResponse HTTP_400_BAD_REQUEST errs, shared_store)
    /\ In ("source", "You cannot copy another user's budget.")%string errs.
Proof.
  apply (copy_budget_foreign_source_rejected alice
           (mkCopyBudgetData (Some 2) (Some 2024) (Some "FEB"%string)) shared_store
           2 bob_january).
  - reflexivity.
  - reflexivity.
  - simpl. lia.
Defined.

(** The failure is a validation failure, not an authorization failure:
    Alice naming Bob's budget as source gets 400, neither 401 nor 403. *)
Lemma foreign_source_is_not_an_authorization_error :
  Budget.owner bob_january <> user_pk alice
  /\ BudgetViewSet_copy_budget_action alice
       (mkCopyBudgetData (Some 2) (Some 2024) (Some "FEB"%string)) shared_store
     = (mkResponse 400 [("source", "You cannot copy another user's budget.")%string],
        shared_store)
  /\ is_authorization_error
       (fst (BudgetViewSet_copy_budget_action alice
               (mkCopyBudgetData (Some 2) (Some 2024) (Some "FEB"%string)) shared_store))
     = false.
Proof. split; [simpl; lia | split; reflexivity]. Qed.

(** Creation does not go through a queryset: the category of a new
    transaction is looked up in [BudgetCategory.objects.all()], so Bob can
    book a transaction on Alice's rent, and its derived owner is Alice. *)
Example transaction_create_on_foreign_category :
  let r := TransactionSerializer_create bob
             (mkTransactionData (Some (dec 5 0)) (Some 1) (Some 20240201)
                (Some "Grocer"%string)) shared_store in
  fst r = Ok (Transaction.mk 2 (dec 5 0) 1 1 20240201)
  /\ Transaction_owner (Transaction.mk 2 (dec 5 0) 1 1 20240201) (snd r)
     = Some (user_pk alice).
Proof. split; reflexivity. Qed.

(** ** The copy-budget action is rebound

    The class body binds [copy_budget] twice; the class keeps the second
    binding, the plain method, so the router finds no extra action on
    [BudgetViewSet]. *)
Example copy_budget_action_is_rebound :
  class_getattr "copy_budget" BudgetViewSet_body = Some Method
  /\ get_extra_actions BudgetViewSet_body = [].
Proof. split; reflexivity. Qed.

(** * Further properties of the code *)

(** ** Months *)

Lemma get_previous_month_range (m y : Z) :
  0 <= m <= 11 -> 0 <= fst (Budget.get_previous_month m y) <= 11.
Proof.
  intros Hm. unfold Budget.get_previous_month.
  destruct (Z.ltb_spec (m - 1) 0); simpl; lia.
Qed.

Lemma months_back_closed_form (n : nat) (m y : Z) :
  0 <= m <= 11 ->
  months_back n m y = ((m - Z.of_nat n) mod 12, y + (m - Z.of_nat n) / 12).
Proof.
  revert m y. induction n as [| n IH]; intros m y Hm.
  - simpl. rewrite Z.sub_0_r, Z.mod_small, Z.div_small by lia. f_equal. lia.
  - cbn [months_back]. unfold Budget.get_previous_month.
    rewrite Nat2Z.inj_succ.
    destruct (Z.ltb_spec (m - 1) 0) as [Hlt | Hge].
    + rewrite IH by lia.
      replace (m - Z.succ (Z.of_nat n)) with (11 - Z.of_nat n + (-1) * 12) by lia.
      rewrite Z.mod_add, Z.div_add by lia. f_equal. lia.
    + rewrite IH by lia.
      replace (m - Z.succ (Z.of_nat n)) with (m - 1 - Z.of_nat n) by lia.
      reflexivity.
Qed.

(** X1: going back n months from a month index in 0..11 with
    [get_previous_month] lands on index (m - n) mod 12 in year
    y + floor((m - n) / 12); so the index stays in 0..11, and twelve
    steps give the same month a year earlier. *)
Theorem months_back_is_modular (n : nat) (m y : Z) :
  0 <= m <= 11 ->
  months_back n m y = ((m - Z.of_nat n) mod 12, y + (m - Z.of_nat n) / 12)
  /\ 0 <= fst (months_back n m y) <= 11
  /\ months_back 12 m y = (m, y - 1).
Proof.
  intros Hm. split; [now apply months_back_closed_form | split].
  - rewrite months_back_closed_form by assumption. simpl.
    pose proof (Z.mod_pos_bound (m - Z.of_nat n) 12). lia.
  - rewrite months_back_closed_form by assumption.
    replace (m - Z.of_nat 12) with (m + (-1) * 12) by lia.
    rewrite Z.mod_add, Z.div_add, Z.mod_small, Z.div_small by lia. f_equal; lia.
Qed.

Lemma months_back_is_modular_witness :
  months_back 14 1 2024 = (11, 2022) /\ months_back 12 1 2024 = (1, 2023).
Proof.
  destruct (months_back_is_modular 14 1 2024) as (H & _ & H12); [lia |].
  split; [exact H | exact H12].
Defined.

(** The code of a month index. *)
Lemma MONTH_CHOICES_code (idx : Z) :
  0 <= idx <= 11 ->
  exists choice, py_index Budget.MONTH_CHOICES idx = Some choice
                 /\ Budget.MONTH_LOOKUP (fst choice) = Some idx.
Proof.
  intros H.
  assert (Hc : idx = 0 \/ idx = 1 \/ idx = 2 \/ idx = 3 \/ idx = 4 \/ idx = 5 \/ idx = 6
               \/ idx = 7 \/ idx = 8 \/ idx = 9 \/ idx = 10 \/ idx = 11) by lia.
  repeat (destruct Hc as [Hc | Hc]; [subst idx; eexists; split; reflexivity |]).
  subst idx; eexists; split; reflexivity.
Qed.

(** The index of a month code. *)
Lemma MONTH_LOOKUP_index (m : string) (idx : Z) :
  Budget.MONTH_LOOKUP m = Some idx ->
  0 <= idx <= 11
  /\ exists full, py_index Budget.MONTH_CHOICES idx = Some (m, full).
Proof.
  unfold Budget.MONTH_LOOKUP.
  cbn [rev enumerate enumerate_from Budget.MONTH_CHOICES app find fst snd].
  repeat match goal with
         | |- context [String.eqb ?a m] =>
             destruct (String.eqb_spec a m) as [<- | ?];
             [intros [= <-]; split; [lia | eexists; reflexivity] |]
         end.
  discriminate.
Qed.

Lemma MONTH_LOOKUP_none (m : string) :
  Budget.MONTH_LOOKUP m = None <-> ~ In m (map fst Budget.MONTH_CHOICES).
Proof.
  unfold Budget.MONTH_LOOKUP.
  cbn [rev enumerate enumerate_from Budget.MONTH_CHOICES app find fst snd map In].
  repeat match goal with
         | |- context [String.eqb ?a m] =>
             destruct (String.eqb_spec a m) as [<- | ?];
             [split; [discriminate | intros H; exfalso; apply H; tauto] |]
         end.
  split; [intros _ H; intuition congruence | reflexivity].
Qed.

(** X2: [MONTH_LOOKUP] and [MONTH_CHOICES] are inverse to each other:
    an index in 0..11 has a code whose lookup is that index, a code that
    is looked up has an index in 0..11 at which the table holds that
    code, and the lookup fails (the [KeyError]) exactly for the strings
    that are not a code of the table. *)
Theorem month_code_round_trip :
  (forall idx, 0 <= idx <= 11 ->
     exists choice, py_index Budget.MONTH_CHOICES idx = Some choice
                    /\ Budget.MONTH_LOOKUP (fst choice) = Some idx)
  /\ (forall m idx, Budget.MONTH_LOOKUP m = Some idx ->
        0 <= idx <= 11
        /\ exists full, py_index Budget.MONTH_CHOICES idx = Some (m, full))
  /\ (forall m, Budget.MONTH_LOOKUP m = None <-> ~ In m (map fst Budget.MONTH_CHOICES)).
Proof.
  split; [exact MONTH_CHOICES_code | split; [exact MONTH_LOOKUP_index |]].
  exact MONTH_LOOKUP_none.
Qed.

Lemma month_code_round_trip_witness :
  (exists choice, py_index Budget.MONTH_CHOICES 4 = Some choice
                  /\ Budget.MONTH_LOOKUP (fst choice) = Some 4)
  /\ Budget.MONTH_LOOKUP "may" = None.
Proof.
  destruct month_code_round_trip as (H1 & _ & H3). split.
  - apply H1. lia.
  - apply H3. simpl. intuition discriminate.
Defined.

(** ** The previous budget, found or not *)

(** X3: a budget that [previous] returns is a row of the store, has the
    owner of the budget asked about, and sits at the month before it: its
    month code has the index, and it has the year, that
    [get_previous_month] gives; it is never the budget itself.
    [previous] writes nothing. *)
Theorem previous_is_the_month_before (self p : Budget.t) (s s' : Store) :
  Budget_previous self s = (Ok (Some p), s') ->
  s' = s
  /\ In p (rows (budgets s))
  /\ Budget.owner p = Budget.owner self
  /\ exists idx,
       Budget.MONTH_LOOKUP (Budget.month self) = Some idx
       /\ Budget.MONTH_LOOKUP (Budget.month p)
          = Some (fst (Budget.get_previous_month idx (Budget.year self)))
       /\ Budget.year p = snd (Budget.get_previous_month idx (Budget.year self))
       /\ Budget.month p <> Budget.month self.
Proof.
  intros H. pose proof (Budget_previous_store self s) as Hst.
  rewrite H in Hst. simpl in Hst. subst s'. split; [reflexivity |].
  unfold Budget_previous in H.
  destruct (Budget.MONTH_LOOKUP (Budget.month self)) as [idx |] eqn:Hidx; [| discriminate].
  destruct (previous_month_code _ idx (Budget.year self) Hidx) as (choice & Hc & Hne).
  pose proof (get_previous_month_range idx (Budget.year self)
                (proj1 (MONTH_LOOKUP_index _ _ Hidx))) as Hrange.
  destruct (Budget.get_previous_month idx (Budget.year self)) as [i y] eqn:Hprev.
  simpl in Hc, Hrange. rewrite Hc in H.
  destruct (Budget_objects_filter y (fst choice) (Budget.owner self) s)
    as [| b [| b' l]] eqn:Hf; simpl in H; try discriminate.
  injection H as <-.
  assert (Hb : In b (Budget_objects_filter y (fst choice) (Budget.owner self) s))
    by (rewrite Hf; now left).
  apply filter_In in Hb as [Hin Hm]. apply budget_matches_key in Hm.
  injection Hm as Ho Hmo Hy.
  split; [assumption |]. split; [assumption |].
  exists idx. split; [reflexivity |]. simpl.
  destruct (MONTH_CHOICES_code i Hrange) as (choice' & Hc' & Hl).
  rewrite Hc in Hc'. injection Hc' as <-.
  rewrite Hprev. simpl. repeat split; congruence.
Qed.

Lemma previous_is_the_month_before_witness :
  In alice_january (rows (budgets two_months_store))
  /\ Budget.owner alice_january = Budget.owner (Budget.mk 2 "FEB" 2024 1).
Proof.
  destruct (previous_is_the_month_before (Budget.mk 2 "FEB" 2024 1) alice_january
              two_months_store two_months_store eq_refl) as (_ & H1 & H2 & _).
  split; assumption.
Defined.

(** X4: where no two budgets share (owner, month, year), [previous]
    raises [KeyError] when the budget's month is no code of the table and
    nothing else ever; for a month of the table it returns a budget, or it
    returns [None] and then no budget of that owner is at the month
    before. *)
Theorem previous_outcomes (self : Budget.t) (s : Store) :
  NoDup (map Budget.unique_key (rows (budgets s))) ->
  match Budget.MONTH_LOOKUP (Budget.month self) with
  | None => Budget_previous self s = (Raise KeyError, s)
  | Some idx =>
      (exists p, Budget_previous self s = (Ok (Some p), s))
      \/ (Budget_previous self s = (Ok None, s)
          /\ forall b, In b (rows (budgets s)) ->
                       Budget.owner b = Budget.owner self ->
                       Budget.year b = snd (Budget.get_previous_month idx (Budget.year self)) ->
                       Budget.MONTH_LOOKUP (Budget.month b)
                       <> Some (fst (Budget.get_previous_month idx (Budget.year self))))
  end.
Proof.
  intros Hnd. unfold Budget_previous.
  destruct (Budget.MONTH_LOOKUP (Budget.month self)) as [idx |] eqn:Hidx; [| reflexivity].
  destruct (previous_month_code _ idx (Budget.year self) Hidx) as (choice & Hc & _).
  destruct (Budget.get_previous_month idx (Budget.year self)) as [i y] eqn:Hprev.
  simpl in Hc. rewrite Hc. simpl.
  destruct (get_unique Budget.unique_key
              (budget_matches y (fst choice) (Budget.owner self))
              (Budget.owner self, fst choice, y) (rows (budgets s)))
    as [[Hnil Hget] | (p & Hp & Hget)];
    [intros r; apply budget_matches_key | assumption | |];
    unfold Budget_objects_filter; rewrite Hget.
  - right. split; [reflexivity |]. intros b Hb Ho Hy Hl.
    destruct (MONTH_LOOKUP_index _ _ Hl) as (_ & full & Hfull).
    rewrite Hc in Hfull. injection Hfull as Hchoice.
    eapply filter_nil_not_in; [| exact Hnil |].
    + intros r. apply budget_matches_key.
    + apply in_map_iff. exists b. split; [| assumption].
      unfold Budget.unique_key. rewrite Hchoice. simpl. congruence.
  - left. now exists p.
Qed.

Lemma previous_outcomes_witness :
  Budget_previous (Budget.mk 9 "XYZ" 2024 1) two_months_store
  = (Raise KeyError, two_months_store).
Proof.
  apply (previous_outcomes (Budget.mk 9 "XYZ" 2024 1) two_months_store).
  apply (wf_run _).
Defined.

(** ** Lists as dictionaries *)

Section DictFacts.

Context {K A : Type}.
Variable eqb : K -> K -> bool.
Hypothesis eqb_ok : forall a b, eqb a b = true <-> a = b.
Variable key : A -> K.

Let step := fun (d : list (K * A)) item => dict_set eqb (key item) item d.

Lemma eqb_refl' (k : K) : eqb k k = true.
Proof. now apply eqb_ok. Qed.

Lemma dict_get_set_eq (k : K) (v : A) (d : list (K * A)) :
  dict_get eqb k (dict_set eqb k v d) = Some v.
Proof.
  unfold dict_get. induction d as [| [k' v'] d IH]; simpl.
  - now rewrite eqb_refl'.
  - destruct (eqb k' k) eqn:E; simpl; rewrite E; [reflexivity | exact IH].
Qed.

Lemma dict_get_set_neq (k k' : K) (v : A) (d : list (K * A)) :
  k <> k' -> dict_get eqb k' (dict_set eqb k v d) = dict_get eqb k' d.
Proof.
  intros Hne. unfold dict_get. induction d as [| [k0 v0] d IH]; simpl.
  - destruct (eqb k k') eqn:E; [apply eqb_ok in E; contradiction | reflexivity].
  - destruct (eqb k0 k) eqn:E; simpl.
    + apply eqb_ok in E. subst k0.
      destruct (eqb k k') eqn:E'; [apply eqb_ok in E'; contradiction | reflexivity].
    + destruct (eqb k0 k'); [reflexivity | exact IH].
Qed.

Lemma find_rev_cons (P : A -> bool) (a : A) (l : list A) :
  find P (rev (a :: l)) =
  match find P (rev l) with
  | Some x => Some x
  | None => if P a then Some a else None
  end.
Proof.
  simpl. destruct (find P (rev l)) as [x |] eqn:E.
  - now apply find_app_some.
  - rewrite find_app_none by assumption. reflexivity.
Qed.

(** Looking a key up gives the last item that has it. *)
Lemma dict_get_fold (k : K) (items : list A) (d : list (K * A)) :
  dict_get eqb k (fold_left step items d) =
  match find (fun a => eqb (key a) k) (rev items) with
  | Some a => Some a
  | None => dict_get eqb k d
  end.
Proof.
  revert d. induction items as [| a l IH]; intros d; [reflexivity |].
  cbn [fold_left]. rewrite IH, find_rev_cons.
  destruct (find _ (rev l)); [reflexivity |]. unfold step.
  destruct (eqb (key a) k) eqn:E.
  - apply eqb_ok in E. subst k. apply dict_get_set_eq.
  - apply dict_get_set_neq. intros Heq. rewrite Heq, eqb_refl' in E. discriminate.
Qed.

Lemma dict_set_keys (k : K) (v : A) (d : list (K * A)) (x : K) :
  In x (map fst (dict_set eqb k v d)) <-> x = k \/ In x (map fst d).
Proof.
  induction d as [| [k' v'] d IH]; simpl.
  - intuition.
  - destruct (eqb k' k) eqn:E; simpl.
    + apply eqb_ok in E. subst k'. intuition.
    + rewrite IH. intuition.
Qed.

Lemma dict_set_NoDup (k : K) (v : A) (d : list (K * A)) :
  NoDup (map fst d) -> NoDup (map fst (dict_set eqb k v d)).
Proof.
  induction d as [| [k' v'] d IH]; simpl; intros Hnd.
  - repeat constructor. intros [].
  - inversion Hnd as [| ? ? Hnin Hnd']; subst.
    destruct (eqb k' k) eqn:E; simpl; [now constructor |].
    constructor; [| now apply IH].
    rewrite dict_set_keys. intros [-> | H]; [| contradiction].
    rewrite eqb_refl' in E. discriminate.
Qed.

Lemma dict_set_entries (k : K) (v : A) (d : list (K * A)) :
  Forall (fun kv => fst kv = key (snd kv)) d -> k = key v ->
  Forall (fun kv => fst kv = key (snd kv)) (dict_set eqb k v d).
Proof.
  intros Hd Hk. induction d as [| [k' v'] d IH]; simpl.
  - repeat constructor. exact Hk.
  - inversion Hd as [| x l Hh Ht]. subst x l.
    destruct (eqb k' k) eqn:E.
    + apply eqb_ok in E. subst k'. constructor; [exact Hk | assumption].
    + constructor; [assumption | now apply IH].
Qed.

Lemma fold_keys (items : list A) (d : list (K * A)) (x : K) :
  In x (map fst (fold_left step items d)) <-> In x (map key items) \/ In x (map fst d).
Proof.
  revert d. induction items as [| a l IH]; intros d; simpl; [intuition |].
  rewrite IH. unfold step. rewrite dict_set_keys. intuition.
Qed.

Lemma fold_NoDup (items : list A) (d : list (K * A)) :
  NoDup (map fst d) -> NoDup (map fst (fold_left step items d)).
Proof.
  revert d. induction items as [| a l IH]; intros d Hnd; simpl; [assumption |].
  apply IH. now apply dict_set_NoDup.
Qed.

Lemma fold_entries (items : list A) (d : list (K * A)) :
  Forall (fun kv => fst kv = key (snd kv)) d ->
  Forall (fun kv => fst kv = key (snd kv)) (fold_left step items d).
Proof.
  revert d. induction items as [| a l IH]; intros d Hd; simpl; [assumption |].
  apply IH. now apply dict_set_entries.
Qed.

Lemma dict_get_In (k : K) (v : A) (d : list (K * A)) :
  NoDup (map fst d) -> In (k, v) d -> dict_get eqb k d = Some v.
Proof.
  unfold dict_get. induction d as [| [k' v'] d IH]; simpl; intros Hnd Hin; [contradiction |].
  inversion Hnd as [| ? ? Hnin Hnd']; subst.
  destruct Hin as [Heq | Hin].
  - inversion Heq; subst. now rewrite eqb_refl'.
  - destruct (eqb k' k) eqn:E; [| now apply IH].
    apply eqb_ok in E. subst k'. exfalso. apply Hnin.
    apply in_map_iff. now exists (k, v).
Qed.

Lemma dict_set_fresh (k : K) (v : A) (d : list (K * A)) :
  ~ In k (map fst d) -> dict_set eqb k v d = d ++ [(k, v)].
Proof.
  induction d as [| [k' v'] d IH]; simpl; intros Hnin; [reflexivity |].
  destruct (eqb k' k) eqn:E.
  - apply eqb_ok in E. subst k'. exfalso. apply Hnin. now left.
  - rewrite IH; [reflexivity | intuition].
Qed.

(** With keys that differ nothing is overwritten: the dictionary is the
    list, in its order. *)
Lemma fold_distinct (items : list A) (d : list (K * A)) :
  NoDup (map key items) ->
  (forall a, In a items -> ~ In (key a) (map fst d)) ->
  fold_left step items d = d ++ map (fun a => (key a, a)) items.
Proof.
  revert d. induction items as [| a l IH]; intros d Hnd Hd; simpl.
  - now rewrite app_nil_r.
  - inversion Hnd as [| ? ? Hnin Hnd']; subst.
    unfold step at 2. rewrite dict_set_fresh by (apply Hd; now left).
    rewrite IH; [now rewrite <- app_assoc | assumption |].
    intros b Hb. rewrite map_app, in_app_iff. simpl.
    intros [H | [H | []]].
    + apply (Hd b); [now right | assumption].
    + apply Hnin. rewrite H. now apply in_map.
Qed.

Lemma to_representation_get (k : K) (items : list A) :
  dict_get eqb k (DictSerializer_to_representation eqb key items)
  = find (fun a => eqb (key a) k) (rev items).
Proof.
  unfold DictSerializer_to_representation.
  change (fun d item => dict_set eqb (key item) item d) with step.
  rewrite dict_get_fold. now destruct (find _ _).
Qed.

Lemma to_representation_distinct (items : list A) :
  NoDup (map key items) ->
  DictSerializer_to_representation eqb key items = map (fun a => (key a, a)) items.
Proof.
  intros Hnd. unfold DictSerializer_to_representation.
  change (fun d item => dict_set eqb (key item) item d) with step.
  rewrite fold_distinct; auto.
Qed.

Lemma to_representation_keys (items : list A) :
  NoDup (map fst (DictSerializer_to_representation eqb key items))
  /\ forall k, In k (map fst (DictSerializer_to_representation eqb key items))
               <-> In k (map key items).
Proof.
  unfold DictSerializer_to_representation.
  change (fun d item => dict_set eqb (key item) item d) with step. split.
  - apply fold_NoDup. constructor.
  - intros k. rewrite fold_keys. simpl. intuition.
Qed.

(** An item is in the dictionary only if it is the last one of its key. *)
Lemma to_representation_value (items : list A) (v : A) :
  In v (map snd (DictSerializer_to_representation eqb key items)) ->
  find (fun a => eqb (key a) (key v)) (rev items) = Some v.
Proof.
  intros Hin. apply in_map_iff in Hin as ([k v'] & Hv & Hin). simpl in Hv. subst v'.
  assert (Hk : k = key v).
  { assert (H : Forall (fun kv => fst kv = key (snd kv))
                  (DictSerializer_to_representation eqb key items)).
    { unfold DictSerializer_to_representation.
      change (fun d item => dict_set eqb (key item) item d) with step.
      apply fold_entries. constructor. }
    rewrite Forall_forall in H. exact (H _ Hin). }
  subst k. rewrite <- to_representation_get.
  apply dict_get_In; [apply to_representation_keys | assumption].
Qed.

End DictFacts.

Lemma Z_eqb_ok (a b : Z) : (a =? b) = true <-> a = b.
Proof. apply Z.eqb_eq. Qed.

Lemma string_eqb_ok (a b : string) : String.eqb a b = true <-> a = b.
Proof. apply String.eqb_eq. Qed.

(** X5: where primary keys are unique, what [BudgetSerializer] nests
    under a budget as dictionaries keyed by [pk] loses nothing: the
    categories, the transactions and the payees are each the rows of
    their queryset, in its order, every row under its own primary key. *)
Theorem nested_dictionaries_hold_every_row (u : User) (b : Budget.t) (s : Store) :
  wf s ->
  BudgetSerializer_get_budget_categories b s
  = map (fun c => (BudgetCategory.pk c, c)) (BudgetCategory_objects_of_budget (Budget.pk b) s)
  /\ BudgetSerializer_get_transactions b s
     = map (fun t => (Transaction.pk t, t)) (Transaction_objects_of_budget (Budget.pk b) s)
  /\ BudgetSerializer_get_payees u b s
     = map (fun p => (Payee.pk p, p)) (PayeeViewSet_get_queryset u s)
  /\ (forall c, In c (BudgetCategory_objects_of_budget (Budget.pk b) s) ->
        dict_get Z.eqb (BudgetCategory.pk c) (BudgetSerializer_get_budget_categories b s)
        = Some c).
Proof.
  intros Hwf.
  assert (Hc : NoDup (map BudgetCategory.pk
                        (BudgetCategory_objects_of_budget (Budget.pk b) s)))
    by (apply NoDup_map_filter; apply Hwf).
  split; [| split; [| split]].
  - now apply (to_representation_distinct Z.eqb Z_eqb_ok).
  - apply (to_representation_distinct Z.eqb Z_eqb_ok).
    apply NoDup_map_filter. apply Hwf.
  - apply (to_representation_distinct Z.eqb Z_eqb_ok).
    apply NoDup_map_filter. apply Hwf.
  - intros c Hin. unfold BudgetSerializer_get_budget_categories.
    rewrite (to_representation_distinct Z.eqb Z_eqb_ok) by assumption.
    apply (dict_get_In Z.eqb Z_eqb_ok).
    + rewrite map_map. simpl. exact Hc.
    + apply in_map_iff. now exists c.
Qed.

Lemma nested_dictionaries_hold_every_row_witness :
  BudgetSerializer_get_budget_categories alice_january two_months_store
  = [(1, BudgetCategory.mk 1 "Rent" 1 (dec 1000 0));
     (2, BudgetCategory.mk 2 "Food" 1 (dec 300 0))].
Proof.
  apply (nested_dictionaries_hold_every_row alice alice_january two_months_store).
  apply (wf_run _).
Defined.

(** X6: the list response for category groups is keyed by name, so it
    holds one entry per distinct name, and under a name the last group of
    the list that has it.  Group names are unique per budget only: when
    two different groups of the list share a name, as after every
    rollover, one of them is missing from the response. *)
Theorem groups_keyed_by_name_collide (items : list BudgetCategoryGroup.t) :
  (forall n, dict_get String.eqb n (BudgetCategoryGroupListSerializer_to_representation items)
             = find (fun g => String.eqb (BudgetCategoryGroup.name g) n) (rev items))
  /\ List.length (BudgetCategoryGroupListSerializer_to_representation items)
     = List.length (nodup string_dec (map BudgetCategoryGroup.name items))
  /\ (forall g1 g2, In g1 items -> In g2 items -> g1 <> g2 ->
        BudgetCategoryGroup.name g1 = BudgetCategoryGroup.name g2 ->
        exists g, In g items
                  /\ ~ In g (map snd (BudgetCategoryGroupListSerializer_to_representation
                                        items))).
Proof.
  unfold BudgetCategoryGroupListSerializer_to_representation.
  split; [| split].
  - intros n. apply (to_representation_get String.eqb string_eqb_ok).
  - destruct (to_representation_keys String.eqb string_eqb_ok BudgetCategoryGroup.name
                items) as [Hnd Hkeys].
    rewrite <- (length_map fst).
    apply Permutation_length. apply NoDup_Permutation.
    + exact Hnd.
    + apply NoDup_nodup.
    + intros k. rewrite Hkeys, nodup_In. reflexivity.
  - intros g1 g2 H1 H2 Hne Hname.
    destruct (in_dec (fun x y : BudgetCategoryGroup.t =>
                        ltac:(decide equality; auto using Z.eq_dec, string_dec))
                g1 (map snd (DictSerializer_to_representation String.eqb
                               BudgetCategoryGroup.name items))) as [Hin1 | Hout1];
      [| now exists g1].
    exists g2. split; [assumption |]. intros Hin2.
    apply (to_representation_value String.eqb string_eqb_ok) in Hin1, Hin2.
    rewrite Hname in Hin1. congruence.
Qed.

Lemma groups_keyed_by_name_collide_witness :
  exists g, In g (BudgetCategoryGroupViewSet_get_queryset alice two_months_store)
            /\ ~ In g (map snd (BudgetCategoryGroupViewSet_list alice two_months_store)).
Proof.
  apply (groups_keyed_by_name_collide
           (BudgetCategoryGroupViewSet_get_queryset alice two_months_store))
    with (g1 := BudgetCategoryGroup.mk 1 "Living" 1)
         (g2 := BudgetCategoryGroup.mk 2 "Living" 2).
  - left. reflexivity.
  - right. left. reflexivity.
  - discriminate.
  - reflexivity.
Defined.

Example group_list_after_rollover :
  BudgetCategoryGroupViewSet_get_queryset alice two_months_store
  = [BudgetCategoryGroup.mk 1 "Living" 1; BudgetCategoryGroup.mk 2 "Living" 2]
  /\ BudgetCategoryGroupViewSet_list alice two_months_store
     = [("Living"%string, BudgetCategoryGroup.mk 2 "Living" 2)].
Proof. split; reflexivity. Qed.

(** ** What is nested under a budget *)

(** X7: where primary keys are unique, the transactions and the
    categories that [BudgetSerializer] nests under the budgets of a user
    are exactly the transactions and the categories of that user's
    querysets, each under one budget only: a row is in the user's
    queryset if and only if it is nested under one of the user's budgets,
    and no row is nested under two budgets. *)
Theorem nested_rows_are_the_owners (u : User) (s : Store) :
  wf s ->
  (forall t, In t (TransactionViewSet_get_queryset u s) <->
             exists b, In b (BudgetViewSet_get_queryset u s)
                       /\ In t (Transaction_objects_of_budget (Budget.pk b) s))
  /\ (forall c, In c (BudgetCategoryViewSet_get_queryset u s) <->
                exists b, In b (BudgetViewSet_get_queryset u s)
                          /\ In c (BudgetCategory_objects_of_budget (Budget.pk b) s))
  /\ (forall t k1 k2, In t (Transaction_objects_of_budget k1 s) ->
                      In t (Transaction_objects_of_budget k2 s) -> k1 = k2)
  /\ (forall c k1 k2, In c (BudgetCategory_objects_of_budget k1 s) ->
                      In c (BudgetCategory_objects_of_budget k2 s) -> k1 = k2).
Proof.
  intros Hwf.
  pose proof (proj1 (wf_budgets _ Hwf)) as Hb.
  assert (Hcat : forall c, In c (BudgetCategoryViewSet_get_queryset u s) <->
                   exists b, In b (BudgetViewSet_get_queryset u s)
                             /\ In c (BudgetCategory_objects_of_budget (Budget.pk b) s)).
  { intros c. unfold BudgetCategoryViewSet_get_queryset, BudgetViewSet_get_queryset,
      BudgetCategory_objects_of_budget, BudgetCategory_owner, BudgetCategoryGroup_owner.
    rewrite filter_In, owned_by_iff. split.
    - intros [Hc Ho].
      destruct (by_pk BudgetCategoryGroup.pk _ _) as [g |] eqn:Hg; [| discriminate].
      destruct (by_pk Budget.pk _ _) as [b |] eqn:Hbk; [| discriminate].
      injection Ho as Ho. apply by_pk_In in Hbk as [Hbin Hbpk].
      exists b. rewrite !filter_In, Hg. repeat split; auto; now apply Z.eqb_eq.
    - intros (b & Hbq & Hc). apply filter_In in Hbq as [Hbin Ho].
      apply filter_In in Hc as [Hc Hchain]. split; [assumption |].
      destruct (by_pk BudgetCategoryGroup.pk _ _) as [g |]; [| discriminate].
      apply Z.eqb_eq in Hchain, Ho. rewrite Hchain.
      rewrite (by_pk_unique Budget.pk _ b Hb Hbin). simpl. now rewrite Ho. }
  split; [| split; [exact Hcat | split]].
  - intros t. unfold TransactionViewSet_get_queryset, Transaction_owner,
      Transaction_objects_of_budget.
    rewrite filter_In, owned_by_iff. split.
    + intros [Ht Ho].
      destruct (by_pk BudgetCategory.pk _ _) as [c |] eqn:Hc; [| discriminate].
      unfold BudgetCategory_owner, BudgetCategoryGroup_owner in Ho.
      destruct (by_pk BudgetCategoryGroup.pk _ _) as [g |] eqn:Hg; [| discriminate].
      destruct (by_pk Budget.pk _ _) as [b |] eqn:Hbk; [| discriminate].
      injection Ho as Ho. apply by_pk_In in Hbk as [Hbin Hbpk].
      exists b. split.
      * apply filter_In. split; [assumption | now apply Z.eqb_eq].
      * apply filter_In. split; [assumption |]. rewrite Hc, Hg. now apply Z.eqb_eq.
    + intros (b & Hbq & Ht). apply filter_In in Hbq as [Hbin Ho].
      apply filter_In in Ht as [Ht Hchain]. split; [assumption |].
      destruct (by_pk BudgetCategory.pk _ _) as [c |]; [| discriminate].
      unfold BudgetCategory_owner, BudgetCategoryGroup_owner.
      destruct (by_pk BudgetCategoryGroup.pk _ _) as [g |]; [| discriminate].
      apply Z.eqb_eq in Hchain, Ho. rewrite Hchain.
      rewrite (by_pk_unique Budget.pk _ b Hb Hbin). simpl. now rewrite Ho.
  - intros t k1 k2 H1 H2. apply filter_In in H1 as [_ H1]. apply filter_In in H2 as [_ H2].
    destruct (by_pk BudgetCategory.pk _ _) as [c |]; [| discriminate].
    destruct (by_pk BudgetCategoryGroup.pk _ _) as [g |]; [| discriminate].
    apply Z.eqb_eq in H1, H2. congruence.
  - intros c k1 k2 H1 H2. apply filter_In in H1 as [_ H1]. apply filter_In in H2 as [_ H2].
    destruct (by_pk BudgetCategoryGroup.pk _ _) as [g |]; [| discriminate].
    apply Z.eqb_eq in H1, H2. congruence.
Qed.

Lemma nested_rows_are_the_owners_witness :
  exists b, In b (BudgetViewSet_get_queryset alice shared_store)
            /\ In alice_rent_payment (Transaction_objects_of_budget (Budget.pk b) shared_store).
Proof.
  destruct (nested_rows_are_the_owners alice shared_store (wf_run _)) as (H & _).
  destruct (H alice_rent_payment) as [H1 _]. apply H1.
  apply filter_In. split; [left; reflexivity | reflexivity].
Defined.

(** ** Creating and updating categories *)

(** Split a conjunction into its parts, and nothing else. *)
Ltac splits := repeat match goal with |- _ /\ _ => split end.

(** What [get_or_create_related] does on a well-formed store: it returns
    a group [g] of the asked-for name in a budget [b] of the requesting
    user with the asked-for month and year, each found as it was or
    appended, and touches nothing else. *)
Lemma get_or_create_related_spec (u : User) (d : BudgetCategoryData) (s : Store) :
  wf s ->
  exists b g s1,
    BudgetCategorySerializer_get_or_create_related u d s = (Ok g, s1)
    /\ wf s1
    /\ In b (rows (budgets s1))
    /\ Budget.unique_key b = (user_pk u, bc_budget_month d, bc_budget_year d)
    /\ In g (rows (groups s1))
    /\ BudgetCategoryGroup.unique_key g = (bc_group d, Budget.pk b)
    /\ categories s1 = categories s /\ payees s1 = payees s
    /\ transactions s1 = transactions s
    /\ (budgets s1 = budgets s
        \/ (Budget_objects_filter (bc_budget_year d) (bc_budget_month d) (user_pk u) s = []
            /\ rows (budgets s1) = rows (budgets s) ++ [b]))
    /\ (groups s1 = groups s
        \/ ((forall x, In x (rows (groups s)) ->
               BudgetCategoryGroup.unique_key x <> (bc_group d, Budget.pk b))
            /\ rows (groups s1) = rows (groups s) ++ [g])).
Proof.
  intros Hwf. unfold BudgetCategorySerializer_get_or_create_related, bind.
  destruct (Budget_objects_get_or_create_spec (bc_budget_year d) (bc_budget_month d)
              (user_pk u) s (unique_budgets _ Hwf))
    as (b & c & s1 & Hgoc & Hkey & Hin & Hs1).
  pose proof (wf_Budget_objects_get_or_create (bc_budget_year d) (bc_budget_month d)
                (user_pk u) s Hwf) as Hwf1.
  rewrite Hgoc in *. simpl in Hwf1.
  assert (Hframe : groups s1 = groups s /\ categories s1 = categories s
                   /\ payees s1 = payees s /\ transactions s1 = transactions s).
  { destruct Hs1 as [[_ ->] | (_ & _ & ->)]; repeat split. }
  destruct Hframe as (Hg1 & Hc1 & Hp1 & Ht1).
  assert (Hbud : budgets s1 = budgets s
                 \/ (Budget_objects_filter (bc_budget_year d) (bc_budget_month d)
                       (user_pk u) s = []
                     /\ rows (budgets s1) = rows (budgets s) ++ [b])).
  { destruct Hs1 as [[_ ->] | (_ & Hnil & ->)]; [now left | right]. split; auto. }
  pose proof (wf_BudgetCategoryGroup_objects_get_or_create b (bc_group d) s1 Hwf1) as Hwf2.
  unfold BudgetCategoryGroup_objects_get_or_create in *.
  destruct (get_unique BudgetCategoryGroup.unique_key
              (group_matches (bc_group d) (Budget.pk b)) (bc_group d, Budget.pk b)
              (rows (groups s1)))
    as [[Hnil Hget] | (g & Hg & Hget)];
    [intros r; apply group_matches_key | apply Hwf1 | |]; rewrite Hget in *.
  - unfold insert, ret in *. simpl in *.
    eexists b, _, _. split; [reflexivity |]. split; [exact Hwf2 |].
    split; [exact Hin |]. split; [exact Hkey |].
    split; [simpl; apply in_or_app; right; now left |].
    split; [reflexivity |]. simpl. splits; auto.
    right. split; [| now rewrite Hg1].
    intros x Hx Hk. rewrite <- Hg1 in Hx.
    eapply filter_nil_not_in; [| exact Hnil |].
    + intros r. apply group_matches_key.
    + apply in_map_iff. now exists x.
  - assert (Hgin : In g (filter (group_matches (bc_group d) (Budget.pk b))
                           (rows (groups s1)))) by (rewrite Hg; now left).
    apply filter_In in Hgin as [Hgin Hm]. apply group_matches_key in Hm.
    unfold ret. exists b, g, s1. splits; auto.
Qed.

(** The whole of [create]. *)
Lemma BudgetCategorySerializer_create_spec (u : User) (d : BudgetCategoryData) (s : Store) :
  wf s ->
  exists b g s',
    let c := BudgetCategory.mk (next_pk (categories s)) (bc_category d)
               (BudgetCategoryGroup.pk g) (Coalesce (bc_limit d) Decimal_0) in
    BudgetCategorySerializer_create u d s = (Ok c, s')
    /\ wf s'
    /\ In b (rows (budgets s'))
    /\ Budget.unique_key b = (user_pk u, bc_budget_month d, bc_budget_year d)
    /\ In g (rows (groups s'))
    /\ BudgetCategoryGroup.unique_key g = (bc_group d, Budget.pk b)
    /\ rows (categories s') = rows (categories s) ++ [c]
    /\ payees s' = payees s /\ transactions s' = transactions s
    /\ (budgets s' = budgets s
        \/ (Budget_objects_filter (bc_budget_year d) (bc_budget_month d) (user_pk u) s = []
            /\ rows (budgets s') = rows (budgets s) ++ [b]))
    /\ (groups s' = groups s
        \/ ((forall x, In x (rows (groups s)) ->
               BudgetCategoryGroup.unique_key x <> (bc_group d, Budget.pk b))
            /\ rows (groups s') = rows (groups s) ++ [g])).
Proof.
  intros Hwf.
  destruct (get_or_create_related_spec u d s Hwf)
    as (b & g & s1 & Hrel & Hwf1 & Hb & Hbk & Hg & Hgk & Hc1 & Hp1 & Ht1 & Hbud & Hgrp).
  pose proof (wf_BudgetCategorySerializer_create u d s Hwf) as Hwf'.
  unfold BudgetCategorySerializer_create, bind in *. rewrite Hrel in *.
  unfold write, BudgetCategory_objects_create, insert in *. simpl in *.
  rewrite Hc1 in *.
  eexists b, g, _. split; [reflexivity |]. simpl. splits; auto.
Qed.

Lemma by_pk_app_some {A : Type} (pk : A -> Z) (k : Z) (l l' : list A) (r : A) :
  by_pk pk k l = Some r -> by_pk pk k (l ++ l') = Some r.
Proof. apply find_app_some. Qed.

(** X8: on a well-formed store [BudgetCategorySerializer.create] always
    succeeds; it appends one category with the submitted name and limit
    (0 when none was submitted), whose group has the submitted name and
    hangs on a budget of the requesting user with the submitted month and
    year, so the owner derived for the new category is the requesting
    user; payees and transactions are untouched. *)
Theorem category_create_belongs_to_requester (u : User) (d : BudgetCategoryData)
  (s : Store) :
  wf s ->
  exists c g b s',
    BudgetCategorySerializer_create u d s = (Ok c, s')
    /\ rows (categories s') = rows (categories s) ++ [c]
    /\ BudgetCategory.category c = bc_category d
    /\ BudgetCategory.limit c = Coalesce (bc_limit d) Decimal_0
    /\ by_pk BudgetCategoryGroup.pk (BudgetCategory.group c) (rows (groups s')) = Some g
    /\ BudgetCategoryGroup.name g = bc_group d
    /\ by_pk Budget.pk (BudgetCategoryGroup.budget g) (rows (budgets s')) = Some b
    /\ Budget.unique_key b = (user_pk u, bc_budget_month d, bc_budget_year d)
    /\ BudgetCategory_owner c s' = Some (user_pk u)
    /\ payees s' = payees s /\ transactions s' = transactions s.
Proof.
  intros Hwf.
  destruct (BudgetCategorySerializer_create_spec u d s Hwf)
    as (b & g & s' & Hrun & Hwf' & Hb & Hbk & Hg & Hgk & Hcats & Hp & Ht & _ & _).
  cbv zeta in Hrun.
  injection Hgk as Hgn Hgb. pose proof Hbk as Hbk'. injection Hbk' as Ho _ _.
  assert (Hgpk : by_pk BudgetCategoryGroup.pk (BudgetCategoryGroup.pk g) (rows (groups s'))
                 = Some g) by (apply by_pk_unique; [apply Hwf' | assumption]).
  assert (Hbpk : by_pk Budget.pk (BudgetCategoryGroup.budget g) (rows (budgets s'))
                 = Some b)
    by (rewrite Hgb; apply by_pk_unique; [apply Hwf' | assumption]).
  eexists _, g, b, s'. split; [exact Hrun |]. simpl.
  splits; auto.
  unfold BudgetCategory_owner, BudgetCategoryGroup_owner. simpl.
  rewrite Hgpk, Hbpk. simpl. now rewrite Ho.
Qed.

Lemma category_create_belongs_to_requester_witness :
  exists c g b s',
    BudgetCategorySerializer_create alice rent_january empty_store = (Ok c, s')
    /\ rows (categories s') = rows (categories empty_store) ++ [c]
    /\ BudgetCategory.category c = bc_category rent_january
    /\ BudgetCategory.limit c = Coalesce (bc_limit rent_january) Decimal_0
    /\ by_pk BudgetCategoryGroup.pk (BudgetCategory.group c) (rows (groups s')) = Some g
    /\ BudgetCategoryGroup.name g = bc_group rent_january
    /\ by_pk Budget.pk (BudgetCategoryGroup.budget g) (rows (budgets s')) = Some b
    /\ Budget.unique_key b
       = (user_pk alice, bc_budget_month rent_january, bc_budget_year rent_january)
    /\ BudgetCategory_owner c s' = Some (user_pk alice)
    /\ payees s' = payees empty_store /\ transactions s' = transactions empty_store.
Proof.
  apply (category_create_belongs_to_requester alice rent_january empty_store).
  apply wf_empty.
Defined.

(** X9: a second create for the same month, year and group name, by the
    same user, finds the budget and the group of the first: the budgets
    and groups tables are left as the first create left them, and both new
    categories are in the same group. *)
Theorem category_create_reuses_budget_and_group (u : User) (d d' : BudgetCategoryData)
  (s : Store) :
  wf s ->
  bc_budget_month d' = bc_budget_month d ->
  bc_budget_year d' = bc_budget_year d ->
  bc_group d' = bc_group d ->
  exists c1 c2 s1 s2,
    BudgetCategorySerializer_create u d s = (Ok c1, s1)
    /\ BudgetCategorySerializer_create u d' s1 = (Ok c2, s2)
    /\ budgets s2 = budgets s1
    /\ groups s2 = groups s1
    /\ BudgetCategory.group c2 = BudgetCategory.group c1
    /\ rows (categories s2) = rows (categories s) ++ [c1; c2].
Proof.
  intros Hwf Hm Hy Hg.
  destruct (BudgetCategorySerializer_create_spec u d s Hwf)
    as (b & g & s1 & Hrun1 & Hwf1 & Hb & Hbk & Hgin & Hgk & Hcats1 & _).
  destruct (BudgetCategorySerializer_create_spec u d' s1 Hwf1)
    as (b' & g' & s2 & Hrun2 & Hwf2 & Hb' & Hbk' & Hgin' & Hgk' & Hcats2 & _ & _
        & Hbud & Hgrp).
  cbv zeta in Hrun1, Hrun2. rewrite Hm, Hy in Hbk', Hbud. rewrite Hg in Hgk', Hgrp.
  assert (Hbeq : budgets s2 = budgets s1).
  { destruct Hbud as [H | [Hnil _]]; [exact H | exfalso].
    eapply filter_nil_not_in; [| exact Hnil |].
    - intros r. apply budget_matches_key.
    - rewrite <- Hbk. now apply in_map. }
  assert (b' = b).
  { apply (NoDup_map_eq Budget.unique_key (rows (budgets s1))); try congruence.
    apply Hwf1. }
  subst b'.
  assert (Hgeq : groups s2 = groups s1).
  { destruct Hgrp as [H | [Hnone _]]; [exact H | exfalso]. now apply (Hnone g). }
  assert (g' = g).
  { apply (NoDup_map_eq BudgetCategoryGroup.unique_key (rows (groups s1)));
      try congruence. apply Hwf1. }
  subst g'.
  eexists _, _, s1, s2. split; [exact Hrun1 |]. split; [exact Hrun2 |].
  splits; auto.
  rewrite Hcats2, Hcats1, <- app_assoc. reflexivity.
Qed.

Lemma category_create_reuses_budget_and_group_witness :
  exists c1 c2 s1 s2,
    BudgetCategorySerializer_create alice rent_january empty_store = (Ok c1, s1)
    /\ BudgetCategorySerializer_create alice
         (mkBudgetCategoryData "JAN" 2024 "Food" "Living" None) s1 = (Ok c2, s2)
    /\ budgets s2 = budgets s1
    /\ groups s2 = groups s1
    /\ BudgetCategory.group c2 = BudgetCategory.group c1
    /\ rows (categories s2) = rows (categories empty_store) ++ [c1; c2].
Proof.
  apply (category_create_reuses_budget_and_group alice rent_january
           (mkBudgetCategoryData "JAN" 2024 "Food" "Living" None) empty_store);
    [apply wf_empty | reflexivity | reflexivity | reflexivity].
Defined.

(** Under referential integrity the budget of a category that is there
    is found, and stays what it is when rows are appended. *)
Lemma by_pk_exists {A : Type} (pk : A -> Z) (k : Z) (l : list A) :
  (exists r, In r l /\ pk r = k) -> exists r, by_pk pk k l = Some r.
Proof.
  intros (r & Hin & Hk). unfold by_pk.
  apply (find_In_some _ _ r Hin). now apply Z.eqb_eq.
Qed.

Lemma BudgetCategory_budget_defined (c : BudgetCategory.t) (s : Store) :
  fk_ok s -> In c (rows (categories s)) -> exists b, BudgetCategory_budget c s = Some b.
Proof.
  intros Hfk Hc. unfold BudgetCategory_budget.
  destruct (by_pk_exists BudgetCategoryGroup.pk (BudgetCategory.group c) (rows (groups s))
              (fk_category_group _ Hfk c Hc)) as [g Hg].
  rewrite Hg. apply by_pk_In in Hg as [Hgin _].
  apply by_pk_exists. apply (fk_group_budget _ Hfk g Hgin).
Qed.

Lemma BudgetCategory_budget_stable (c : BudgetCategory.t) (b : Budget.t) (s s' : Store) :
  (exists new, rows (budgets s') = rows (budgets s) ++ new) ->
  (exists new, rows (groups s') = rows (groups s) ++ new) ->
  BudgetCategory_budget c s = Some b -> BudgetCategory_budget c s' = Some b.
Proof.
  intros [nb Hb] [ng Hg]. unfold BudgetCategory_budget. rewrite Hb, Hg.
  destruct (by_pk BudgetCategoryGroup.pk _ (rows (groups s))) as [g |] eqn:E;
    [| discriminate].
  rewrite (by_pk_app_some _ _ _ _ _ E). apply by_pk_app_some.
Qed.

Lemma appended_or_same {A : Type} (t t' : Table A) (P : Prop) (x : A) :
  t' = t \/ (P /\ rows t' = rows t ++ [x]) -> exists new, rows t' = rows t ++ new.
Proof.
  intros [-> | [_ ->]]; [exists []; now rewrite app_nil_r | now exists [x]].
Qed.

(** X10: a create that passed [validate] keeps category names unique
    within every budget: on a well-formed store with referential
    integrity in which no budget has two categories of one name, after
    [validate] accepted the data and [create] ran, still no budget has two
    categories of one name. *)
Theorem validated_create_keeps_names_unique (u : User) (d : BudgetCategoryData)
  (s : Store) :
  wf s -> fk_ok s -> names_unique_in_budgets s ->
  BudgetCategorySerializer_validate u None (as_patch d) s = inr (as_patch d) ->
  names_unique_in_budgets (snd (BudgetCategorySerializer_create u d s)).
Proof.
  intros Hwf Hfk Huniq Hval.
  destruct (BudgetCategorySerializer_create_spec u d s Hwf)
    as (b & g & s' & Hrun & Hwf' & Hb & Hbk & Hg & Hgk & Hcats & _ & _ & Hbud & Hgrp).
  cbv zeta in Hrun. rewrite Hrun. simpl.
  set (c := BudgetCategory.mk (next_pk (categories s)) (bc_category d)
              (BudgetCategoryGroup.pk g) (Coalesce (bc_limit d) Decimal_0)) in *.
  apply appended_or_same in Hbud, Hgrp.
  injection Hgk as Hgn Hgb.
  assert (Hnew : BudgetCategory_budget c s' = Some b).
  { unfold BudgetCategory_budget. simpl.
    rewrite (by_pk_unique BudgetCategoryGroup.pk _ g) by (auto; apply Hwf').
    rewrite Hgb. apply by_pk_unique; [apply Hwf' | assumption]. }
  (* an old category keeps its budget *)
  assert (Hold : forall x bx, In x (rows (categories s)) ->
                   BudgetCategory_budget x s' = Some bx ->
                   BudgetCategory_budget x s = Some bx).
  { intros x bx Hx Hbx.
    destruct (BudgetCategory_budget_defined x s Hfk Hx) as [b0 Hb0].
    rewrite (BudgetCategory_budget_stable x b0 s s' Hbud Hgrp Hb0) in Hbx. congruence. }
  (* no old category of the new name is in the budget of the new one *)
  assert (Hfresh : forall x, In x (rows (categories s)) ->
                     BudgetCategory_budget x s = Some b ->
                     BudgetCategory.category x <> bc_category d).
  { intros x Hx Hbx Hname.
    unfold BudgetCategorySerializer_validate,
      BudgetCategorySerializer_validate_uniqueness in Hval. simpl in Hval.
    destruct (filter _ (rows (categories s))) as [| y l] eqn:Hf; [| discriminate].
    assert (Hin : In x (filter
                     (category_in_budget (Some (bc_budget_month d))
                        (Some (bc_budget_year d)) (user_pk u) (Some (bc_category d)) s)
                     (rows (categories s)))).
    { apply filter_In. split; [assumption |]. unfold category_in_budget.
      unfold BudgetCategory_budget in Hbx.
      destruct (by_pk BudgetCategoryGroup.pk _ _) as [gx |]; [| discriminate].
      rewrite Hbx. apply andb_true_iff. split.
      - now apply String.eqb_eq.
      - now apply budget_matches_key. }
    rewrite Hf in Hin. exact Hin. }
  intros c1 c2 b0 H1 H2 Hb1 Hb2 Hname.
  rewrite Hcats in H1, H2.
  apply in_app_or in H1 as [H1 | [<- | []]]; apply in_app_or in H2 as [H2 | [<- | []]].
  - apply (Huniq c1 c2 b0); auto.
  - exfalso. rewrite Hnew in Hb2. injection Hb2 as <-.
    apply (Hfresh c1 H1 (Hold _ _ H1 Hb1)). exact Hname.
  - exfalso. rewrite Hnew in Hb1. injection Hb1 as <-.
    apply (Hfresh c2 H2 (Hold _ _ H2 Hb2)). symmetry. exact Hname.
  - reflexivity.
Qed.

Lemma existsb_pk_exists {A : Type} (pk : A -> Z) (k : Z) (l : list A) :
  existsb (fun r => pk r =? k) l = true -> exists r, In r l /\ pk r = k.
Proof.
  intros H. apply existsb_exists in H as (r & Hin & Hk).
  exists r. split; [assumption | now apply Z.eqb_eq].
Qed.

Lemma fk_okb_ok (s : Store) : fk_okb s = true -> fk_ok s.
Proof.
  unfold fk_okb. rewrite !andb_true_iff, !forallb_forall. intros [[Hg Hc] Ht].
  constructor.
  - intros g Hin. apply existsb_pk_exists. now apply Hg.
  - intros c Hin. apply existsb_pk_exists. now apply Hc.
  - intros t Hin. apply existsb_pk_exists. specialize (Ht t Hin).
    now apply andb_true_iff in Ht.
  - intros t Hin. apply existsb_pk_exists. specialize (Ht t Hin).
    now apply andb_true_iff in Ht.
Qed.

Lemma validated_create_keeps_names_unique_witness :
  names_unique_in_budgets
    (snd (BudgetCategorySerializer_create alice
            (mkBudgetCategoryData "JAN" 2024 "Food" "Living" (Some (dec 300 0)))
            january_store)).
Proof.
  apply (validated_create_keeps_names_unique alice
           (mkBudgetCategoryData "JAN" 2024 "Food" "Living" (Some (dec 300 0)))
           january_store).
  - apply (wf_run _).
  - apply fk_okb_ok. reflexivity.
  - intros c1 c2 b H1 H2 _ _ _. simpl in H1, H2.
    destruct H1 as [<- | []], H2 as [<- | []]. reflexivity.
  - reflexivity.
Defined.

(** With the foreign keys of the instance in place,
    [get_or_create_related] on an update is the one of a create, for the
    month, year and group name that the data gives or, where it gives
    none or a falsy one, the instance has. *)
Lemma get_or_create_related_instance_reduces (u : User) (instance : BudgetCategory.t)
  (d : BudgetCategoryPatch) (s : Store) (g0 : BudgetCategoryGroup.t) (b0 : Budget.t) :
  by_pk BudgetCategoryGroup.pk (BudgetCategory.group instance) (rows (groups s)) = Some g0 ->
  by_pk Budget.pk (BudgetCategoryGroup.budget g0) (rows (budgets s)) = Some b0 ->
  BudgetCategorySerializer_get_or_create_related_instance u instance d s
  = BudgetCategorySerializer_get_or_create_related u
      (mkBudgetCategoryData (or_string (bp_budget_month d) (Budget.month b0))
         (or_int (bp_budget_year d) (Budget.year b0)) ""
         (or_string (bp_group d) (BudgetCategoryGroup.name g0)) None) s.
Proof.
  intros Hg Hb.
  unfold BudgetCategorySerializer_get_or_create_related_instance,
    BudgetCategorySerializer_get_or_create_related, or_string, or_int,
    BudgetCategory_group, BudgetCategoryGroup_budget, bind, query, ret.
  destruct (truthy_string (bp_budget_month d)), (truthy_int (bp_budget_year d)),
    (truthy_string (bp_group d));
    cbv beta iota; rewrite ?Hg; cbv beta iota; rewrite ?Hb; cbv beta iota;
    rewrite ?Hg; cbv beta iota; rewrite ?Hb; cbv beta iota; rewrite ?Hg; reflexivity.
Qed.

Lemma by_pk_replace {A : Type} (pk : A -> Z) (k : Z) (r : A) (l : list A) :
  (exists x, In x l /\ pk x = k) -> pk r = k ->
  by_pk pk k (map (fun x => if pk x =? k then r else x) l) = Some r.
Proof.
  intros (x & Hin & Hx) Hr. unfold by_pk.
  induction l as [| a l IH]; simpl; [contradiction |].
  destruct (Z.eqb_spec (pk a) k) as [Ha | Ha].
  - rewrite Hr, Z.eqb_refl. reflexivity.
  - destruct (Z.eqb_spec (pk a) k); [contradiction |].
    destruct Hin as [-> | Hin]; [contradiction | auto].
Qed.

(** The whole of [update]. *)
Lemma BudgetCategorySerializer_update_spec (u : User) (instance : BudgetCategory.t)
  (d : BudgetCategoryPatch) (s : Store) (g0 : BudgetCategoryGroup.t) (b0 : Budget.t) :
  wf s -> In instance (rows (categories s)) ->
  by_pk BudgetCategoryGroup.pk (BudgetCategory.group instance) (rows (groups s)) = Some g0 ->
  by_pk Budget.pk (BudgetCategoryGroup.budget g0) (rows (budgets s)) = Some b0 ->
  exists b g s',
    let c := BudgetCategory.mk (BudgetCategory.pk instance)
               (Coalesce (bp_category d) (BudgetCategory.category instance))
               (BudgetCategoryGroup.pk g)
               (Coalesce (bp_limit d) (BudgetCategory.limit instance)) in
    BudgetCategorySerializer_update u instance d s = (Ok c, s')
    /\ wf s'
    /\ In b (rows (budgets s'))
    /\ Budget.unique_key b
       = (user_pk u, or_string (bp_budget_month d) (Budget.month b0),
          or_int (bp_budget_year d) (Budget.year b0))
    /\ In g (rows (groups s'))
    /\ BudgetCategoryGroup.unique_key g
       = (or_string (bp_group d) (BudgetCategoryGroup.name g0), Budget.pk b)
    /\ categories s'
       = replace_pk BudgetCategory.pk (BudgetCategory.pk instance) c (categories s)
    /\ payees s' = payees s /\ transactions s' = transactions s
    /\ (exists new, rows (budgets s') = rows (budgets s) ++ new)
    /\ (exists new, rows (groups s') = rows (groups s) ++ new).
Proof.
  intros Hwf Hin Hg0 Hb0.
  pose proof (wf_BudgetCategorySerializer_update u instance d s Hwf Hin) as Hwf'.
  destruct (get_or_create_related_spec u
              (mkBudgetCategoryData (or_string (bp_budget_month d) (Budget.month b0))
                 (or_int (bp_budget_year d) (Budget.year b0)) ""
                 (or_string (bp_group d) (BudgetCategoryGroup.name g0)) None) s Hwf)
    as (b & g & s1 & Hrel & Hwf1 & Hb & Hbk & Hg & Hgk & Hc1 & Hp1 & Ht1 & Hbud & Hgrp).
  simpl in Hbk, Hgk.
  set (c := BudgetCategory.mk (BudgetCategory.pk instance)
              (Coalesce (bp_category d) (BudgetCategory.category instance))
              (BudgetCategoryGroup.pk g)
              (Coalesce (bp_limit d) (BudgetCategory.limit instance))).
  assert (Hrun : BudgetCategorySerializer_update u instance d s
                 = (Ok c, set_categories
                            (replace_pk BudgetCategory.pk (BudgetCategory.pk instance) c
                               (categories s)) s1)).
  { unfold BudgetCategorySerializer_update. unfold bind at 1.
    rewrite (get_or_create_related_instance_reduces u instance d s g0 b0 Hg0 Hb0), Hrel.
    unfold bind, write, ret, save_row. fold c. cbn [BudgetCategory.pk c].
    change (BudgetCategory.pk c) with (BudgetCategory.pk instance).
    rewrite Hc1, (existsb_pk_In BudgetCategory.pk instance _ Hin). reflexivity. }
  rewrite Hrun in Hwf'. simpl in Hwf'.
  apply appended_or_same in Hbud, Hgrp.
  exists b, g, (set_categories
                  (replace_pk BudgetCategory.pk (BudgetCategory.pk instance) c (categories s))
                  s1).
  cbv zeta. fold c. split; [exact Hrun |]. simpl. splits; auto.
Qed.

(** X11: [BudgetCategorySerializer.update] of a category whose foreign
    keys are in place succeeds on a well-formed store and leaves a
    category of the same primary key, with the submitted name and limit
    where given, in a group of a budget of the requesting user; the
    month, the year and the group name are the submitted ones, except that
    a missing or empty month or group name and a missing year or the year
    0 are replaced by the instance's.  The number of categories does not
    change, payees and transactions are untouched, so [spent] of the
    category is what it was. *)
Theorem category_update_moves_the_category (u : User) (instance : BudgetCategory.t)
  (d : BudgetCategoryPatch) (s : Store) (g0 : BudgetCategoryGroup.t) (b0 : Budget.t) :
  wf s -> In instance (rows (categories s)) ->
  by_pk BudgetCategoryGroup.pk (BudgetCategory.group instance) (rows (groups s)) = Some g0 ->
  by_pk Budget.pk (BudgetCategoryGroup.budget g0) (rows (budgets s)) = Some b0 ->
  exists c g b s',
    BudgetCategorySerializer_update u instance d s = (Ok c, s')
    /\ BudgetCategory.pk c = BudgetCategory.pk instance
    /\ BudgetCategory.category c
       = Coalesce (bp_category d) (BudgetCategory.category instance)
    /\ BudgetCategory.limit c = Coalesce (bp_limit d) (BudgetCategory.limit instance)
    /\ by_pk BudgetCategory.pk (BudgetCategory.pk instance) (rows (categories s')) = Some c
    /\ by_pk BudgetCategoryGroup.pk (BudgetCategory.group c) (rows (groups s')) = Some g
    /\ BudgetCategoryGroup.name g
       = or_string (bp_group d) (BudgetCategoryGroup.name g0)
    /\ by_pk Budget.pk (BudgetCategoryGroup.budget g) (rows (budgets s')) = Some b
    /\ Budget.unique_key b
       = (user_pk u, or_string (bp_budget_month d) (Budget.month b0),
          or_int (bp_budget_year d) (Budget.year b0))
    /\ List.length (rows (categories s')) = List.length (rows (categories s))
    /\ payees s' = payees s /\ transactions s' = transactions s
    /\ BudgetCategory_spent c s' = BudgetCategory_spent instance s.
Proof.
  intros Hwf Hin Hg0 Hb0.
  destruct (BudgetCategorySerializer_update_spec u instance d s g0 b0 Hwf Hin Hg0 Hb0)
    as (b & g & s' & Hrun & Hwf' & Hb & Hbk & Hg & Hgk & Hcats & Hp & Ht & _ & _).
  cbv zeta in Hrun. injection Hgk as Hgn Hgb.
  eexists _, g, b, s'. split; [exact Hrun |]. simpl. splits; auto.
  - rewrite Hcats. simpl. apply by_pk_replace; [| reflexivity]. now exists instance.
  - apply by_pk_unique; [apply Hwf' | assumption].
  - rewrite Hgb. apply by_pk_unique; [apply Hwf' | assumption].
  - rewrite Hcats. simpl. apply length_map.
  - unfold BudgetCategory_spent, Transaction_objects_filter. simpl. now rewrite Ht.
Qed.

Lemma category_update_moves_the_category_witness :
  exists c g b s',
    BudgetCategorySerializer_update alice (BudgetCategory.mk 1 "Rent" 1 (dec 1000 0))
      (mkBudgetCategoryPatch (Some "FEB"%string) (Some 0) None (Some ""%string) None)
      january_store = (Ok c, s')
    /\ BudgetCategory.pk c = 1
    /\ by_pk BudgetCategoryGroup.pk (BudgetCategory.group c) (rows (groups s')) = Some g
    /\ BudgetCategoryGroup.name g = "Living"%string
    /\ by_pk Budget.pk (BudgetCategoryGroup.budget g) (rows (budgets s')) = Some b
    /\ Budget.unique_key b = (1, "FEB"%string, 2024).
Proof.
  destruct (category_update_moves_the_category alice
              (BudgetCategory.mk 1 "Rent" 1 (dec 1000 0))
              (mkBudgetCategoryPatch (Some "FEB"%string) (Some 0) None (Some ""%string) None)
              january_store (BudgetCategoryGroup.mk 1 "Living" 1) alice_january)
    as (c & g & b & s' & H1 & H2 & _ & _ & _ & H3 & H4 & H5 & H6 & _);
    [apply (wf_run _) | left; reflexivity | reflexivity | reflexivity |].
  exists c, g, b, s'. splits; assumption.
Defined.

(** X12: [validate] does not see a rename: when the data of an update
    leaves out the month, the year or the category name, [validate]
    accepts it whatever the store holds.  So a patch that carries only a
    new name, one that another category of the same group already has,
    passes [validate], and [update] then leaves two categories of that
    name in the one group. *)
Theorem rename_bypasses_validate_uniqueness (u : User) (c1 c2 : BudgetCategory.t)
  (g0 : BudgetCategoryGroup.t) (b0 : Budget.t) (s : Store) :
  wf s ->
  In c1 (rows (categories s)) -> In c2 (rows (categories s)) ->
  BudgetCategory.pk c2 <> BudgetCategory.pk c1 ->
  BudgetCategory.group c2 = BudgetCategory.group c1 ->
  by_pk BudgetCategoryGroup.pk (BudgetCategory.group c1) (rows (groups s)) = Some g0 ->
  by_pk Budget.pk (BudgetCategoryGroup.budget g0) (rows (budgets s)) = Some b0 ->
  Budget.owner b0 = user_pk u ->
  let d := mkBudgetCategoryPatch None None (Some (BudgetCategory.category c2)) None None in
  (forall instance m y n g l, m = None \/ y = None \/ n = None ->
     BudgetCategorySerializer_validate u instance (mkBudgetCategoryPatch m y n g l) s
     = inr (mkBudgetCategoryPatch m y n g l))
  /\ exists c1' s',
       BudgetCategorySerializer_update u c1 d s = (Ok c1', s')
       /\ In c1' (rows (categories s')) /\ In c2 (rows (categories s'))
       /\ BudgetCategory.pk c1' <> BudgetCategory.pk c2
       /\ BudgetCategory.category c1' = BudgetCategory.category c2
       /\ BudgetCategory.group c1' = BudgetCategory.group c2.
Proof.
  intros Hwf H1 H2 Hpk Hgrp Hg0 Hb0 Ho d. split.
  - intros instance m y n g l Hmiss.
    unfold BudgetCategorySerializer_validate, BudgetCategorySerializer_validate_uniqueness.
    cbn [bp_budget_month bp_budget_year bp_category].
    assert (Hnone : filter (category_in_budget m y (user_pk u) n s) (rows (categories s))
                    = []).
    { apply filter_none. apply Forall_forall. intros x _. unfold category_in_budget.
      destruct m, y, n; try reflexivity; destruct Hmiss as [H | [H | H]]; discriminate. }
    rewrite Hnone. now destruct instance.
  - destruct (BudgetCategorySerializer_update_spec u c1 d s g0 b0 Hwf H1 Hg0 Hb0)
      as (b & g & s' & Hrun & Hwf' & Hb & Hbk & Hg & Hgk & Hcats & _ & _ & Hbud & Hgs).
    cbv zeta in Hrun. simpl in Hbk, Hgk. unfold or_string, or_int in Hbk, Hgk.
    simpl in Hbk, Hgk.
    destruct (by_pk_In _ _ _ _ Hb0) as [Hb0in Hb0pk].
    destruct (by_pk_In _ _ _ _ Hg0) as [Hg0in Hg0pk].
    assert (b = b0).
    { apply (NoDup_map_eq Budget.unique_key (rows (budgets s'))); auto.
      - apply Hwf'.
      - destruct Hbud as [new ->]. apply in_or_app. now left.
      - rewrite Hbk. unfold Budget.unique_key. now rewrite Ho. }
    subst b.
    assert (g = g0).
    { apply (NoDup_map_eq BudgetCategoryGroup.unique_key (rows (groups s'))); auto.
      - apply Hwf'.
      - destruct Hgs as [new ->]. apply in_or_app. now left.
      - rewrite Hgk. unfold BudgetCategoryGroup.unique_key. now rewrite Hb0pk. }
    subst g.
    eexists _, s'. split; [exact Hrun |]. simpl. rewrite Hcats. simpl. splits.
    + apply in_map_iff. exists c1. now rewrite Z.eqb_refl.
    + apply in_map_iff. exists c2.
      destruct (Z.eqb_spec (BudgetCategory.pk c2) (BudgetCategory.pk c1));
        [contradiction | auto].
    + congruence.
    + reflexivity.
    + congruence.
Qed.

Lemma rename_bypasses_validate_uniqueness_witness :
  exists c1' s',
    BudgetCategorySerializer_update alice (BudgetCategory.mk 2 "Food" 1 (dec 300 0))
      (mkBudgetCategoryPatch None None (Some "Rent"%string) None None) two_months_store
    = (Ok c1', s')
    /\ In c1' (rows (categories s'))
    /\ In (BudgetCategory.mk 1 "Rent" 1 (dec 1000 0)) (rows (categories s'))
    /\ BudgetCategory.pk c1' <> 1
    /\ BudgetCategory.category c1' = "Rent"%string
    /\ BudgetCategory.group c1' = 1.
Proof.
  apply (rename_bypasses_validate_uniqueness alice
           (BudgetCategory.mk 2 "Food" 1 (dec 300 0))
           (BudgetCategory.mk 1 "Rent" 1 (dec 1000 0))
           (BudgetCategoryGroup.mk 1 "Living" 1) alice_january two_months_store).
  - apply (wf_run _).
  - right. left. reflexivity.
  - left. reflexivity.
  - discriminate.
  - reflexivity.
  - reflexivity.
  - reflexivity.
  - reflexivity.
Defined.

(** ** Creating transactions *)

(** What the payee get-or-create does where payee names are unique per
    owner: it returns a payee of that name and owner, found as it was or
    appended. *)
Lemma Payee_objects_get_or_create_spec (n : string) (o : Z) (s : Store) :
  NoDup (map Payee.unique_key (rows (payees s))) ->
  exists p c s1,
    Payee_objects_get_or_create (Some n) o s = (Ok (p, c), s1)
    /\ Payee.unique_key p = (n, o)
    /\ In p (rows (payees s1))
    /\ ((c = false /\ s1 = s /\ In p (rows (payees s)))
        \/ (c = true /\ filter (payee_matches n o) (rows (payees s)) = []
            /\ p = Payee.mk (next_pk (payees s)) n o
            /\ s1 = set_payees (mkTable (rows (payees s) ++ [p])
                                  (next_pk (payees s) + 1)) s)).
Proof.
  intros Hnd. unfold Payee_objects_get_or_create, Payee_objects_create.
  destruct (get_unique Payee.unique_key (payee_matches n o) (n, o) (rows (payees s)))
    as [[Hnil Hget] | (r & Hr & Hget)];
    [intros r; apply payee_matches_key | assumption | |]; rewrite Hget.
  - rewrite Hnil. unfold insert. simpl.
    eexists _, true, _. split; [reflexivity |]. split; [reflexivity |].
    split; [simpl; apply in_or_app; right; now left |].
    right. splits; reflexivity.
  - assert (Hin : In r (filter (payee_matches n o) (rows (payees s))))
      by (rewrite Hr; now left).
    apply filter_In in Hin as [Hin Hm].
    exists r, false, s. split; [reflexivity |].
    split; [now apply payee_matches_key |]. split; [assumption |]. left. auto.
Qed.



(** ** Validating a copy-budget request *)

Lemma CharField_run_validation_cases (data : option string) :
  match CharField_run_validation None data with
  | inr m => exists raw, data = Some raw /\ m = str_strip raw
                         /\ m <> ""%string /\ has_null_character m = false
  | inl messages => messages <> [] /\ bad_text data
  end.
Proof.
  unfold CharField_run_validation, bad_text. destruct data as [raw |].
  - destruct (String.eqb_spec (str_strip raw) "") as [He | Hne].
    + split; [discriminate |]. right. exists raw. auto.
    + cbn [app]. destruct (has_null_character (str_strip raw)) eqn:Hnul.
      * split; [discriminate |]. right. exists raw. auto.
      * exists raw. auto.
  - split; [discriminate |]. now left.
Qed.

Lemma bad_text_not_valid (data : option string) (raw : string) :
  data = Some raw -> str_strip raw <> ""%string ->
  has_null_character (str_strip raw) = false -> ~ bad_text data.
Proof.
  intros -> Hne Hnul [Hnone | (raw' & [= <-] & [He | Ht])];
    [discriminate | contradiction | congruence].
Qed.

(** X14: [CopyBudgetSerializer] lets a request through exactly when it
    names a year and a month that, stripped of the whitespace around it,
    is not empty and holds no NUL, and its source is left out or is the
    primary key of a budget of the requesting user.  The month handed on
    is the stripped one, and the source that reaches [copy_budget] through
    the action is [None] or a row of the budgets table owned by the
    requester; whether the requester is an administrator plays no part. *)
Theorem copy_budget_request_validation (u : User) (d : CopyBudgetData) (s : Store)
  (src : option Budget.t) (y : Z) (m : string) :
  CopyBudgetSerializer_is_valid u d s = inr (src, y, m) <->
  cb_target_year d = Some y
  /\ (exists raw, cb_target_month d = Some raw /\ m = str_strip raw)
  /\ m <> ""%string /\ has_null_character m = false
  /\ match src with
     | None => cb_source d = None
     | Some b => exists k, cb_source d = Some k
                           /\ by_pk Budget.pk k (rows (budgets s)) = Some b
                           /\ In b (rows (budgets s))
                           /\ Budget.owner b = user_pk u
     end.
Proof.
  unfold CopyBudgetSerializer_is_valid, CopyBudgetSerializer_validate_source.
  pose proof (CharField_run_validation_cases (cb_target_month d)) as HM. split.
  - intros H.
    destruct (CharField_run_validation None (cb_target_month d)) as [msgs | m0];
      destruct (cb_target_year d) as [y0 |];
      destruct (cb_source d) as [k |];
      try (destruct (by_pk Budget.pk k (rows (budgets s))) as [b |] eqn:Hb);
      try (destruct (Z.eqb_spec (Budget.owner b) (user_pk u)));
      cbn [negb] in H; try discriminate H;
      injection H as <- <- <-; destruct HM as (raw & Hraw & Hm0 & Hne & Hnul);
      splits; eauto.
    exists k. splits; auto. now apply by_pk_In in Hb.
  - intros (Hy & (raw & Hraw & Hm) & Hne & Hnul & Hsrc). rewrite Hy.
    destruct (CharField_run_validation None (cb_target_month d)) as [msgs | m0].
    + exfalso. destruct HM as [_ HM]. subst m.
      now apply (bad_text_not_valid _ raw Hraw Hne Hnul).
    + destruct HM as (raw' & Hraw' & -> & _). rewrite Hraw in Hraw'.
      injection Hraw' as <-. subst m.
      destruct src as [b |].
      * destruct Hsrc as (k & -> & -> & _ & ->). now rewrite Z.eqb_refl.
      * now rewrite Hsrc.
Qed.

Lemma copy_budget_request_validation_witness :
  CopyBudgetSerializer_is_valid alice
    (mkCopyBudgetData (Some 1) (Some 2024) (Some " FEB "%string)) shared_store
  = inr (Some alice_january, 2024, "FEB"%string).
Proof.
  apply (copy_budget_request_validation alice
           (mkCopyBudgetData (Some 1) (Some 2024) (Some " FEB "%string)) shared_store).
  splits; try reflexivity; [now exists " FEB "%string | discriminate |].
  exists 1. splits; try reflexivity. left. reflexivity.
Defined.

Ltac break_hyps :=
  repeat match goal with
         | H : _ /\ _ |- _ => destruct H
         | H : _ \/ _ |- _ => destruct H
         | H : exists _, _ |- _ => destruct H
         | H : False |- _ => destruct H
         | H : Some _ = Some _ |- _ => injection H as H; try subst
         | H : (_, _) = (_, _) |- _ => injection H as ? ?
         end.

(** X15: the copy-budget action answers 400 exactly when a field of the
    request is bad: the source names no budget or a budget of another
    user, the year is missing, or the month is missing, empty once
    stripped, or holds a NUL.  It then leaves the store as it was, and the
    answer names every bad field, not only the first. *)
Theorem copy_budget_action_bad_request (u : User) (d : CopyBudgetData) (s : Store) :
  let bad_source :=
    exists k, cb_source d = Some k
              /\ forall b, by_pk Budget.pk k (rows (budgets s)) = Some b ->
                           Budget.owner b <> user_pk u in
  let bad_year := cb_target_year d = None in
  let bad_month := bad_text (cb_target_month d) in
  let r := fst (BudgetViewSet_copy_budget_action u d s) in
  (status_code r = HTTP_400_BAD_REQUEST <-> bad_source \/ bad_year \/ bad_month)
  /\ (status_code r = HTTP_400_BAD_REQUEST ->
      snd (BudgetViewSet_copy_budget_action u d s) = s)
  /\ (In "source"%string (map fst (errors r)) <-> bad_source)
  /\ (In "target_year"%string (map fst (errors r)) <-> bad_year)
  /\ (In "target_month"%string (map fst (errors r)) <-> bad_month).
Proof.
  cbv zeta.
  unfold BudgetViewSet_copy_budget_action, CopyBudgetSerializer_is_valid,
    CopyBudgetSerializer_validate_source.
  pose proof (CharField_run_validation_cases (cb_target_month d)) as HM.
  assert (HMok : forall m0, CharField_run_validation None (cb_target_month d) = inr m0 ->
                            ~ bad_text (cb_target_month d)).
  { intros m0 E. rewrite E in HM. destruct HM as (raw & Hraw & -> & Hne & Hnul).
    now apply (bad_text_not_valid _ raw). }
  destruct (CharField_run_validation None (cb_target_month d)) as [msgs | m0] eqn:Hmo;
    [destruct HM as [Hmsgs HM]; destruct msgs as [| msg msgs]; [now destruct Hmsgs |]
    | specialize (HMok m0 eq_refl)];
    destruct (cb_target_year d) as [y0 |];
    destruct (cb_source d) as [k |];
    try (destruct (by_pk Budget.pk k (rows (budgets s))) as [b |] eqn:Hb);
    try (destruct (Z.eqb_spec (Budget.owner b) (user_pk u)));
    cbn [negb];
    try (destruct (BudgetViewSet_copy_budget _ _ _ _ s) as [[? | ?] ?]);
    cbn [fst snd status_code errors field_errors field_error_list app map In];
    unfold HTTP_400_BAD_REQUEST, HTTP_200_OK, HTTP_500_INTERNAL_SERVER_ERROR;
    splits; try split; intros; break_hyps;
    try discriminate; try congruence; try reflexivity; try tauto;
    try (exfalso; match goal with
                  | H : forall b, _ = Some b -> _ |- _ => now apply (H _ Hb)
                  end);
    try (left; exists k; split; [reflexivity | intros; congruence]);
    try (exists k; split; [reflexivity | intros; congruence]);
    try (match goal with
         | H : In _ (map fst (map _ _)) |- _ =>
             rewrite map_map in H; cbn [fst] in H;
             apply in_map_iff in H as (? & ? & _); discriminate
         end);
    auto 6.
Qed.

(** A month of spaces is refused, and a padded month is stripped before
    it reaches [copy_budget]. *)
Example copy_budget_action_strips_the_month :
  BudgetViewSet_copy_budget_action alice
    (mkCopyBudgetData None (Some 2024) (Some "   "%string)) january_store
  = (mkResponse 400 [("target_month", "This field may not be blank.")%string],
     january_store)
  /\ BudgetViewSet_copy_budget_action alice
       (mkCopyBudgetData None (Some 2024) (Some " FEB "%string)) january_store
     = (mkResponse 200 [],
        snd (BudgetViewSet_copy_budget 2024 "FEB" alice None january_store))
  /\ fst (BudgetViewSet_copy_budget_action alice
            (mkCopyBudgetData (Some 9) (Some 2024) (Some "FEB"%string)) january_store)
     = mkResponse 400
         [("source", "Invalid pk " ++ quote ++ "9" ++ quote
                     ++ " - object does not exist.")%string].
Proof. repeat split; vm_compute; reflexivity. Qed.

(** X16: copy-budget for a month code that is not one of [MONTH_CHOICES],
    with no source given, raises [KeyError] out of [previous], and that
    after the target get-or-create has run: the store it leaves holds a
    budget of that code, year and user, appended as a new row when none
    was there, while groups, categories, payees and transactions are as
    they were. *)
Theorem copy_budget_unknown_month_keeps_target (y : Z) (m : string) (u : User)
  (s : Store) :
  wf s ->
  Budget.MONTH_LOOKUP m = None ->
  fst (BudgetViewSet_copy_budget y m u None s) = Raise KeyError
  /\ groups (snd (BudgetViewSet_copy_budget y m u None s)) = groups s
  /\ categories (snd (BudgetViewSet_copy_budget y m u None s)) = categories s
  /\ payees (snd (BudgetViewSet_copy_budget y m u None s)) = payees s
  /\ transactions (snd (BudgetViewSet_copy_budget y m u None s)) = transactions s
  /\ (exists t, In t (rows (budgets (snd (BudgetViewSet_copy_budget y m u None s))))
                /\ Budget.unique_key t = (user_pk u, m, y))
  /\ (Budget_objects_filter y m (user_pk u) s = [] ->
      rows (budgets (snd (BudgetViewSet_copy_budget y m u None s)))
      = rows (budgets s) ++ [Budget.mk (next_pk (budgets s)) m y (user_pk u)]).
Proof.
  intros Hwf Hm.
  destruct (copy_budget_cases y m u None s (unique_budgets _ Hwf))
    as (t & c & s1 & Hgoc & Hkey & Hin & Hg & Hc & Hp & Ht & _ & _ & Hrun).
  assert (Hmt : Budget.month t = m) by (unfold Budget.unique_key in Hkey; congruence).
  assert (Hprev : fst (Budget_previous t s) = Raise KeyError).
  { unfold Budget_previous. rewrite Hmt, Hm. reflexivity. }
  rewrite Hprev in Hrun. rewrite Hrun. cbn [fst snd]. splits; auto.
  - exists t. now split.
  - intros Hnil. unfold Budget_objects_get_or_create, Budget_objects_create in Hgoc.
    rewrite Hnil in Hgoc. cbn in Hgoc. injection Hgoc as <- <- <-. reflexivity.
Qed.

Lemma copy_budget_unknown_month_keeps_target_witness :
  fst (BudgetViewSet_copy_budget 2024 "XYZ" bob None january_store) = Raise KeyError
  /\ rows (budgets (snd (BudgetViewSet_copy_budget 2024 "XYZ" bob None january_store)))
     = rows (budgets january_store)
       ++ [Budget.mk (next_pk (budgets january_store)) "XYZ" 2024 (user_pk bob)].
Proof.
  destruct (copy_budget_unknown_month_keeps_target 2024 "XYZ" bob january_store
              (wf_run _) eq_refl) as (H1 & _ & _ & _ & _ & _ & H2).
  split; [exact H1 | apply H2; reflexivity].
Defined.

(** ** Deleting *)

Lemma In_delete_where {A : Type} (gone : A -> bool) (t : Table A) (r : A) :
  In r (rows (delete_where gone t)) <-> In r (rows t) /\ gone r = false.
Proof.
  unfold delete_where. cbn [rows]. rewrite filter_In.
  destruct (gone r); cbn [negb]; intuition congruence.
Qed.

Lemma mem_map_filter_false {A : Type} (pk : A -> Z) (gone : A -> bool) (l : list A)
  (r : A) :
  In r l -> mem (pk r) (map pk (filter gone l)) = false -> gone r = false.
Proof.
  intros Hin Hmem. apply mem_false_iff in Hmem.
  destruct (gone r) eqn:E; [| reflexivity].
  exfalso. apply Hmem. apply in_map. apply filter_In. now split.
Qed.

(** Deleting groups with their cascade leaves no reference dangling. *)
Lemma fk_ok_delete_groups_where (gone : BudgetCategoryGroup.t -> bool) (s : Store) :
  fk_ok s -> fk_ok (delete_groups_where gone s).
Proof.
  intros [Hgb Hcg Htc Htp]. unfold delete_groups_where.
  constructor; cbn [budgets groups categories payees transactions].
  - intros g Hg. apply In_delete_where in Hg as [Hg _]. now apply Hgb.
  - intros c Hc. apply In_delete_where in Hc as [Hc Hkeep].
    destruct (Hcg c Hc) as (g & Hg & Hpk). exists g. split; [| assumption].
    apply In_delete_where. split; [assumption |].
    rewrite <- Hpk in Hkeep.
    now apply (mem_map_filter_false BudgetCategoryGroup.pk gone (rows (groups s))).
  - intros t Ht. apply In_delete_where in Ht as [Ht Hkeep].
    destruct (Htc t Ht) as (c & Hc & Hpk). exists c. split; [| assumption].
    apply In_delete_where. split; [assumption |].
    rewrite <- Hpk in Hkeep.
    now apply (mem_map_filter_false BudgetCategory.pk _ (rows (categories s)) c Hc) in Hkeep.
  - intros t Ht. apply In_delete_where in Ht as [Ht _]. now apply Htp.
Qed.

(** X17: with [on_delete=CASCADE] on every foreign key, deleting a budget,
    a group, a category, a payee or a transaction of a store in which
    every foreign key names a row leaves a store in which every foreign
    key names a row; the deleted row is gone and the rows of its own
    table with another primary key stay. *)
Theorem cascade_deletes_keep_references (k : Z) (s : Store) :
  fk_ok s ->
  (fk_ok (Budget_delete k s)
   /\ forall b, In b (rows (budgets (Budget_delete k s)))
                <-> In b (rows (budgets s)) /\ Budget.pk b <> k)
  /\ (fk_ok (delete_groups_where (fun g => BudgetCategoryGroup.pk g =? k) s)
      /\ forall g, In g (rows (groups
                            (delete_groups_where
                               (fun g => BudgetCategoryGroup.pk g =? k) s)))
                   <-> In g (rows (groups s)) /\ BudgetCategoryGroup.pk g <> k)
  /\ (fk_ok (BudgetCategory_delete k s)
      /\ forall c, In c (rows (categories (BudgetCategory_delete k s)))
                   <-> In c (rows (categories s)) /\ BudgetCategory.pk c <> k)
  /\ (fk_ok (Payee_delete k s)
      /\ forall p, In p (rows (payees (Payee_delete k s)))
                   <-> In p (rows (payees s)) /\ Payee.pk p <> k)
  /\ (fk_ok (Transaction_delete k s)
      /\ forall t, In t (rows (transactions (Transaction_delete k s)))
                   <-> In t (rows (transactions s)) /\ Transaction.pk t <> k).
Proof.
  intros Hfk.
  assert (Hneq : forall a, (a =? k) = false <-> a <> k) by (intros a; apply Z.eqb_neq).
  splits.
  - pose proof (fk_ok_delete_groups_where
                  (fun g => BudgetCategoryGroup.budget g =? k) s Hfk) as [Hgb Hcg Htc Htp].
    unfold Budget_delete. constructor; try assumption.
    intros g Hg. destruct (Hgb g Hg) as (b & Hb & Hpk). exists b. split; [| assumption].
    cbn [budgets set_budgets]. apply In_delete_where. split; [assumption |].
    cbn [groups delete_groups_where] in Hg. apply In_delete_where in Hg as [_ Hkeep].
    rewrite Hpk. exact Hkeep.
  - intros b. unfold Budget_delete. cbn [budgets set_budgets delete_groups_where].
    rewrite In_delete_where, Hneq. reflexivity.
  - now apply fk_ok_delete_groups_where.
  - intros g. cbn [groups delete_groups_where]. rewrite In_delete_where, Hneq. reflexivity.
  - destruct Hfk as [Hgb Hcg Htc Htp]. unfold BudgetCategory_delete.
    constructor; cbn [budgets groups categories payees transactions
                        set_transactions set_categories].
    + assumption.
    + intros c Hc. apply In_delete_where in Hc as [Hc _]. now apply Hcg.
    + intros t Ht. apply In_delete_where in Ht as [Ht Hkeep].
      destruct (Htc t Ht) as (c & Hc & Hpk). exists c. split; [| assumption].
      apply In_delete_where. split; [assumption |]. now rewrite Hpk.
    + intros t Ht. apply In_delete_where in Ht as [Ht _]. now apply Htp.
  - intros c. unfold BudgetCategory_delete.
    cbn [categories set_transactions set_categories].
    rewrite In_delete_where, Hneq. reflexivity.
  - destruct Hfk as [Hgb Hcg Htc Htp]. unfold Payee_delete.
    constructor; cbn [budgets groups categories payees transactions
                        set_transactions set_payees].
    + assumption.
    + assumption.
    + intros t Ht. apply In_delete_where in Ht as [Ht _]. now apply Htc.
    + intros t Ht. apply In_delete_where in Ht as [Ht Hkeep].
      destruct (Htp t Ht) as (p & Hp & Hpk). exists p. split; [| assumption].
      apply In_delete_where. split; [assumption |]. now rewrite Hpk.
  - intros p. unfold Payee_delete. cbn [payees set_transactions set_payees].
    rewrite In_delete_where, Hneq. reflexivity.
  - destruct Hfk as [Hgb Hcg Htc Htp]. unfold Transaction_delete.
    constructor; cbn [budgets groups categories payees transactions set_transactions];
      try assumption.
    + intros t Ht. apply In_delete_where in Ht as [Ht _]. now apply Htc.
    + intros t Ht. apply In_delete_where in Ht as [Ht _]. now apply Htp.
  - intros t. unfold Transaction_delete. cbn [transactions set_transactions].
    rewrite In_delete_where, Hneq. reflexivity.
Qed.

Lemma cascade_deletes_keep_references_witness :
  fk_ok (Budget_delete 1 shared_store)
  /\ fk_ok (Payee_delete 2 shared_store)
  /\ ~ In alice_rent_payment (rows (transactions (Payee_delete 2 shared_store))).
Proof.
  destruct (cascade_deletes_keep_references 1 shared_store
              (fk_okb_ok shared_store eq_refl)) as ((H1 & _) & _).
  destruct (cascade_deletes_keep_references 2 shared_store
              (fk_okb_ok shared_store eq_refl)) as (_ & _ & _ & (H2 & _) & _).
  split; [exact H1 | split; [exact H2 |]].
  vm_compute. tauto.
Defined.

(** Sums over a split of the rows. *)
Lemma total_filter_split {A : Type} (f : A -> Decimal) (p : A -> bool) (l : list A) :
  total (map f l)
  = total (map f (filter p l)) + total (map f (filter (fun x => negb (p x)) l)).
Proof.
  unfold total. induction l as [| a l IH]; cbn [filter map fold_right]; [reflexivity |].
  destruct (p a); cbn [negb map fold_right]; lia.
Qed.

Lemma filter_comm {A : Type} (p q : A -> bool) (l : list A) :
  filter p (filter q l) = filter q (filter p l).
Proof.
  induction l as [| a l IH]; cbn [filter]; [reflexivity |].
  destruct (p a) eqn:Ep; destruct (q a) eqn:Eq; cbn [filter];
    rewrite ?Ep, ?Eq, IH; reflexivity.
Qed.

(** X18: [on_delete=CASCADE] of [Transaction.payee] reaches [spent]:
    deleting a payee lowers what a category has spent by the amounts of
    the category's transactions with that payee, and deleting one
    transaction lowers it by the amounts of the category's rows of that
    primary key; deleting the category itself leaves it nothing spent. *)
Theorem deletes_lower_spent (c : BudgetCategory.t) (k : Z) (s : Store) :
  BudgetCategory_spent c (Payee_delete k s)
  = BudgetCategory_spent c s
    - total (map Transaction.amount
               (filter (fun t => Transaction.payee t =? k)
                  (Transaction_objects_filter (BudgetCategory.pk c) s)))
  /\ BudgetCategory_spent c (Transaction_delete k s)
     = BudgetCategory_spent c s
       - total (map Transaction.amount
                  (filter (fun t => Transaction.pk t =? k)
                     (Transaction_objects_filter (BudgetCategory.pk c) s)))
  /\ BudgetCategory_spent c (BudgetCategory_delete (BudgetCategory.pk c) s) = Decimal_0.
Proof.
  unfold BudgetCategory_spent. rewrite !Coalesce_Sum_total.
  unfold Payee_delete, Transaction_delete, BudgetCategory_delete, Transaction_objects_filter,
    delete_where.
  cbn [transactions set_transactions set_payees set_categories rows].
  splits.
  - rewrite (total_filter_split Transaction.amount (fun t => Transaction.payee t =? k)
               (filter _ (rows (transactions s)))).
    rewrite (filter_comm _ (fun t => negb (Transaction.payee t =? k))). lia.
  - rewrite (total_filter_split Transaction.amount (fun t => Transaction.pk t =? k)
               (filter _ (rows (transactions s)))).
    rewrite (filter_comm _ (fun t => negb (Transaction.pk t =? k))). lia.
  - rewrite filter_filter_negb. reflexivity.
Qed.

Example payee_delete_clears_spent :
  let c := BudgetCategory.mk 1 "Rent" 1 (dec 1000 0) in
  In c (rows (categories shared_store))
  /\ BudgetCategory_spent c shared_store = dec 1000 0
  /\ BudgetCategory_spent c (Payee_delete 2 shared_store) = Decimal_0.
Proof. cbv zeta. split; [now left | split; reflexivity]. Qed.

(** ** Get-or-create *)

Lemma get_of_member {A K : Type} (key : A -> K) (f : A -> bool) (k : K) (l : list A)
  (r : A) :
  (forall x, f x = true <-> key x = k) -> NoDup (map key l) ->
  In r l -> key r = k -> get (filter f l) = Ok r.
Proof.
  intros Hf Hnd Hin Hk.
  assert (H : In r (filter f l)) by (apply filter_In; split; [assumption | now apply Hf]).
  destruct (get_unique key f k l Hf Hnd) as [[Hnil _] | (x & Hx & ->)].
  - rewrite Hnil in H. destruct H.
  - rewrite Hx in H. destruct H as [-> | []]. reflexivity.
Qed.


